(** * e2eagent: the ingestion / normalisation core, embedded in Rocq

    Shallow embedding of [scripts/ingest.py] (value cleaning, leader and
    team-stat extraction, text synthesis, metadata assembly, stable
    identifier, deduplication), of the lookups of [process_scores] in
    [scripts/update_vector_db.py], and of [SportsRetriever.search] in
    [src/tools/retriever.py].

    Conventions.
    - A Python [str] is a [string]; each [ascii] stands for one code point
      below 256.  Every string literal of the sources is ASCII.
    - A JSON document decoded by [json.loads] is a [json] value; a Python
      [dict] is an association list in insertion order with pairwise
      distinct keys ([wf_json]).  A [float] is kept by its truth value and
      its [repr], the two things this code can observe of it.
    - Code that may raise returns in the error monad [res]; a [try] block
      is a [match] on the result.
    - [hashlib.md5] and [json.dumps] are modelled in full; [json.loads],
      used by the retriever only, is a parameter. *)

From Stdlib Require Import ZArith List String Ascii Bool Lia Permutation.
From Stdlib Require Import DecimalString.
Import ListNotations.
Open Scope string_scope.

(** ** Python string primitives *)

Module PyStr.

(** [str.isspace] restricted to code points below 256:
    U+0009..U+000D, U+001C..U+0020, U+0085 and U+00A0. *)
Definition is_space (c : ascii) : bool :=
  let n := nat_of_ascii c in
  (Nat.leb 9 n && Nat.leb n 13) || (Nat.leb 28 n && Nat.leb n 32)
  || Nat.eqb n 133 || Nat.eqb n 160.

(** [s.lstrip()] *)
Fixpoint lstrip (s : string) : string :=
  match s with
  | EmptyString => EmptyString
  | String c r => if is_space c then lstrip r else s
  end.

(** [s.rstrip()] *)
Fixpoint rstrip (s : string) : string :=
  match s with
  | EmptyString => EmptyString
  | String c r =>
      match rstrip r with
      | EmptyString => if is_space c then EmptyString else String c EmptyString
      | r' => String c r'
      end
  end.

(** [s.strip()] *)
Definition strip (s : string) : string := rstrip (lstrip s).

(** [s.split(sep)] for a one-character separator: never the empty list. *)
Fixpoint split (sep : ascii) (s : string) : list string :=
  match s with
  | EmptyString => [EmptyString]
  | String c r =>
      if Ascii.eqb c sep then EmptyString :: split sep r
      else match split sep r with
           | [] => [String c EmptyString]
           | p :: ps => String c p :: ps
           end
  end.

(** [sep.join(l)] *)
Fixpoint join (sep : string) (l : list string) : string :=
  match l with
  | [] => EmptyString
  | [x] => x
  | x :: r => x ++ sep ++ join sep r
  end.

(** [c in s] for a single character [c]. *)
Fixpoint has_char (c : ascii) (s : string) : bool :=
  match s with
  | EmptyString => false
  | String d r => Ascii.eqb d c || has_char c r
  end.

(** [s.startswith(p)] *)
Definition startswith (p s : string) : bool := String.prefix p s.

(** [p in s] for strings: [p] occurs as a substring of [s]. *)
Fixpoint contains (p s : string) : bool :=
  String.prefix p s ||
  match s with
  | EmptyString => false
  | String _ r => contains p r
  end.

(** The double quote character. *)
Definition dquote : ascii := "034"%char.

(** [str(n)] for an integer. *)
Definition str_of_Z (z : Z) : string := NilZero.string_of_int (Z.to_int z).

End PyStr.
Import PyStr.

(** ** [clean_display_value] (ingest.py, lines 11-16) *)

Definition clean_display_value (val : string) : string :=
  if String.eqb val "" then "N/A"
  else
    let parts := split "," val in
    let cleaned := map strip (filter (fun p => negb (has_char "/" p)) parts) in
    match cleaned with
    | [] => val
    | _ :: _ => join ", " cleaned
    end.

(** ** [hashlib.md5(...).hexdigest()] (RFC 1321), on words as [Z] modulo 2^32 *)

Module MD5.
Local Open Scope Z_scope.

Definition w32 (x : Z) : Z := x mod 2 ^ 32.
Definition rotl (x : Z) (n : Z) : Z :=
  w32 (Z.lor (Z.shiftl x n) (Z.shiftr (w32 x) (32 - n))).
Definition not32 (x : Z) : Z := Z.lxor x 0xffffffff.

Definition K : list Z :=
  [0xd76aa478; 0xe8c7b756; 0x242070db; 0xc1bdceee;
   0xf57c0faf; 0x4787c62a; 0xa8304613; 0xfd469501;
   0x698098d8; 0x8b44f7af; 0xffff5bb1; 0x895cd7be;
   0x6b901122; 0xfd987193; 0xa679438e; 0x49b40821;
   0xf61e2562; 0xc040b340; 0x265e5a51; 0xe9b6c7aa;
   0xd62f105d; 0x02441453; 0xd8a1e681; 0xe7d3fbc8;
   0x21e1cde6; 0xc33707d6; 0xf4d50d87; 0x455a14ed;
   0xa9e3e905; 0xfcefa3f8; 0x676f02d9; 0x8d2a4c8a;
   0xfffa3942; 0x8771f681; 0x6d9d6122; 0xfde5380c;
   0xa4beea44; 0x4bdecfa9; 0xf6bb4b60; 0xbebfbc70;
   0x289b7ec6; 0xeaa127fa; 0xd4ef3085; 0x04881d05;
   0xd9d4d039; 0xe6db99e5; 0x1fa27cf8; 0xc4ac5665;
   0xf4292244; 0x432aff97; 0xab9423a7; 0xfc93a039;
   0x655b59c3; 0x8f0ccc92; 0xffeff47d; 0x85845dd1;
   0x6fa87e4f; 0xfe2ce6e0; 0xa3014314; 0x4e0811a1;
   0xf7537e82; 0xbd3af235; 0x2ad7d2bb; 0xeb86d391].

Definition shifts : list Z :=
  [7; 12; 17; 22; 7; 12; 17; 22; 7; 12; 17; 22; 7; 12; 17; 22;
   5; 9; 14; 20; 5; 9; 14; 20; 5; 9; 14; 20; 5; 9; 14; 20;
   4; 11; 16; 23; 4; 11; 16; 23; 4; 11; 16; 23; 4; 11; 16; 23;
   6; 10; 15; 21; 6; 10; 15; 21; 6; 10; 15; 21; 6; 10; 15; 21].

(** Message padding: 0x80, zeros up to 56 modulo 64, the bit length on
    eight little-endian bytes. *)
Definition le_bytes (n : nat) (x : Z) : list Z :=
  map (fun i => Z.shiftr x (8 * Z.of_nat i) mod 256) (seq 0 n).

Definition pad (msg : list Z) : list Z :=
  let len := Z.of_nat (List.length msg) in
  let zeros := Z.to_nat ((55 - len) mod 64) in
  msg ++ [0x80] ++ repeat 0 zeros ++ le_bytes 8 ((8 * len) mod 2 ^ 64).

Fixpoint le_word (bs : list Z) : Z :=
  match bs with
  | [] => 0
  | b :: r => b + 256 * le_word r
  end.

(** Cuts a padded message into sixteen-word blocks. *)
Fixpoint blocks (fuel : nat) (bs : list Z) : list (list Z) :=
  match fuel, bs with
  | O, _ | _, [] => []
  | S f, _ =>
      map (fun i => le_word (firstn 4 (skipn (4 * i) bs))) (seq 0 16)
        :: blocks f (skipn 64 bs)
  end.

Definition state : Type := (Z * Z * Z * Z)%type.

Definition round (M : list Z) (st : state) (i : nat) : state :=
  let '(A, B, C, D) := st in
  let zi := Z.of_nat i in
  let '(F, g) :=
    if zi <? 16 then (Z.lor (Z.land B C) (Z.land (not32 B) D), zi)
    else if zi <? 32 then
      (Z.lor (Z.land D B) (Z.land (not32 D) C), (5 * zi + 1) mod 16)
    else if zi <? 48 then (Z.lxor B (Z.lxor C D), (3 * zi + 5) mod 16)
    else (Z.lxor C (Z.lor B (not32 D)), (7 * zi) mod 16) in
  let F' := w32 (F + A + nth i K 0 + nth (Z.to_nat g) M 0) in
  (D, w32 (B + rotl F' (nth i shifts 0)), B, C).

Definition process (st : state) (M : list Z) : state :=
  let '(a0, b0, c0, d0) := st in
  let '(A, B, C, D) := fold_left (round M) (seq 0 64) st in
  (w32 (a0 + A), w32 (b0 + B), w32 (c0 + C), w32 (d0 + D)).

Definition init : state := (0x67452301, 0xefcdab89, 0x98badcfe, 0x10325476).

Definition digest (msg : list Z) : list Z :=
  let p := pad msg in
  let '(a, b, c, d) := fold_left process (blocks (List.length p) p) init in
  le_bytes 4 a ++ le_bytes 4 b ++ le_bytes 4 c ++ le_bytes 4 d.

Definition hex_digit (x : Z) : ascii :=
  nth (Z.to_nat x) (list_ascii_of_string "0123456789abcdef") "0"%char.

Definition hex_byte (b : Z) : string :=
  String (hex_digit (b / 16)) (String (hex_digit (b mod 16)) EmptyString).

Definition hexdigest (msg : list Z) : string :=
  String.concat "" (map hex_byte (digest msg)).

End MD5.

(** [s.encode('utf-8')] for code points below 256. *)
Definition utf8_encode (s : string) : list Z :=
  flat_map
    (fun c =>
       let n := Z.of_nat (nat_of_ascii c) in
       if (n <? 128)%Z then [n]
       else [Z.lor 192 (Z.shiftr n 6); Z.lor 128 (Z.land n 63)])
    (list_ascii_of_string s).

(** [hashlib.md5(s.encode('utf-8')).hexdigest()] *)
Definition md5_hex (s : string) : string := MD5.hexdigest (utf8_encode s).

(** ** The error monad *)

Inductive exn : Set :=
| KeyError | IndexError | TypeError | AttributeError | ValidationError | ValueError.

Inductive res (A : Type) : Type :=
| Ok (a : A)
| Raise (e : exn).
Arguments Ok {A} a.
Arguments Raise {A} e.

Definition bind {A B : Type} (m : res A) (k : A -> res B) : res B :=
  match m with
  | Ok a => k a
  | Raise e => Raise e
  end.

Notation "x <- m ;; k" := (bind m (fun x => k))
  (at level 61, m at next level, right associativity).

(** A [for] loop (or comprehension) whose body may raise: the first
    exception ends the loop. *)
Fixpoint mapM {A B : Type} (f : A -> res B) (l : list A) : res (list B) :=
  match l with
  | [] => Ok []
  | x :: r => y <- f x ;; ys <- mapM f r ;; Ok (y :: ys)
  end.

(** ** JSON values as Python objects *)

(** A Python [float], by what this code can observe of it: its truth
    value and its [repr]. *)
Record pyfloat : Set := { fl_nonzero : bool; fl_repr : string }.

#[local] Unset Elimination Schemes.
Inductive json : Set :=
| JNull
| JBool (b : bool)
| JInt (z : Z)
| JFloat (f : pyfloat)
| JStr (s : string)
| JArr (l : list json)
| JObj (kvs : list (string * json)).
#[local] Set Elimination Schemes.

Definition obj : Set := list (string * json).

Fixpoint lookup {V : Type} (k : string) (kvs : list (string * V)) : option V :=
  match kvs with
  | [] => None
  | (k', v) :: r => if String.eqb k' k then Some v else lookup k r
  end.

(** Python dictionaries have pairwise distinct keys, at every level. *)
Fixpoint wf_json (v : json) : Prop :=
  match v with
  | JArr l => (fix all (l : list json) : Prop :=
                 match l with [] => True | x :: r => wf_json x /\ all r end) l
  | JObj kvs =>
      NoDup (map fst kvs) /\
      (fix all (l : obj) : Prop :=
         match l with [] => True | (_, x) :: r => wf_json x /\ all r end) kvs
  | _ => True
  end.

Module Py.

(** [bool(v)] *)
Definition truthy (v : json) : bool :=
  match v with
  | JNull => false
  | JBool b => b
  | JInt z => negb (Z.eqb z 0)
  | JFloat f => fl_nonzero f
  | JStr s => negb (String.eqb s "")
  | JArr l => match l with [] => false | _ => true end
  | JObj kvs => match kvs with [] => false | _ => true end
  end.

(** [d.get(k, default)]; only a dict has [get]. *)
Definition get (d : json) (k : string) (default : json) : res json :=
  match d with
  | JObj kvs => Ok (match lookup k kvs with Some v => v | None => default end)
  | _ => Raise AttributeError
  end.

(** [d[k]] for a string key [k]. *)
Definition item (d : json) (k : string) : res json :=
  match d with
  | JObj kvs => match lookup k kvs with Some v => Ok v | None => Raise KeyError end
  | _ => Raise TypeError
  end.

(** [v[0]] *)
Definition item0 (v : json) : res json :=
  match v with
  | JArr (x :: _) => Ok x
  | JArr [] => Raise IndexError
  | JStr (String c _) => Ok (JStr (String c EmptyString))
  | JStr EmptyString => Raise IndexError
  | JObj _ => Raise KeyError
  | _ => Raise TypeError
  end.

(** [for x in v] *)
Definition iter (v : json) : res (list json) :=
  match v with
  | JArr l => Ok l
  | JStr s => Ok (map (fun c => JStr (String c EmptyString)) (list_ascii_of_string s))
  | JObj kvs => Ok (map (fun kv => JStr (fst kv)) kvs)
  | _ => Raise TypeError
  end.

(** [k in v] for a string [k]. *)
Definition contains_key (k : string) (v : json) : res bool :=
  match v with
  | JObj kvs => Ok (match lookup k kvs with Some _ => true | None => false end)
  | JArr l => Ok (existsb (fun x => match x with JStr s => String.eqb s k | _ => false end) l)
  | JStr s => Ok (contains k s)
  | _ => Raise TypeError
  end.

Definition hex2 (n : nat) : string := MD5.hex_byte (Z.of_nat n).

(** [repr(s)] for a string. *)
Definition repr_char (q : ascii) (c : ascii) : string :=
  let n := nat_of_ascii c in
  if Ascii.eqb c q || Ascii.eqb c "\"%char then String "\"%char (String c EmptyString)
  else if Nat.eqb n 9 then "\t"
  else if Nat.eqb n 10 then "\n"
  else if Nat.eqb n 13 then "\r"
  else if Nat.ltb n 32 || (Nat.leb 127 n && Nat.leb n 160) || Nat.eqb n 173
       then "\x" ++ hex2 n
  else String c EmptyString.

Definition repr_str (s : string) : string :=
  let q := if has_char "'" s && negb (has_char dquote s) then dquote else "'"%char in
  String q (String.concat "" (map (repr_char q) (list_ascii_of_string s)))
    ++ String q EmptyString.

(** [repr(v)] *)
Fixpoint repr (v : json) : string :=
  match v with
  | JNull => "None"
  | JBool true => "True"
  | JBool false => "False"
  | JInt z => str_of_Z z
  | JFloat f => fl_repr f
  | JStr s => repr_str s
  | JArr l => "[" ++ join ", " (map repr l) ++ "]"
  | JObj kvs =>
      "{" ++ join ", " (map (fun kv => repr_str (fst kv) ++ ": " ++ repr (snd kv)) kvs) ++ "}"
  end.

(** [str(v)], which is what an f-string field [{v}] renders. *)
Definition str (v : json) : string :=
  match v with
  | JStr s => s
  | _ => repr v
  end.

(** Can [v] be a member of a [set]? *)
Definition hashable (v : json) : bool :=
  match v with
  | JArr _ | JObj _ => false
  | _ => true
  end.

End Py.

(** ** [json.dumps] *)

Module Json.

(** [py_encode_basestring_ascii]: everything outside [' '..'~'], the
    quote and the backslash are escaped. *)
Definition escape_char (c : ascii) : string :=
  let n := nat_of_ascii c in
  if Ascii.eqb c dquote then String "\"%char (String dquote EmptyString)
  else if Ascii.eqb c "\"%char then "\\"
  else if Nat.eqb n 10 then "\n"
  else if Nat.eqb n 13 then "\r"
  else if Nat.eqb n 9 then "\t"
  else if Nat.eqb n 12 then "\f"
  else if Nat.eqb n 8 then "\b"
  else if Nat.ltb n 32 || Nat.ltb 126 n then "\u00" ++ Py.hex2 n
  else String c EmptyString.

Definition quote (s : string) : string :=
  String dquote
    (String.concat "" (map escape_char (list_ascii_of_string s))
       ++ String dquote EmptyString).

Definition float_str (f : pyfloat) : string :=
  if String.eqb (fl_repr f) "nan" then "NaN"
  else if String.eqb (fl_repr f) "inf" then "Infinity"
  else if String.eqb (fl_repr f) "-inf" then "-Infinity"
  else fl_repr f.

(** [sorted(items)] on the keys: a stable insertion sort. *)
Fixpoint insert_by_key {A : Type} (x : string * A) (l : list (string * A)) :=
  match l with
  | [] => [x]
  | y :: r => if String.leb (fst x) (fst y) then x :: l else y :: insert_by_key x r
  end.

Fixpoint sort_by_key {A : Type} (l : list (string * A)) :=
  match l with
  | [] => []
  | x :: r => insert_by_key x (sort_by_key r)
  end.

(** [json.dumps(v, sort_keys=sort_keys)]; every item is rendered, then the
    items of a dict are put in key order when [sort_keys] is set. *)
Fixpoint dumps (sort_keys : bool) (v : json) : string :=
  match v with
  | JNull => "null"
  | JBool true => "true"
  | JBool false => "false"
  | JInt z => str_of_Z z
  | JFloat f => float_str f
  | JStr s => quote s
  | JArr l => "[" ++ join ", " (map (dumps sort_keys) l) ++ "]"
  | JObj kvs =>
      let items := map (fun kv => (fst kv, dumps sort_keys (snd kv))) kvs in
      let items := if sort_keys then sort_by_key items else items in
      "{" ++ join ", " (map (fun kv => quote (fst kv) ++ ": " ++ snd kv) items) ++ "}"
  end.

End Json.

(** ** scripts/ingest.py *)

(** [clean_display_value] applied to whatever [dict.get] returned: a falsy
    value takes the first [return]; only a [str] has [split]. *)
Definition clean_display_value_dyn (val : json) : res string :=
  if negb (Py.truthy val) then Ok "N/A"
  else match val with
       | JStr s => Ok (clean_display_value s)
       | _ => Raise AttributeError
       end.

(** One entry of [all_leaders]: the dict with keys category, data, team. *)
Record leader : Set := { l_category : json; l_data : json; l_team : json }.

(** [cat["leaders"][0] if cat.get("leaders") else None] *)
Definition leader_data (cat : json) : res json :=
  ls <- Py.get cat "leaders" JNull ;;
  if Py.truthy ls then (l <- Py.item cat "leaders" ;; Py.item0 l) else Ok JNull.

Definition game_leader (cat : json) : res leader :=
  name <- Py.item cat "displayName" ;;
  data <- leader_data cat ;;
  Ok {| l_category := name; l_data := data; l_team := JNull |}.

Definition team_leader (team_name cat : json) : res leader :=
  name <- Py.item cat "displayName" ;;
  data <- leader_data cat ;;
  Ok {| l_category := JStr (Py.str team_name ++ " " ++ Py.str name);
        l_data := data; l_team := team_name |}.

Definition team_leaders (team_entry : json) : res (list leader) :=
  team <- Py.item team_entry "team" ;;
  team_name <- Py.item team "abbreviation" ;;
  cats <- Py.get team_entry "leaders" (JArr []) ;;
  cs <- Py.iter cats ;;
  mapM (team_leader team_name) cs.

Definition extract_leaders (comp : json) : res (list leader) :=
  has <- Py.contains_key "leaders" comp ;;
  game <- (if has : bool
           then ls <- Py.item comp "leaders" ;; cs <- Py.iter ls ;; mapM game_leader cs
           else Ok []) ;;
  entries <- Py.get comp "competitors" (JArr []) ;;
  es <- Py.iter entries ;;
  teams <- mapM team_leaders es ;;
  Ok (filter (fun l => Py.truthy (l_data l)) (game ++ List.concat teams)).

(** [stat["name"] in ["fieldGoalPct", "threePointPct", "freeThrowPct"]] *)
Definition is_key_stat (name : json) : bool :=
  match name with
  | JStr s => String.eqb s "fieldGoalPct" || String.eqb s "threePointPct"
              || String.eqb s "freeThrowPct"
  | _ => false
  end.

Definition key_stat (stat : json) : res (list string) :=
  name <- Py.item stat "name" ;;
  if is_key_stat name
  then a <- Py.item stat "abbreviation" ;;
       d <- Py.item stat "displayValue" ;;
       Ok [Py.str a ++ ": " ++ Py.str d ++ "%"]
  else Ok [].

Definition team_stats_entry (c : json) : res (list string) :=
  team <- Py.item c "team" ;;
  abbr <- Py.item team "abbreviation" ;;
  stats <- Py.get c "statistics" (JArr []) ;;
  ss <- Py.iter stats ;;
  ks <- mapM key_stat ss ;;
  let key_stats := List.concat ks in
  match key_stats with
  | [] => Ok []
  | _ => Ok [Py.str abbr ++ " [" ++ join ", " key_stats ++ "]"]
  end.

Definition extract_team_stats (comp : json) : res string :=
  cs <- Py.get comp "competitors" (JArr []) ;;
  es <- Py.iter cs ;;
  summary <- mapM team_stats_entry es ;;
  Ok (join " | " (List.concat summary)).

(** [f"{c['team']['displayName']} ({c.get('score','0')})"] *)
Definition score_entry (c : json) : res string :=
  team <- Py.item c "team" ;;
  name <- Py.item team "displayName" ;;
  score <- Py.get c "score" (JStr "0") ;;
  Ok (Py.str name ++ " (" ++ Py.str score ++ ")").

(** [l['data'].get('athlete', {}).get('displayName', 'Unknown')] *)
Definition athlete_name_of (l : leader) : res json :=
  athlete <- Py.get (l_data l) "athlete" (JObj []) ;;
  Py.get athlete "displayName" (JStr "Unknown").

Definition leader_value_of (l : leader) : res string :=
  v <- Py.get (l_data l) "displayValue" (JStr "") ;;
  clean_display_value_dyn v.

Definition leader_line (l : leader) : res string :=
  name <- athlete_name_of l ;;
  val <- leader_value_of l ;;
  Ok (Py.str (l_category l) ++ ": " ++ Py.str name ++ " (" ++ val ++ ")").

(** [comp.get("odds", [{}])[0].get("details", "N/A") if comp.get("odds") else "N/A"] *)
Definition display_odds (comp : json) : res json :=
  o <- Py.get comp "odds" JNull ;;
  if Py.truthy o
  then l <- Py.get comp "odds" (JArr [JObj []]) ;;
       first <- Py.item0 l ;;
       Py.get first "details" (JStr "N/A")
  else Ok (JStr "N/A").

Definition is_str (s : string) (v : json) : bool :=
  match v with JStr s' => String.eqb s' s | _ => false end.

(** The three f-strings of [transform_event_to_text] (lines 79-81, 83-85
    and 87-89). *)
Definition preview_card (matchup venue date odds : json) (leader_text : string)
  : string :=
  "PREVIEW: " ++ Py.str matchup ++ " at " ++ Py.str venue
  ++ ". TIME: " ++ Py.str date ++ ". "
  ++ "ODDS: " ++ Py.str odds ++ ". "
  ++ "PROJECTED LEADERS: " ++ leader_text ++ ".".

Definition live_card (detail : json) (score_line stats_block leader_text : string)
  : string :=
  "LIVE GAME (" ++ Py.str detail ++ "): " ++ score_line ++ ". "
  ++ stats_block
  ++ "LEADERS: " ++ leader_text ++ ".".

Definition final_card (score_line stats_block leader_text : string) : string :=
  "FINAL SCORE: " ++ score_line ++ ". "
  ++ stats_block
  ++ "TOP PERFORMERS: " ++ leader_text ++ ".".

(** [f"TEAM STATS: {team_stats_text}. " if team_stats_text else ""] *)
Definition stats_block_of (team_stats_text : string) : string :=
  if String.eqb team_stats_text "" then ""
  else "TEAM STATS: " ++ team_stats_text ++ ". ".

Definition transform_event_to_text (event : json) : res string :=
  comps <- Py.get event "competitions" (JArr [JObj []]) ;;
  comp <- Py.item0 comps ;;
  status <- Py.get event "status" (JObj []) ;;
  status_obj <- Py.get status "type" (JObj []) ;;
  state <- Py.get status_obj "state" (JStr "pre") ;;
  detail <- Py.get status_obj "detail" (JStr "TBD") ;;
  matchup <- Py.get event "name" (JStr "Unknown Matchup") ;;
  cs <- Py.get comp "competitors" (JArr []) ;;
  es <- Py.iter cs ;;
  score_entries <- mapM score_entry es ;;
  let score_line := join " vs " score_entries in
  leaders <- extract_leaders comp ;;
  leader_text_list <- mapM leader_line leaders ;;
  let leader_text := join " | " leader_text_list in
  team_stats_text <- extract_team_stats comp ;;
  let stats_block := stats_block_of team_stats_text in
  v <- Py.get comp "venue" (JObj []) ;;
  venue <- Py.get v "fullName" (JStr "TBD") ;;
  odds <- display_odds comp ;;
  if is_str "pre" state then
    date <- Py.get event "date" JNull ;;
    Ok (preview_card matchup venue date odds leader_text)
  else if is_str "in" state then
    Ok (live_card detail score_line stats_block leader_text)
  else
    Ok (final_card score_line stats_block leader_text).

(** *** src/models.py: the pydantic models *)

Record PerformanceStat : Set := {
  category : string;
  athlete_name : string;
  display_value : string;
  team : option string
}.

Record GameContext : Set := {
  venue : option string;
  location : option string;
  weather : option string;
  odds : option string;
  broadcast : option string
}.

Record SportsMetadata : Set := {
  sport : string;
  content_type : string;
  content_hash : string;
  source_file : string;
  teams : list string;
  athletes : list string;
  headline : option string;
  event_date : option string;
  status : option string;
  scores : list string;
  performers : list PerformanceStat;
  context : option GameContext;
  team_stats : option string
}.

(** Validation of a field annotated [str]. *)
Definition as_str (v : json) : res string :=
  match v with
  | JStr s => Ok s
  | _ => Raise ValidationError
  end.

(** Validation of a field annotated [Optional[str]]. *)
Definition as_opt_str (v : json) : res (option string) :=
  match v with
  | JNull => Ok None
  | JStr s => Ok (Some s)
  | _ => Raise ValidationError
  end.

(** [set(xs)]: every member has to be hashable.  Duplicates are removed
    when the field is validated. *)
Definition py_set (xs : list json) : res (list json) :=
  if forallb Py.hashable xs then Ok xs else Raise TypeError.

(** Validation of [list(set(xs))] for a field annotated [List[str]].  The
    order in which a set is listed is not specified; the first occurrences
    are kept here. *)
Definition as_str_list (xs : list json) : res (list string) :=
  ss <- mapM as_str xs ;; Ok (nodup string_dec ss).

(** [model_dump()] *)
Definition opt_json (o : option string) : json :=
  match o with
  | Some s => JStr s
  | None => JNull
  end.

Definition dump_performer (p : PerformanceStat) : json :=
  JObj [("category", JStr (category p));
        ("athlete_name", JStr (athlete_name p));
        ("display_value", JStr (display_value p));
        ("team", opt_json (team p))].

Definition dump_context (c : GameContext) : json :=
  JObj [("venue", opt_json (venue c));
        ("location", opt_json (location c));
        ("weather", opt_json (weather c));
        ("odds", opt_json (odds c));
        ("broadcast", opt_json (broadcast c))].

(** A field of [model_dump(exclude_none=True)]. *)
Definition opt_field (k : string) (o : option string) : obj :=
  match o with
  | Some s => [(k, JStr s)]
  | None => []
  end.

(** [hashlib.md5(json.dumps(raw_data, sort_keys=True).encode('utf-8')).hexdigest()] *)
Definition compute_content_hash (raw_data : json) : string :=
  md5_hex (Json.dumps true raw_data).

(** The competitor loop of [extract_smart_metadata]. *)
Definition competitor_entry (c : json) : res (json * string) :=
  team <- Py.item c "team" ;;
  name <- Py.item team "displayName" ;;
  team' <- Py.item c "team" ;;
  name' <- Py.item team' "displayName" ;;
  score <- Py.get c "score" (JStr "0") ;;
  Ok (name, Py.str name' ++ " " ++ Py.str score).

(** The leader loop of [extract_smart_metadata]. *)
Definition performer_entry (l : leader) : res (json * PerformanceStat) :=
  name <- athlete_name_of l ;;
  val <- leader_value_of l ;;
  c <- as_str (l_category l) ;;
  a <- as_str name ;;
  t <- as_opt_str (l_team l) ;;
  Ok (name, {| category := c; athlete_name := a; display_value := val; team := t |}).

(** The category loop of the news branch. *)
Definition news_category (cat : json) : res (list json * list json) :=
  ty <- Py.get cat "type" JNull ;;
  if is_str "team" ty
  then d <- Py.get cat "description" JNull ;; Ok ([d], [])
  else ty' <- Py.get cat "type" JNull ;;
       if is_str "athlete" ty'
       then d <- Py.get cat "description" JNull ;; Ok ([], [d])
       else Ok ([], []).

(** [odds_list = comp.get("odds", [])] and
    [odds_list[0].get("details") if odds_list else "N/A"] (lines 122-123). *)
Definition stored_odds (comp : json) : res json :=
  odds_list <- Py.get comp "odds" (JArr []) ;;
  if Py.truthy odds_list
  then first <- Py.item0 odds_list ;; Py.get first "details" JNull
  else Ok (JStr "N/A").

Definition extract_smart_metadata (raw_data : json) (filename stable_id : string)
  : res SportsMetadata :=
  let is_news := contains "news" filename in
  let sport := if contains "nba" filename then "nba" else "nfl" in
  let c_hash := compute_content_hash raw_data in
  if negb is_news then
    comps <- Py.get raw_data "competitions" (JArr [JObj []]) ;;
    comp <- Py.item0 comps ;;
    st <- Py.get raw_data "status" (JObj []) ;;
    status_obj <- Py.get st "type" (JObj []) ;;
    cs <- Py.get comp "competitors" (JArr []) ;;
    es <- Py.iter cs ;;
    entries <- mapM competitor_entry es ;;
    let teams := map fst entries in
    let score_list := map snd entries in
    raw_leaders <- extract_leaders comp ;;
    perf <- mapM performer_entry raw_leaders ;;
    let athletes := map fst perf in
    let performers := map snd perf in
    w <- Py.get raw_data "weather" (JObj []) ;;
    weather <- Py.get w "displayValue" (JStr "") ;;
    odds <- stored_odds comp ;;
    v <- Py.get comp "venue" (JObj []) ;;
    venue <- Py.get v "fullName" JNull ;;
    v' <- Py.get comp "venue" (JObj []) ;;
    address <- Py.get v' "address" (JObj []) ;;
    city <- Py.get address "city" JNull ;;
    broadcast <- Py.get raw_data "broadcast" JNull ;;
    c_venue <- as_opt_str venue ;;
    c_location <- as_opt_str city ;;
    c_weather <- as_opt_str weather ;;
    c_odds <- as_opt_str odds ;;
    c_broadcast <- as_opt_str broadcast ;;
    let context := {| venue := c_venue; location := c_location;
                      weather := c_weather; odds := c_odds;
                      broadcast := c_broadcast |} in
    team_stats_str <- extract_team_stats comp ;;
    headline <- Py.get raw_data "name" JNull ;;
    event_date <- Py.get raw_data "date" JNull ;;
    status <- Py.get status_obj "state" JNull ;;
    set_teams <- py_set teams ;;
    set_athletes <- py_set athletes ;;
    m_teams <- as_str_list set_teams ;;
    m_athletes <- as_str_list set_athletes ;;
    m_headline <- as_opt_str headline ;;
    m_date <- as_opt_str event_date ;;
    m_status <- as_opt_str status ;;
    Ok {| sport := sport; content_type := "score"; content_hash := c_hash;
          source_file := filename;
          teams := m_teams; athletes := m_athletes;
          headline := m_headline; event_date := m_date; status := m_status;
          scores := score_list; performers := performers;
          context := Some context; team_stats := Some team_stats_str |}
  else
    headline <- Py.get raw_data "headline" JNull ;;
    event_date <- Py.get raw_data "published" JNull ;;
    cats <- Py.get raw_data "categories" (JArr []) ;;
    cl <- Py.iter cats ;;
    entries <- mapM news_category cl ;;
    let teams := List.concat (map fst entries) in
    let athletes := List.concat (map snd entries) in
    set_teams <- py_set teams ;;
    set_athletes <- py_set athletes ;;
    m_teams <- as_str_list set_teams ;;
    m_athletes <- as_str_list set_athletes ;;
    m_headline <- as_opt_str headline ;;
    m_date <- as_opt_str event_date ;;
    Ok {| sport := sport; content_type := "news"; content_hash := c_hash;
          source_file := filename;
          teams := m_teams; athletes := m_athletes;
          headline := m_headline; event_date := m_date; status := Some "news";
          scores := []; performers := [];
          context := None; team_stats := None |}.

(** *** [run_ingestion]: the body of the document loop *)

(** A record of [all_records]: the dict with keys id, chunk_text and the
    entries of [meta_dict]. *)
Record store_record : Set := {
  rec_id : string;
  chunk_text : string;
  meta_dict : obj
}.

(** The stable id logic (lines 177-186). *)
Definition stable_id_of (page_content : string) (raw_json : json) : res string :=
  entity_id <- Py.get raw_json "id" JNull ;;
  let entity_id :=
    if negb (Py.truthy entity_id) then JStr (md5_hex page_content) else entity_id in
  Ok ("doc-" ++ Py.str entity_id).

(** [smart_meta.model_dump(exclude_none=True)], with performers and
    context replaced by their [json.dumps] (lines 195-199). *)
Definition stored_meta (m : SportsMetadata) : obj :=
  ([("sport", JStr (sport m)); ("content_type", JStr (content_type m));
   ("content_hash", JStr (content_hash m)); ("source_file", JStr (source_file m));
   ("teams", JArr (map JStr (teams m))); ("athletes", JArr (map JStr (athletes m)))]
  ++ opt_field "headline" (headline m)
  ++ opt_field "event_date" (event_date m)
  ++ opt_field "status" (status m)
  ++ [("scores", JArr (map JStr (scores m)));
      ("performers", JStr (Json.dumps false (JArr (map dump_performer (performers m)))))]
  ++ match context m with
     | Some c => [("context", JStr (Json.dumps false (dump_context c)))]
     | None => []
     end
  ++ opt_field "team_stats" (team_stats m))%list.

Definition opt_str (o : option string) : string :=
  match o with
  | Some s => s
  | None => "None"
  end.

Definition ingest_doc (filename page_content : string) (raw_json : json)
  : res store_record :=
  stable_id <- stable_id_of page_content raw_json ;;
  smart_meta <- extract_smart_metadata raw_json filename stable_id ;;
  text <- (if String.eqb (content_type smart_meta) "news"
           then d <- Py.get raw_json "description" (JStr "") ;;
                Ok ("NEWS: " ++ opt_str (headline smart_meta) ++ ". " ++ Py.str d)
           else transform_event_to_text raw_json) ;;
  Ok {| rec_id := stable_id; chunk_text := text; meta_dict := stored_meta smart_meta |}.

(** *** Deduplication (lines 207-211) *)

(** [d[k] = v] on a dict: a known key keeps its place and takes the new
    value, a new key goes last. *)
Fixpoint dict_set {V : Type} (k : string) (v : V) (d : list (string * V))
  : list (string * V) :=
  match d with
  | [] => [(k, v)]
  | (k', v') :: r =>
      if String.eqb k' k then (k', v) :: r else (k', v') :: dict_set k v r
  end.

(** [{r['id']: r for r in all_records}] *)
Definition by_id (all_records : list store_record) : list (string * store_record) :=
  fold_left (fun d r => dict_set (rec_id r) r d) all_records [].

(** [list({r['id']: r for r in all_records}.values())] *)
Definition unique_records (all_records : list store_record) : list store_record :=
  map snd (by_id all_records).

(** The last record of the batch, in batch order, whose id is [i]. *)
Fixpoint last_with_id (i : string) (l : list store_record) : option store_record :=
  match l with
  | [] => None
  | r :: t =>
      match last_with_id i t with
      | Some r' => Some r'
      | None => if String.eqb (rec_id r) i then Some r else None
      end
  end.

(** One document of the loop: the file it comes from, its page content and
    the decoded page content. *)
Record document : Set := {
  doc_file : string;
  page_content : string;
  raw_json : json
}.

(** [run_ingestion] from the loaded documents on: what is handed to
    [index.upsert_records], if anything. *)
Definition run_ingestion (docs : list document) : res (option (list store_record)) :=
  all_records <- mapM (fun d => ingest_doc (doc_file d) (page_content d) (raw_json d)) docs ;;
  match all_records with
  | [] => Ok None
  | _ => Ok (Some (unique_records all_records))
  end.

(** ** scripts/update_vector_db.py *)

(** [process_scores], lines 65-66: the competition of one event and its
    score strings, every key indexed directly. *)
Definition process_scores_scores (ev : json) : res (list string) :=
  comps <- Py.item ev "competitions" ;;
  comp <- Py.item0 comps ;;
  cs <- Py.item comp "competitors" ;;
  ts <- Py.iter cs ;;
  mapM (fun t =>
          team <- Py.item t "team" ;;
          name <- Py.item team "displayName" ;;
          score <- Py.item t "score" ;;
          Ok (Py.str name ++ " " ++ Py.str score)) ts.

(** ** src/tools/retriever.py *)

(** One entry of the list that [search] returns. *)
Record search_result : Set := {
  sr_score : json;
  sr_text : json;
  sr_headline : json;
  sr_date : json;
  sr_performers : json;
  sr_context : json
}.

(** [for hit in response.get("result", {}).get("hits", [])] *)
Definition hits_of (response : json) : res (list json) :=
  result <- Py.get response "result" (JObj []) ;;
  hits <- Py.get result "hits" (JArr []) ;;
  Py.iter hits.

(** The fields of a hit: [hit.get("fields", {})]. *)
Definition fields_of (hit : json) : res json := Py.get hit "fields" (JObj []).

Section Retriever.

(** [json.loads] on a [str]: [None] stands for [JSONDecodeError]. *)
Variable json_loads : string -> option json.

Definition loads_dyn (v : json) : res json :=
  match v with
  | JStr s => match json_loads s with
              | Some j => Ok j
              | None => Raise ValueError
              end
  | _ => Raise TypeError
  end.

(** [x = default; if key in fields: try: x = json.loads(fields[key]); except: pass] *)
Definition try_loads (fields : json) (key : string) (default : json) : res json :=
  has <- Py.contains_key key fields ;;
  if has : bool
  then match (v <- Py.item fields key ;; loads_dyn v) with
       | Ok j => Ok j
       | Raise _ => Ok default
       end
  else Ok default.

(** The body of the loop over the hits. *)
Definition search_hit (hit : json) : res search_result :=
  fields <- fields_of hit ;;
  performers <- try_loads fields "performers" (JArr []) ;;
  context <- try_loads fields "context" (JObj []) ;;
  score <- Py.get hit "_score" JNull ;;
  text <- Py.get fields "chunk_text" JNull ;;
  headline <- Py.get fields "headline" JNull ;;
  date <- Py.get fields "event_date" JNull ;;
  Ok {| sr_score := score; sr_text := text; sr_headline := headline;
        sr_date := date; sr_performers := performers; sr_context := context |}.

Definition search_results (response : json) : res (list search_result) :=
  hs <- hits_of response ;;
  mapM search_hit hs.

(** [search], from the outcome of [index.search_records] on: any exception
    inside the [try] block makes it return the empty list. *)
Definition search (response : res json) : list search_result :=
  match (r <- response ;; search_results r) with
  | Ok results => results
  | Raise _ => []
  end.

(** The stored string under [key] does not decode. *)
Definition malformed (fields : json) (key : string) : Prop :=
  exists s, Py.item fields key = Ok (JStr s) /\ json_loads s = None.

End Retriever.

(** ** Shapes of the feed *)

(** The value under [k], when it is there, satisfies [p]. *)
Definition opt_key (k : string) (p : json -> bool) (kvs : obj) : bool :=
  match lookup k kvs with
  | Some v => p v
  | None => true
  end.

(** The value under [k] is there and satisfies [p]. *)
Definition req_key (k : string) (p : json -> bool) (kvs : obj) : bool :=
  match lookup k kvs with
  | Some v => p v
  | None => false
  end.

Definition is_obj (v : json) : bool :=
  match v with JObj _ => true | _ => false end.

Definition is_string (v : json) : bool :=
  match v with JStr _ => true | _ => false end.

Definition is_opt_string (v : json) : bool :=
  match v with JStr _ | JNull => true | _ => false end.

Definition any_value (v : json) : bool := true.

Definition obj_with (p : obj -> bool) (v : json) : bool :=
  match v with JObj kvs => p kvs | _ => false end.

Definition arr_of (p : json -> bool) (v : json) : bool :=
  match v with JArr l => forallb p l | _ => false end.

(** A hit as the index returns it: a dict whose [fields], when there, is a
    dict. *)
Definition hit_shape : json -> bool :=
  obj_with (opt_key "fields" is_obj).

(** An array that is empty or whose first member satisfies [p]. *)
Definition arr_first (p : json -> bool) (v : json) : bool :=
  match v with
  | JArr [] => true
  | JArr (x :: _) => p x
  | _ => false
  end.

(** A non-empty array whose first member satisfies [p]. *)
Definition arr_head (p : json -> bool) (v : json) : bool :=
  match v with
  | JArr (x :: _) => p x
  | _ => false
  end.

(** The shape of an event of the feed, as [ingest.py] reads it.  A key
    under [opt_key] may be missing; a key under [req_key] is indexed
    directly by the code and has to be there. *)
Module Shape.

Definition athlete : json -> bool :=
  obj_with (opt_key "displayName" is_string).

Definition leader_entry : json -> bool :=
  obj_with (fun o => opt_key "athlete" athlete o
                     && opt_key "displayValue" is_string o).

Definition category : json -> bool :=
  obj_with (fun o => req_key "displayName" is_string o
                     && opt_key "leaders" (arr_first leader_entry) o).

Definition statistic : json -> bool :=
  obj_with (fun o =>
    req_key "name"
      (fun n => negb (is_key_stat n)
                || (req_key "abbreviation" any_value o
                    && req_key "displayValue" any_value o)) o).

Definition team : json -> bool :=
  obj_with (fun o => req_key "displayName" is_string o
                     && req_key "abbreviation" is_string o).

Definition competitor : json -> bool :=
  obj_with (fun o => req_key "team" team o
                     && opt_key "score" any_value o
                     && opt_key "leaders" (arr_of category) o
                     && opt_key "statistics" (arr_of statistic) o).

Definition venue : json -> bool :=
  obj_with (fun o => opt_key "fullName" is_opt_string o
                     && opt_key "address" (obj_with (opt_key "city" is_opt_string)) o).

Definition odds : json -> bool :=
  arr_first (obj_with (opt_key "details" is_opt_string)).

Definition competition : json -> bool :=
  obj_with (fun o => opt_key "competitors" (arr_of competitor) o
                     && opt_key "leaders" (arr_of category) o
                     && opt_key "venue" venue o
                     && opt_key "odds" odds o).

Definition status : json -> bool :=
  obj_with (opt_key "type"
              (obj_with (fun o => opt_key "state" is_opt_string o
                                  && opt_key "detail" any_value o))).

Definition event : json -> bool :=
  obj_with (fun o => opt_key "competitions" (arr_head competition) o
                     && opt_key "status" status o
                     && opt_key "name" is_opt_string o
                     && opt_key "date" is_opt_string o
                     && opt_key "weather" (obj_with (opt_key "displayValue" is_opt_string)) o
                     && opt_key "broadcast" is_opt_string o).

(** A category of an article: the description of a team or an athlete is
    a string. *)
Definition news_category : json -> bool :=
  obj_with (fun o =>
    match lookup "type" o with
    | Some ty => negb (is_str "team" ty || is_str "athlete" ty)
                 || req_key "description" is_string o
    | None => true
    end).

Definition article : json -> bool :=
  obj_with (fun o => opt_key "headline" is_opt_string o
                     && opt_key "published" is_opt_string o
                     && opt_key "categories" (arr_of news_category) o).

End Shape.

(** The competition an event is read through: [competitions[0]], or the
    empty dict when the key is missing. *)
Definition competition_of (event : json) : res json :=
  comps <- Py.get event "competitions" (JArr [JObj []]) ;;
  Py.item0 comps.

(** [status.type.state] of an event, ["pre"] when missing. *)
Definition state_of (event : json) : res json :=
  status <- Py.get event "status" (JObj []) ;;
  status_obj <- Py.get status "type" (JObj []) ;;
  Py.get status_obj "state" (JStr "pre").

(** ** Vocabulary of the statements *)

(** The competitors an event is read through. *)
Definition competitors_of (event : json) : res (list json) :=
  comp <- competition_of event ;;
  cs <- Py.get comp "competitors" (JArr []) ;;
  Py.iter cs.

(** The display name of a competitor's team, as an f-string renders it. *)
Definition competitor_name (c : json) : string :=
  match Py.item c "team" with
  | Ok t => match Py.item t "displayName" with
            | Ok n => Py.str n
            | Raise _ => ""
            end
  | Raise _ => ""
  end.

(** The score of a competitor, as an f-string renders it. *)
Definition competitor_score (c : json) : string :=
  match Py.get c "score" (JStr "0") with
  | Ok v => Py.str v
  | Raise _ => ""
  end.

(** A leader entry that the later loops can read: a string category, a
    string or no team, and data of the feed's shape. *)
Definition leader_good (l : leader) : bool :=
  is_string (l_category l) && is_opt_string (l_team l)
  && Shape.leader_entry (l_data l).

(** A string that does not start with a space. *)
Definition no_lead (s : string) : Prop :=
  match s with
  | EmptyString => True
  | String c _ => is_space c = false
  end.

(** A component with no slash in it. *)
Definition no_slash (p : string) : bool := negb (has_char "/" p).

(** The components the comprehension keeps, before they are stripped. *)
Definition kept_parts (val : string) : list string :=
  filter no_slash (split "," val).

(** A component as the function leaves it: stripped, with no comma and no
    slash. *)
Definition settled (p : string) : Prop :=
  strip p = p /\ has_char "," p = false /\ has_char "/" p = false.

(** Every entry of the dict is filed under the id of its record. *)
Definition filed (d : list (string * store_record)) : Prop :=
  Forall (fun kv => rec_id (snd kv) = fst kv) d.

(** One step of the dict comprehension of the deduplication. *)
Definition step (d : list (string * store_record)) (r : store_record) :=
  dict_set (rec_id r) r d.

(** Two decoded records with the same logical content: the same values
    under the same keys, the keys of every dict in any order. *)
#[local] Unset Elimination Schemes.
Inductive reordered : json -> json -> Prop :=
| ro_null : reordered JNull JNull
| ro_bool b : reordered (JBool b) (JBool b)
| ro_int z : reordered (JInt z) (JInt z)
| ro_float f : reordered (JFloat f) (JFloat f)
| ro_str s : reordered (JStr s) (JStr s)
| ro_arr l1 l2 :
    Forall2 reordered l1 l2 -> reordered (JArr l1) (JArr l2)
| ro_obj kvs1 kvs kvs2 :
    Forall2 (fun a b => fst a = fst b /\ reordered (snd a) (snd b)) kvs1 kvs ->
    Permutation kvs kvs2 ->
    reordered (JObj kvs1) (JObj kvs2).
#[local] Set Elimination Schemes.

(** A leader entry as the two loops of [extract_leaders] build it. *)
Definition leader_raw (l : leader) : Prop :=
  is_string (l_category l) = true /\ is_opt_string (l_team l) = true
  /\ (l_data l = JNull \/ Shape.leader_entry (l_data l) = true).

(** ** Sample records *)

Definition competitor_example (name abbr : string) (score : json) : json :=
  JObj [("team", JObj [("displayName", JStr name); ("abbreviation", JStr abbr)]);
        ("score", score)].

(** The end-to-end scenario of the specification: two competitors, one
    game-level leader category with one athlete, status post. *)
Definition scenario_event : json :=
  JObj [("id", JStr "401");
        ("name", JStr "TeamA at TeamB");
        ("date", JStr "2025-01-01T00:00Z");
        ("status", JObj [("type", JObj [("state", JStr "post")])]);
        ("competitions", JArr [
           JObj [("competitors", JArr [competitor_example "TeamA" "TA" (JStr "110");
                                       competitor_example "TeamB" "TB" (JStr "98")]);
                 ("leaders", JArr [
                    JObj [("displayName", JStr "Assists");
                          ("leaders", JArr [
                             JObj [("displayValue", JStr "354/492, 22 AST");
                                   ("athlete", JObj [("displayName", JStr "Bob")])]])]])]])].

(** A scheduled game with a venue and no odds. *)
Definition scheduled_event : json :=
  JObj [("id", JStr "402");
        ("name", JStr "TeamC at TeamD");
        ("date", JStr "2025-01-02T00:00Z");
        ("status", JObj [("type", JObj [("state", JStr "pre")])]);
        ("competitions", JArr [
           JObj [("venue", JObj [("fullName", JStr "Arena")]);
                 ("competitors", JArr [competitor_example "TeamC" "TC" (JStr "0");
                                       competitor_example "TeamD" "TD" (JStr "0")])]])].

(** A scheduled game whose name holds the words of the live card. *)
Definition watch_party_event : json :=
  JObj [("id", JStr "403");
        ("name", JStr "LIVE GAME Watch Party");
        ("status", JObj [("type", JObj [("state", JStr "pre")])])].

(** A finished game of a team whose name holds the word of the preview
    card. *)
Definition preview_team_event : json :=
  JObj [("id", JStr "404");
        ("status", JObj [("type", JObj [("state", JStr "post")])]);
        ("competitions", JArr [
           JObj [("competitors", JArr [competitor_example "PREVIEW United" "PU" (JStr "3");
                                       competitor_example "TeamB" "TB" (JStr "1")])]])].

(** An event one of whose competitors has no team. *)
Definition teamless_event : json :=
  JObj [("id", JStr "405");
        ("competitions", JArr [
           JObj [("competitors", JArr [JObj [("score", JStr "110")]])]])].

(** An article with one team category. *)
Definition article_example : json :=
  JObj [("id", JStr "77");
        ("headline", JStr "TeamA wins");
        ("categories", JArr [JObj [("type", JStr "team");
                                   ("description", JStr "TeamA")]])].

(** A decoder that knows the two empty structures and nothing else. *)
Definition loads_empty_only (s : string) : option json :=
  if String.eqb s "[]" then Some (JArr [])
  else if String.eqb s "{}" then Some (JObj [])
  else None.

(** Two hits, the stored strings of the first one cut short. *)
Definition response_example : json :=
  JObj [("result", JObj [("hits", JArr [
    JObj [("_id", JStr "doc-401"); ("_score", JInt 2);
          ("fields", JObj [("chunk_text", JStr "FINAL SCORE: TeamA (110) vs TeamB (98).");
                           ("performers", JStr "[{");
                           ("context", JStr "{")])];
    JObj [("_id", JStr "doc-402"); ("_score", JInt 1);
          ("fields", JObj [("chunk_text", JStr "NEWS: None. ");
                           ("performers", JStr "[]")])]])])].

(** ** src/agents/analyst.py *)

(** The line feed of the f-strings. *)
Definition nl : string := String "010"%char EmptyString.

(** What one pass of the loop of [search_knowledge_base] appends to
    [context] (lines 28-30); [i] counts from 0. *)
Definition result_block (i : nat) (r : search_result) : string :=
  (nl ++ "[Result " ++ str_of_Z (Z.of_nat (i + 1)) ++ "] " ++ Py.str (sr_text r))
  ++ (if Py.truthy (sr_context r)
      then nl ++ "Context: " ++ Py.str (sr_context r)
      else "").

(** [for i, res in enumerate(results): context += ...], from index [i] on. *)
Fixpoint knowledge_context (i : nat) (results : list search_result) : string :=
  match results with
  | [] => ""
  | r :: rest => result_block i r ++ knowledge_context (S i) rest
  end.

(** [search_knowledge_base], from the outcome of the index call on. *)
Definition search_knowledge_base (json_loads : string -> option json)
    (response : res json) : string :=
  let context := knowledge_context 0 (search json_loads response) in
  if String.eqb context "" then "No results found in the database." else context.

(** ** More of scripts/update_vector_db.py *)

(** The ids of [process_news] (line 59) and of [process_scores] (line 83). *)
Definition process_news_id (art : json) : res string :=
  i <- Py.item art "id" ;; Ok ("news-" ++ Py.str i).

Definition process_scores_id (ev : json) : res string :=
  i <- Py.item ev "id" ;; Ok ("score-" ++ Py.str i).

(** ** More vocabulary *)

(** The members of a list in the order of their first occurrence. *)
Fixpoint keep_first (l : list string) : list string :=
  match l with
  | [] => []
  | x :: r => x :: filter (fun y => negb (String.eqb y x)) (keep_first r)
  end.

(** [status.type] of an event, the empty dict when missing. *)
Definition status_type_of (event : json) : res json :=
  status <- Py.get event "status" (JObj []) ;;
  Py.get status "type" (JObj []).

(** An event with a status and no state in it. *)
Definition stateless_event : json :=
  JObj [("id", JStr "407");
        ("name", JStr "TeamE at TeamF");
        ("status", JObj [("type", JObj [("detail", JStr "Postponed")])])].

(** A lower-case hexadecimal digit. *)
Definition is_hex_char (c : ascii) : bool :=
  existsb (Ascii.eqb c) (list_ascii_of_string "0123456789abcdef").

(** All the characters of [s] satisfy [p]. *)
Fixpoint string_forall (p : ascii -> bool) (s : string) : bool :=
  match s with
  | EmptyString => true
  | String c r => p c && string_forall p r
  end.

(** A document of a file, its page content being the dump of its record. *)
Definition document_of (file : string) (record : json) : document :=
  {| doc_file := file; page_content := Json.dumps false record; raw_json := record |}.

(** The scenario game while it is still scheduled: the same id, no score
    yet. *)
Definition scenario_scheduled : json :=
  JObj [("id", JStr "401");
        ("name", JStr "TeamA at TeamB");
        ("status", JObj [("type", JObj [("state", JStr "pre")])]);
        ("competitions", JArr [
           JObj [("competitors", JArr [competitor_example "TeamA" "TA" (JStr "0");
                                       competitor_example "TeamB" "TB" (JStr "0")])]])].

(** A response one of whose hits is null. *)
Definition response_null_hit : json :=
  JObj [("result", JObj [("hits", JArr [
    JObj [("_id", JStr "doc-401"); ("fields", JObj [("chunk_text", JStr "text")])];
    JNull])])].

(** A leader of the game has no team; the category of a leader of a team
    starts with the team. *)
Definition leader_labelled (l : leader) : Prop :=
  l_team l = JNull
  \/ exists name, l_category l = JStr (Py.str (l_team l) ++ " " ++ Py.str name).

(** None of the statistics of competitor [c] is one of the three recognised
    percentages. *)
Definition unrecognised_only (c : json) : Prop :=
  forall stats ss st n,
    Py.get c "statistics" (JArr []) = Ok stats -> Py.iter stats = Ok ss ->
    In st ss -> Py.item st "name" = Ok n -> is_key_stat n = false.

(** The keys of its fields that [search] reads from a hit. *)
Definition read_keys : list string :=
  ["headline"; "event_date"; "performers"; "context"].

(** The hit is a stored record as the index returns it: its fields hold the
    chunk text of the record and, under the keys that [search] reads, what
    the record holds. *)
Definition hit_of (rec : store_record) (hit : json) : Prop :=
  exists fs,
    fields_of hit = Ok (JObj fs)
    /\ lookup "chunk_text" fs = Some (JStr (chunk_text rec))
    /\ forall k, In k read_keys -> lookup k fs = lookup k (meta_dict rec).

(** The decoder gives back the value that was serialised. *)
Definition decodes (json_loads : string -> option json) (v : json) : Prop :=
  json_loads (Json.dumps false v) = Some v.

(** A decoder that knows the serialised form of the values of a table and
    nothing else. *)
Fixpoint loads_table (table : list json) (s : string) : option json :=
  match table with
  | [] => None
  | v :: rest => if String.eqb s (Json.dumps false v) then Some v else loads_table rest s
  end.

(** The hit that stands for a record, with the score of the index. *)
Definition hit_example (score : json) (rec : store_record) : json :=
  JObj [("_id", JStr (rec_id rec)); ("_score", score);
        ("fields", JObj (("chunk_text", JStr (chunk_text rec)) :: meta_dict rec))].

(** * Properties *)

(** ** Strings *)

Section StringFacts.

Lemma append_nil_r (s : string) : s ++ "" = s.
Proof. induction s as [|c s IH]; simpl; [reflexivity | now rewrite IH]. Qed.


Lemma has_char_app (c : ascii) (a b : string) :
  has_char c (a ++ b) = has_char c a || has_char c b.
Proof.
  induction a as [|x a IH]; simpl; [reflexivity|].
  rewrite IH. now rewrite orb_assoc.
Qed.

Lemma split_not_nil (sep : ascii) (s : string) : split sep s <> [].
Proof.
  destruct s as [|c r]; simpl; [discriminate|].
  destruct (Ascii.eqb c sep); [discriminate|].
  destruct (split sep r); discriminate.
Qed.

(** No component of a split holds the separator. *)
Lemma split_no_sep (sep : ascii) (s : string) :
  Forall (fun p => has_char sep p = false) (split sep s).
Proof.
  induction s as [|c r IH]; simpl.
  - constructor; [reflexivity | constructor].
  - destruct (Ascii.eqb c sep) eqn:E.
    + constructor; [reflexivity | exact IH].
    + destruct (split sep r) as [|p ps]; inversion IH; subst;
        constructor; simpl; try rewrite E; auto.
Qed.

Lemma split_without_sep (sep : ascii) (s : string) :
  has_char sep s = false -> split sep s = [s].
Proof.
  induction s as [|c r IH]; simpl; [reflexivity|].
  intros H. apply orb_false_iff in H as [H1 H2].
  rewrite H1, (IH H2). reflexivity.
Qed.

(** Splitting [x ++ sep ++ t] when [x] is free of the separator. *)
Lemma split_app_sep (sep : ascii) (x t : string) :
  has_char sep x = false ->
  split sep (x ++ String sep t) = x :: split sep t.
Proof.
  induction x as [|c r IH]; simpl; intros H.
  - now rewrite Ascii.eqb_refl.
  - apply orb_false_iff in H as [H1 H2].
    rewrite H1, (IH H2). reflexivity.
Qed.

Lemma lstrip_has_char (c : ascii) (s : string) :
  has_char c s = false -> has_char c (lstrip s) = false.
Proof.
  induction s as [|d r IH]; simpl; [reflexivity|]; intros H.
  destruct (is_space d); [|exact H].
  apply orb_false_iff in H as [_ H2]. auto.
Qed.

Lemma rstrip_has_char (c : ascii) (s : string) :
  has_char c s = false -> has_char c (rstrip s) = false.
Proof.
  induction s as [|d r IH]; simpl; [reflexivity|]; intros H.
  apply orb_false_iff in H as [H1 H2]. specialize (IH H2).
  destruct (rstrip r) as [|e r'].
  - destruct (is_space d); simpl; [reflexivity | now rewrite H1].
  - simpl in *. now rewrite H1, IH.
Qed.

Lemma strip_has_char (c : ascii) (s : string) :
  has_char c s = false -> has_char c (strip s) = false.
Proof. intros H. apply rstrip_has_char, lstrip_has_char, H. Qed.

Lemma rstrip_idem (s : string) : rstrip (rstrip s) = rstrip s.
Proof.
  induction s as [|d r IH]; simpl; [reflexivity|].
  destruct (rstrip r) as [|e r'] eqn:E.
  - destruct (is_space d) eqn:S; simpl; [reflexivity | now rewrite S].
  - simpl in IH |- *. destruct (rstrip r') as [|e' r''] eqn:E'.
    + destruct (is_space e) eqn:Se; [discriminate IH|]. now rewrite IH.
    + now rewrite IH.
Qed.

Lemma lstrip_no_lead (s : string) : no_lead (lstrip s).
Proof.
  induction s as [|d r IH]; simpl; [exact I|].
  destruct (is_space d) eqn:E; [exact IH | exact E].
Qed.

Lemma lstrip_fix (s : string) : no_lead s -> lstrip s = s.
Proof. destruct s as [|d r]; simpl; [reflexivity|]. now intros ->. Qed.

Lemma rstrip_no_lead (s : string) : no_lead s -> no_lead (rstrip s).
Proof.
  destruct s as [|d r]; simpl; [auto|]. intros H.
  destruct (rstrip r); [rewrite H|]; exact H.
Qed.

Lemma strip_idem (s : string) : strip (strip s) = strip s.
Proof.
  unfold strip.
  rewrite (lstrip_fix (rstrip (lstrip s))).
  - apply rstrip_idem.
  - apply rstrip_no_lead, lstrip_no_lead.
Qed.

Lemma strip_space (s : string) : strip (String " " s) = strip s.
Proof. reflexivity. Qed.

Lemma join_cons2 (sep x y : string) (r : list string) :
  join sep (x :: y :: r) = x ++ sep ++ join sep (y :: r).
Proof. reflexivity. Qed.

Lemma join_has_char (c : ascii) (sep : string) (l : list string) :
  has_char c sep = false ->
  Forall (fun p => has_char c p = false) l ->
  has_char c (join sep l) = false.
Proof.
  intros Hs H. induction H as [|x r Hx Hr IH]; [reflexivity|].
  destruct r as [|y r]; [exact Hx|].
  rewrite join_cons2, !has_char_app, Hx, Hs, IH. reflexivity.
Qed.

End StringFacts.

(** ** [clean_display_value] *)

Section CleanDisplayValue.

Lemma clean_unfold (val : string) :
  val <> "" ->
  clean_display_value val =
  match map strip (kept_parts val) with
  | [] => val
  | _ :: _ => join ", " (map strip (kept_parts val))
  end.
Proof.
  intros H. unfold clean_display_value.
  destruct (String.eqb_spec val ""); [contradiction | reflexivity].
Qed.

Lemma kept_parts_settled (val : string) :
  Forall settled (map strip (kept_parts val)).
Proof.
  unfold kept_parts. pose proof (split_no_sep "," val) as H.
  induction H as [|p ps Hp _ IH]; simpl; [constructor|].
  unfold no_slash at 1. destruct (has_char "/" p) eqn:E; simpl; [exact IH|].
  constructor; [|exact IH].
  repeat split; [apply strip_idem | |]; now apply strip_has_char.
Qed.

Lemma split_join_settled (x : string) (r : list string) :
  Forall settled (x :: r) ->
  split "," (join ", " (x :: r)) = x :: map (String " ") r.
Proof.
  revert x. induction r as [|y r IH]; intros x H.
  - inversion H as [|? ? (_ & Hc & _) _]; subst. simpl.
    now apply split_without_sep.
  - inversion H as [|? ? (_ & Hc & _) Hr]; subst.
    rewrite join_cons2.
    change (", " ++ join ", " (y :: r)) with (String "," (String " " (join ", " (y :: r)))).
    rewrite split_app_sep by exact Hc.
    change (split "," (String " " (join ", " (y :: r))))
      with (match split "," (join ", " (y :: r)) with
            | [] => [String " " EmptyString]
            | p :: ps => String " " p :: ps
            end).
    now rewrite (IH y Hr).
Qed.

Lemma filter_map_space (r : list string) :
  Forall settled r ->
  filter no_slash (map (String " ") r) = map (String " ") r
  /\ map strip (map (String " ") r) = r.
Proof.
  induction 1 as [|y r (Hs & _ & Hn) _ [IH1 IH2]]; [split; reflexivity|].
  assert (Hy : no_slash (String " " y) = true)
    by (unfold no_slash; cbn [has_char]; now rewrite Hn).
  cbn [map filter]. rewrite Hy, IH1, IH2, strip_space, Hs. split; reflexivity.
Qed.

Lemma clean_join_settled (x : string) (r : list string) :
  Forall settled (x :: r) ->
  join ", " (x :: r) <> "" ->
  clean_display_value (join ", " (x :: r)) = join ", " (x :: r).
Proof.
  intros H Hne. rewrite (clean_unfold _ Hne). unfold kept_parts.
  rewrite (split_join_settled x r H).
  inversion H as [|? ? (Hs & _ & Hn) Hr]; subst.
  destruct (filter_map_space r Hr) as [E1 E2].
  assert (Hx : no_slash x = true) by (unfold no_slash; now rewrite Hn).
  cbn [filter]. rewrite Hx, E1. cbn [map]. rewrite E2, Hs. reflexivity.
Qed.

(** Whenever a component survives, the result is free of slashes. *)
Lemma clean_no_slash (val : string) :
  val <> "" -> kept_parts val <> [] ->
  has_char "/" (clean_display_value val) = false.
Proof.
  intros Hne Hk. rewrite (clean_unfold _ Hne).
  pose proof (kept_parts_settled val) as H.
  destruct (map strip (kept_parts val)) as [|x r] eqn:E.
  - destruct (kept_parts val); [contradiction | discriminate].
  - apply join_has_char; [reflexivity|].
    eapply Forall_impl; [|exact H]. now intros a (_ & _ & Ha).
Qed.

End CleanDisplayValue.

(** C2 (amended): [clean_display_value] splits at commas, drops the
    components that hold a slash, strips the others and joins them with a
    comma and a space.  The text N/A is returned for the empty input; when
    every component holds a slash the input is returned unchanged, so the
    ratio 354/492 alone comes back as it is.  N/A comes out only for the
    empty input and for N/A itself. *)
Theorem clean_display_value_policy :
  clean_display_value "354/492, 18 TD" = "18 TD"
  /\ clean_display_value "" = "N/A"
  /\ clean_display_value "354/492" = "354/492"
  /\ (forall val, val <> "" ->
        (kept_parts val = [] -> clean_display_value val = val)
        /\ (kept_parts val <> [] ->
            clean_display_value val = join ", " (map strip (kept_parts val))
            /\ has_char "/" (clean_display_value val) = false))
  /\ (forall val, clean_display_value val = "N/A" <-> val = "" \/ val = "N/A").
Proof.
  split; [reflexivity|]. split; [reflexivity|]. split; [reflexivity|].
  assert (P : forall val, val <> "" ->
        (kept_parts val = [] -> clean_display_value val = val)
        /\ (kept_parts val <> [] ->
            clean_display_value val = join ", " (map strip (kept_parts val))
            /\ has_char "/" (clean_display_value val) = false)).
  { intros val Hne. split.
    - intros E. rewrite (clean_unfold _ Hne), E. reflexivity.
    - intros Hk. split; [|now apply clean_no_slash].
      rewrite (clean_unfold _ Hne).
      destruct (kept_parts val); [contradiction | reflexivity]. }
  split; [exact P|].
  intros val. split.
  - intros E. destruct (string_dec val "") as [->|Hne]; [now left | right].
    destruct (P val Hne) as [P1 P2].
    destruct (kept_parts val) as [|k ks] eqn:Ek.
    + rewrite <- E. symmetry. now apply P1.
    + destruct P2 as [_ Hs]; [discriminate|].
      rewrite E in Hs. discriminate Hs.
  - intros [-> | ->]; reflexivity.
Qed.

(** The policy at the input of the first example: one component of two
    survives. *)
Lemma clean_display_value_policy_witness :
  clean_display_value "354/492, 18 TD"
  = join ", " (map strip (kept_parts "354/492, 18 TD"))
  /\ has_char "/" (clean_display_value "354/492, 18 TD") = false.
Proof.
  destruct clean_display_value_policy as (_ & _ & _ & P & _).
  apply (P "354/492, 18 TD"); [discriminate|].
  simpl. discriminate.
Defined.

(** C2, as stated, fails: for the lone ratio the function returns the ratio
    and not N/A, and a blank input gives the empty string and not N/A. *)
Lemma clean_display_value_keeps_lone_ratio :
  clean_display_value "354/492" = "354/492"
  /\ clean_display_value "354/492" <> "N/A"
  /\ clean_display_value " " = "".
Proof. repeat split. discriminate. Qed.

(** C10 (amended): cleaning a second time changes nothing whenever the
    first result is not the empty string. *)
Theorem clean_display_value_idempotent (s : string) :
  clean_display_value s <> "" ->
  clean_display_value (clean_display_value s) = clean_display_value s.
Proof.
  intros Hres.
  destruct (string_dec s "") as [->|Hne]; [reflexivity|].
  rewrite (clean_unfold _ Hne) in Hres |- *.
  pose proof (kept_parts_settled s) as H.
  destruct (map strip (kept_parts s)) as [|x r] eqn:E.
  - rewrite (clean_unfold _ Hne), E. reflexivity.
  - now apply clean_join_settled.
Qed.

(** The second cleaning of the first example. *)
Lemma clean_display_value_idempotent_witness :
  clean_display_value (clean_display_value "354/492, 18 TD")
  = clean_display_value "354/492, 18 TD".
Proof. apply clean_display_value_idempotent. discriminate. Defined.

(** C10, as stated, fails on a blank string: the first cleaning gives the
    empty string, the second gives N/A. *)
Lemma clean_display_value_not_idempotent :
  clean_display_value " " = ""
  /\ clean_display_value (clean_display_value " ") = "N/A".
Proof. split; reflexivity. Qed.

(** ** Deduplication *)

Section Dedup.

Context {V : Type}.
Implicit Types (d : list (string * V)) (k : string) (v : V).

Lemma lookup_dict_set_eq d k v : lookup k (dict_set k v d) = Some v.
Proof.
  induction d as [|[k' v'] d IH]; simpl.
  - now rewrite String.eqb_refl.
  - destruct (String.eqb k' k) eqn:E; simpl; rewrite E; [reflexivity | exact IH].
Qed.

Lemma lookup_dict_set_ne d k k' v :
  k <> k' -> lookup k' (dict_set k v d) = lookup k' d.
Proof.
  intros Hne. induction d as [|[k0 v0] d IH]; simpl.
  - destruct (String.eqb_spec k k'); [contradiction | reflexivity].
  - destruct (String.eqb_spec k0 k) as [->|Hk]; simpl.
    + destruct (String.eqb_spec k k'); [contradiction | reflexivity].
    + now rewrite IH.
Qed.

Lemma keys_dict_set d k v :
  map fst (dict_set k v d)
  = if existsb (String.eqb k) (map fst d) then map fst d else (map fst d ++ [k])%list.
Proof.
  induction d as [|[k0 v0] d IH]; simpl; [reflexivity|].
  destruct (String.eqb_spec k0 k) as [->|Hk]; simpl.
  - now rewrite String.eqb_refl.
  - rewrite IH. destruct (String.eqb_spec k k0) as [->|_]; [contradiction|].
    simpl. now destruct (existsb (String.eqb k) (map fst d)).
Qed.

Lemma NoDup_dict_set d k v :
  NoDup (map fst d) -> NoDup (map fst (dict_set k v d)).
Proof.
  intros H. rewrite keys_dict_set.
  destruct (existsb (String.eqb k) (map fst d)) eqn:E; [exact H|].
  apply NoDup_app; [exact H | repeat constructor; intros [] |].
  intros x Hx [Ex|[]]. subst x.
  assert (existsb (String.eqb k) (map fst d) = true) as E'.
  { apply existsb_exists. exists k. split; [exact Hx | apply String.eqb_refl]. }
  congruence.
Qed.

Lemma in_lookup d k v :
  NoDup (map fst d) -> (In (k, v) d <-> lookup k d = Some v).
Proof.
  induction d as [|[k0 v0] d IH]; simpl; intros H.
  - split; [intros [] | discriminate].
  - inversion H as [|? ? Hn Hd]; subst. specialize (IH Hd).
    destruct (String.eqb_spec k0 k) as [->|Hk].
    + split.
      * intros [E|Hin]; [now inversion E|].
        exfalso. apply Hn. now apply (in_map fst) in Hin.
      * intros E. left. now inversion E.
    + rewrite <- IH. split; [intros [E|Hin]|]; auto.
      inversion E; contradiction.
Qed.

End Dedup.

Section UniqueRecords.

Lemma filed_dict_set d r : filed d -> filed (dict_set (rec_id r) r d).
Proof.
  induction 1 as [|[k0 r0] d H0 Hd IH]; simpl.
  - repeat constructor.
  - destruct (String.eqb_spec k0 (rec_id r)) as [E|_]; constructor; auto.
Qed.

Lemma fold_step_inv (l : list store_record) d :
  NoDup (map fst d) -> filed d ->
  NoDup (map fst (fold_left step l d)) /\ filed (fold_left step l d).
Proof.
  revert d. induction l as [|r l IH]; simpl; intros d Hn Hf; [now split|].
  apply IH; [now apply NoDup_dict_set | now apply filed_dict_set].
Qed.

Lemma fold_step_lookup (l : list store_record) d i :
  lookup i (fold_left step l d)
  = match last_with_id i l with
    | Some r => Some r
    | None => lookup i d
    end.
Proof.
  revert d. induction l as [|r l IH]; simpl; intros d; [reflexivity|].
  rewrite IH. destruct (last_with_id i l); [reflexivity|].
  unfold step. destruct (String.eqb_spec (rec_id r) i) as [<-|Hne].
  - apply lookup_dict_set_eq.
  - now apply lookup_dict_set_ne.
Qed.

Lemma last_with_id_some (l : list store_record) i r :
  last_with_id i l = Some r -> In r l /\ rec_id r = i.
Proof.
  induction l as [|r0 l IH]; simpl; [discriminate|].
  destruct (last_with_id i l) as [r'|].
  - intros E. inversion E; subst. destruct (IH eq_refl); auto.
  - destruct (String.eqb_spec (rec_id r0) i); [|discriminate].
    intros E. inversion E; subst. auto.
Qed.

Lemma last_with_id_none (l : list store_record) i :
  last_with_id i l = None <-> ~ In i (map rec_id l).
Proof.
  induction l as [|r0 l IH]; simpl; [tauto|].
  destruct (last_with_id i l) as [r'|].
  - split; [discriminate|]. intros H. exfalso. apply H. right.
    destruct IH as [_ IH]. destruct (in_dec string_dec i (map rec_id l)); [assumption|].
    now specialize (IH n).
  - destruct (String.eqb_spec (rec_id r0) i).
    + split; [discriminate | intros H; exfalso; auto].
    + split; [|reflexivity]. intros _ [E|Hin]; [contradiction|].
      now apply IH.
Qed.

End UniqueRecords.

(** What [run_ingestion] hands to the store is the deduplicated list of the
    records of its documents. *)
Lemma run_ingestion_batch (docs : list document) (batch : list store_record) :
  run_ingestion docs = Ok (Some batch) ->
  exists all_records,
    mapM (fun d => ingest_doc (doc_file d) (page_content d) (raw_json d)) docs
    = Ok all_records
    /\ all_records <> [] /\ batch = unique_records all_records.
Proof.
  unfold run_ingestion.
  destruct (mapM _ docs) as [[|r rs]|e]; simpl; intros E; inversion E.
  eexists. repeat split. discriminate.
Qed.

(** C5: the deduplicated batch holds exactly one record per identifier of
    the batch, and the record kept for an identifier is the last record of
    the batch, in batch order, that carries it. *)
Theorem unique_records_last_write_wins (all_records : list store_record) :
  NoDup (map rec_id (unique_records all_records))
  /\ (forall i, In i (map rec_id (unique_records all_records))
                <-> In i (map rec_id all_records))
  /\ (forall r, In r (unique_records all_records)
                <-> last_with_id (rec_id r) all_records = Some r).
Proof.
  unfold unique_records, by_id.
  change (fun d r => dict_set (rec_id r) r d) with step.
  destruct (fold_step_inv all_records [] (NoDup_nil _) (Forall_nil _)) as [Hn Hf].
  set (d := fold_left step all_records []) in *.
  assert (Hkeys : map rec_id (map snd d) = map fst d).
  { clear Hn. induction Hf as [|kv d' E _ IH]; simpl; [reflexivity | now rewrite E, IH]. }
  assert (Hin : forall r, In r (map snd d) <-> last_with_id (rec_id r) all_records = Some r).
  { intros r. rewrite in_map_iff. split.
    - intros ([k r'] & E & Hin). simpl in E. subst r'.
      assert (k = rec_id r) as ->.
      { unfold filed in Hf. rewrite Forall_forall in Hf. symmetry. exact (Hf _ Hin). }
      apply (in_lookup d _ _ Hn) in Hin. subst d.
      rewrite fold_step_lookup in Hin.
      destruct (last_with_id (rec_id r) all_records); [exact Hin | discriminate].
    - intros E. exists (rec_id r, r). split; [reflexivity|].
      apply (in_lookup d _ _ Hn). subst d. rewrite fold_step_lookup, E. reflexivity. }
  split; [now rewrite Hkeys|]. split; [|exact Hin].
  intros i. split.
  - rewrite in_map_iff. intros (r & <- & Hr). apply Hin in Hr.
    apply last_with_id_some in Hr as [Hr _]. now apply in_map.
  - intros Hi. destruct (last_with_id i all_records) as [r|] eqn:E.
    + destruct (last_with_id_some _ _ _ E) as [_ <-].
      apply in_map, Hin, E.
    + apply last_with_id_none in E. contradiction.
Qed.

(** ** Canonical hashing *)

(** Induction on JSON values, through arrays and objects. *)
Section JsonInduction.

Variable P : json -> Prop.
Hypothesis HNull : P JNull.
Hypothesis HBool : forall b, P (JBool b).
Hypothesis HInt : forall z, P (JInt z).
Hypothesis HFloat : forall f, P (JFloat f).
Hypothesis HStr : forall s, P (JStr s).
Hypothesis HArr : forall l, Forall P l -> P (JArr l).
Hypothesis HObj : forall kvs, Forall (fun kv => P (snd kv)) kvs -> P (JObj kvs).

Lemma json_induction (v : json) : P v.
Proof.
  revert v. fix IH 1. intros [| b | z | f | s | l | kvs].
  - exact HNull.
  - apply HBool.
  - apply HInt.
  - apply HFloat.
  - apply HStr.
  - apply HArr. induction l as [|x l IHl]; constructor; [apply IH | exact IHl].
  - apply HObj. induction kvs as [|[k x] kvs IHk]; constructor;
      [apply IH | exact IHk].
Qed.

End JsonInduction.

Section KeyOrder.

Lemma ascii_compare_spec (a b : ascii) :
  CompareSpec (a = b) (N_of_ascii a < N_of_ascii b)%N
    (N_of_ascii b < N_of_ascii a)%N (Ascii.compare a b).
Proof.
  unfold Ascii.compare.
  destruct (N.compare_spec (N_of_ascii a) (N_of_ascii b)) as [E|L|G];
    constructor; auto.
  rewrite <- (ascii_N_embedding a), <- (ascii_N_embedding b). now rewrite E.
Qed.

Lemma string_leb_trans (a b c : string) :
  String.leb a b = true -> String.leb b c = true -> String.leb a c = true.
Proof.
  unfold String.leb. revert b c.
  induction a as [|x a IH]; intros [|y b] [|z c]; simpl; try congruence.
  destruct (ascii_compare_spec x y) as [E1|L1|G1];
    destruct (ascii_compare_spec y z) as [E2|L2|G2];
    try congruence;
    destruct (ascii_compare_spec x z) as [E3|L3|G3];
    try subst; try lia; eauto.
Qed.

Context {A : Type}.
Implicit Types (x y : string * A) (l : list (string * A)).

Lemma insert_by_key_comm x y l :
  fst x <> fst y ->
  Json.insert_by_key x (Json.insert_by_key y l)
  = Json.insert_by_key y (Json.insert_by_key x l).
Proof.
  intros Hne.
  assert (Hanti : String.leb (fst y) (fst x) = negb (String.leb (fst x) (fst y))).
  { destruct (String.leb (fst x) (fst y)) eqn:E1;
      destruct (String.leb (fst y) (fst x)) eqn:E2; try reflexivity.
    - exfalso. apply Hne. now apply String.leb_antisym.
    - destruct (String.leb_total (fst x) (fst y)); congruence. }
  induction l as [|a l IH]; simpl.
  - rewrite Hanti. now destruct (String.leb (fst x) (fst y)).
  - destruct (String.leb (fst y) (fst a)) eqn:Ya;
      destruct (String.leb (fst x) (fst a)) eqn:Xa; simpl;
      rewrite ?Hanti; destruct (String.leb (fst x) (fst y)) eqn:E; simpl;
      rewrite ?Ya, ?Xa; try reflexivity.
    + pose proof (string_leb_trans _ _ _ E Ya). congruence.
    + simpl in Hanti.
      pose proof (string_leb_trans _ _ _ Hanti Xa). congruence.
    + now rewrite IH.
    + now rewrite IH.
Qed.

(** Sorting by key does not see the order of the items, as long as the
    keys are pairwise distinct. *)
Lemma sort_by_key_perm l l' :
  Permutation l l' -> NoDup (map fst l) ->
  Json.sort_by_key l = Json.sort_by_key l'.
Proof.
  induction 1 as [|x l l' Hp IH|x y l|l l' l'' Hp1 IH1 Hp2 IH2]; intros Hn.
  - reflexivity.
  - simpl. inversion Hn; subst. now rewrite IH.
  - simpl. apply insert_by_key_comm.
    inversion Hn as [|? ? Hy _]; subst. intros E. apply Hy. left. now symmetry.
  - rewrite IH1 by exact Hn. apply IH2.
    eapply Permutation_NoDup; [|exact Hn]. now apply Permutation_map.
Qed.

End KeyOrder.

Lemma wf_json_arr (l : list json) : wf_json (JArr l) <-> Forall wf_json l.
Proof.
  simpl. induction l as [|x l IH]; [split; constructor|].
  split.
  - intros [Hx Hl]. constructor; [exact Hx | now apply IH].
  - intros H. inversion H; subst. split; [assumption | now apply IH].
Qed.

Lemma wf_json_obj (kvs : obj) :
  wf_json (JObj kvs)
  <-> NoDup (map fst kvs) /\ Forall (fun kv => wf_json (snd kv)) kvs.
Proof.
  simpl. apply and_iff_compat_l.
  induction kvs as [|[k x] l IH]; [split; constructor|].
  split.
  - intros [Hx Hl]. constructor; [exact Hx | now apply IH].
  - intros H. inversion H; subst. split; [assumption | now apply IH].
Qed.

Lemma dumps_reordered (r1 : json) :
  wf_json r1 -> forall r2, reordered r1 r2 ->
  Json.dumps true r1 = Json.dumps true r2.
Proof.
  induction r1 as [| | | | |l IH|kvs IH] using json_induction;
    intros Hwf r2 Hr; inversion Hr; subst; try reflexivity.
  - (* arrays *)
    apply wf_json_arr in Hwf.
    match goal with H : Forall2 reordered _ _ |- _ => rename H into H2 end.
    assert (E : map (Json.dumps true) l = map (Json.dumps true) l2).
    { clear Hr. induction H2 as [|x y l l' Hxy _ IHl]; [reflexivity|].
      inversion IH; inversion Hwf; subst. simpl. f_equal; auto. }
    simpl. now rewrite E.
  - (* objects *)
    apply wf_json_obj in Hwf as [Hnd Hwf].
    match goal with H : Forall2 _ kvs _ |- _ => rename H into H2 end.
    match goal with H : Permutation _ _ |- _ => rename H into Hp end.
    set (render := fun kv : string * json => (fst kv, Json.dumps true (snd kv))).
    assert (E : map render kvs = map render kvs0).
    { clear Hr Hp Hnd. induction H2 as [|a b l l' [Hk Hv] _ IHl]; [reflexivity|].
      inversion IH; inversion Hwf; subst. simpl. f_equal; auto.
      unfold render. rewrite Hk. f_equal. auto. }
    assert (S : Json.sort_by_key (map render kvs) = Json.sort_by_key (map render kvs2)).
    { rewrite E. apply sort_by_key_perm; [now apply Permutation_map|].
      rewrite <- E, map_map. exact Hnd. }
    simpl. fold render. now rewrite S.
Qed.

(** C7: the content hash of a raw record does not see the order of its
    keys, at any nesting level. *)
Theorem content_hash_key_order (r1 r2 : json) :
  wf_json r1 -> reordered r1 r2 ->
  compute_content_hash r1 = compute_content_hash r2.
Proof.
  intros Hwf Hr. unfold compute_content_hash.
  now rewrite (dumps_reordered r1 Hwf r2 Hr).
Qed.

Lemma reordered_refl (r : json) : reordered r r.
Proof.
  induction r as [| | | | |l IH|kvs IH] using json_induction; try constructor.
  - induction IH; constructor; auto.
  - apply ro_obj with (kvs := kvs); [|apply Permutation_refl].
    induction IH; constructor; auto.
Qed.

(** An event written twice, its keys in two orders at both levels. *)
Lemma content_hash_key_order_witness :
  compute_content_hash
    (JObj [("id", JStr "401");
           ("status", JObj [("state", JStr "pre"); ("detail", JStr "7:30 PM")])])
  = compute_content_hash
      (JObj [("status", JObj [("detail", JStr "7:30 PM"); ("state", JStr "pre")]);
             ("id", JStr "401")]).
Proof.
  apply content_hash_key_order.
  - simpl. repeat split; repeat constructor; simpl; intuition discriminate.
  - apply ro_obj with
      (kvs := [("id", JStr "401");
               ("status", JObj [("detail", JStr "7:30 PM"); ("state", JStr "pre")])]).
    + repeat constructor. simpl.
      apply ro_obj with (kvs := [("state", JStr "pre"); ("detail", JStr "7:30 PM")]).
      * repeat constructor.
      * apply perm_swap.
    + apply perm_swap.
Defined.

(** ** The stable identifier *)

Lemma ingest_doc_rec_id (f p : string) (r : json) (rec : store_record) :
  ingest_doc f p r = Ok rec -> stable_id_of p r = Ok (rec_id rec).
Proof.
  unfold ingest_doc. destruct (stable_id_of p r) as [i|e]; simpl; [|discriminate].
  destruct (extract_smart_metadata r f i) as [m|e]; simpl; [|discriminate].
  destruct (String.eqb (content_type m) "news");
    [destruct (Py.get r "description" (JStr "")) | destruct (transform_event_to_text r)];
    simpl; try discriminate; intros E; inversion E; reflexivity.
Qed.

(** C1 (amended): two records that carry the same id, when that id is not
    falsy (not null, empty, zero or false), get the same identifier, doc-
    followed by the id, whatever else they hold and whatever their page
    content is.  A record with no id, or a falsy one, gets doc- followed by
    the MD5 digest of its page content, which depends on that text alone. *)
Theorem stable_id_policy :
  (forall (p1 p2 : string) (kvs1 kvs2 : obj) (v : json),
      lookup "id" kvs1 = Some v -> lookup "id" kvs2 = Some v ->
      Py.truthy v = true ->
      stable_id_of p1 (JObj kvs1) = Ok ("doc-" ++ Py.str v)
      /\ stable_id_of p2 (JObj kvs2) = Ok ("doc-" ++ Py.str v))
  /\ (forall (p : string) (kvs : obj) (s : string),
      lookup "id" kvs = Some (JStr s) -> s <> "" ->
      stable_id_of p (JObj kvs) = Ok ("doc-" ++ s))
  /\ (forall (p : string) (kvs : obj),
      match lookup "id" kvs with
      | Some v => Py.truthy v = false
      | None => True
      end ->
      stable_id_of p (JObj kvs) = Ok ("doc-" ++ md5_hex p)).
Proof.
  unfold stable_id_of. simpl. repeat split.
  - rewrite H. simpl. now rewrite H1.
  - rewrite H0. simpl. now rewrite H1.
  - intros p kvs s H Hs. rewrite H. simpl.
    destruct (String.eqb_spec s ""); [contradiction | reflexivity].
  - intros p kvs H. destruct (lookup "id" kvs) as [v|]; simpl.
    + now rewrite H.
    + reflexivity.
Qed.

(** The same game, scheduled and final: one identifier. *)
Lemma stable_id_policy_witness :
  let scheduled := [("id", JStr "401"); ("status", JStr "pre")] in
  let final := [("status", JStr "post"); ("score", JInt 110); ("id", JStr "401")] in
  stable_id_of (Json.dumps false (JObj scheduled)) (JObj scheduled) = Ok "doc-401"
  /\ stable_id_of (Json.dumps false (JObj final)) (JObj final) = Ok "doc-401".
Proof.
  destruct stable_id_policy as [P _].
  apply (P _ _ _ _ (JStr "401")); reflexivity.
Defined.

(** C1, as stated, fails for an id that is there but empty: two records
    with the same id field get two identifiers, neither of them doc-
    followed by the id. *)
Lemma stable_id_empty_id_differs :
  let scheduled := JObj [("id", JStr ""); ("status", JStr "pre")] in
  let final := JObj [("id", JStr ""); ("status", JStr "post")] in
  Py.get scheduled "id" JNull = Py.get final "id" JNull
  /\ stable_id_of (Json.dumps false scheduled) scheduled
     = Ok "doc-8a39d325abfab7eb55166b02fb2b2e5c"
  /\ stable_id_of (Json.dumps false final) final
     = Ok "doc-c8bca4f43c819bab6f40b7bb1694b913".
Proof. vm_compute. repeat split. Qed.

(** ** Retrieval *)

Section RetrieverFacts.

Variable json_loads : string -> option json.

Lemma mapM_length {A B : Type} (f : A -> res B) (l : list A) (ys : list B) :
  mapM f l = Ok ys -> List.length ys = List.length l.
Proof.
  revert ys. induction l as [|x l IH]; simpl; intros ys E.
  - inversion E. reflexivity.
  - destruct (f x) as [y|e]; simpl in E; [|discriminate].
    destruct (mapM f l) as [ys'|e]; simpl in E; [|discriminate].
    inversion E. simpl. now rewrite (IH ys').
Qed.

Lemma mapM_nth {A B : Type} (f : A -> res B) (l : list A) (ys : list B) :
  mapM f l = Ok ys ->
  forall i x, nth_error l i = Some x ->
  exists y, nth_error ys i = Some y /\ f x = Ok y.
Proof.
  revert ys. induction l as [|a l IH]; simpl; intros ys E i x Hi.
  - destruct i; discriminate.
  - destruct (f a) as [y|e] eqn:Fa; simpl in E; [|discriminate].
    destruct (mapM f l) as [ys'|e]; simpl in E; [|discriminate].
    inversion E; subst. destruct i as [|i]; simpl in *.
    + inversion Hi; subst. eauto.
    + eauto.
Qed.

Lemma mapM_total {A B : Type} (f : A -> res B) (l : list A) :
  Forall (fun x => exists y, f x = Ok y) l -> exists ys, mapM f l = Ok ys.
Proof.
  induction 1 as [|x l [y Hy] _ [ys IH]]; simpl; [eauto|].
  rewrite Hy, IH. simpl. eauto.
Qed.

(** A field that does not decode is replaced by the default. *)
Lemma try_loads_malformed (fields : json) (key : string) (default : json) :
  malformed json_loads fields key ->
  try_loads json_loads fields key default = Ok default.
Proof.
  intros (s & Hi & Hl). unfold try_loads.
  destruct fields; try discriminate Hi. simpl in Hi |- *.
  destruct (lookup key kvs) as [v|]; [|discriminate]. simpl.
  inversion Hi; subst. simpl. now rewrite Hl.
Qed.

Lemma try_loads_total (kvs : obj) (key : string) (default : json) :
  exists v, try_loads json_loads (JObj kvs) key default = Ok v.
Proof.
  unfold try_loads. simpl. destruct (lookup key kvs) as [v|]; simpl; [|eauto].
  destruct (loads_dyn json_loads v); eauto.
Qed.

(** A well-shaped hit always yields a result. *)
Lemma search_hit_total (hit : json) :
  hit_shape hit = true ->
  exists fields r,
    fields_of hit = Ok fields
    /\ search_hit json_loads hit = Ok r
    /\ sr_performers r
       = match try_loads json_loads fields "performers" (JArr []) with
         | Ok v => v
         | Raise _ => JArr []
         end
    /\ sr_context r
       = match try_loads json_loads fields "context" (JObj []) with
         | Ok v => v
         | Raise _ => JObj []
         end.
Proof.
  destruct hit as [| | | | | |h]; try discriminate.
  unfold hit_shape, obj_with, opt_key. intros Hs.
  unfold search_hit, fields_of. simpl.
  assert (exists f, match lookup "fields" h with Some v => v | None => JObj [] end = JObj f)
    as [f Ef].
  { destruct (lookup "fields" h) as [[]|]; try discriminate; eauto. }
  rewrite Ef. exists (JObj f).
  destruct (try_loads_total f "performers" (JArr [])) as [p Hp].
  destruct (try_loads_total f "context" (JObj [])) as [c Hc].
  rewrite Hp, Hc. simpl. eexists. repeat split.
Qed.

End RetrieverFacts.

(** C9: when the hits of the response are dicts with dict fields, [search]
    returns one result per hit, in order, and a hit whose stored performers
    (or context) string does not decode gets the empty list (the empty
    dict) in its place. *)
Theorem search_keeps_malformed_hits
    (json_loads : string -> option json) (response : json) (hits : list json) :
  hits_of response = Ok hits ->
  forallb hit_shape hits = true ->
  List.length (search json_loads (Ok response)) = List.length hits
  /\ forall i hit fields,
       nth_error hits i = Some hit ->
       fields_of hit = Ok fields ->
       exists r,
         nth_error (search json_loads (Ok response)) i = Some r
         /\ (malformed json_loads fields "performers" -> sr_performers r = JArr [])
         /\ (malformed json_loads fields "context" -> sr_context r = JObj []).
Proof.
  intros Hh Hs. unfold search, search_results. simpl. rewrite Hh. simpl.
  assert (T : exists rs, mapM (search_hit json_loads) hits = Ok rs).
  { apply mapM_total. rewrite forallb_forall in Hs. apply Forall_forall.
    intros x Hx. destruct (search_hit_total json_loads x (Hs x Hx)) as (f & r & _ & E & _).
    eauto. }
  destruct T as [rs E]. rewrite E. split; [exact (mapM_length _ _ _ E)|].
  intros i hit fields Hi Hf.
  destruct (mapM_nth _ _ _ E i hit Hi) as (r & Hr & Er).
  exists r. split; [exact Hr|].
  rewrite forallb_forall in Hs.
  destruct (search_hit_total json_loads hit (Hs hit (nth_error_In _ _ Hi)))
    as (f & r' & Hf' & Er' & Hp & Hc).
  rewrite Hf in Hf'. inversion Hf'; subst f.
  rewrite Er in Er'. inversion Er'; subst r'.
  split; intros M.
  - rewrite Hp, (try_loads_malformed json_loads _ _ _ M). reflexivity.
  - rewrite Hc, (try_loads_malformed json_loads _ _ _ M). reflexivity.
Qed.

Lemma search_keeps_malformed_hits_witness :
  List.length (search loads_empty_only (Ok response_example)) = 2
  /\ exists r,
       nth_error (search loads_empty_only (Ok response_example)) 0 = Some r
       /\ sr_performers r = JArr [] /\ sr_context r = JObj []
       /\ sr_text r = JStr "FINAL SCORE: TeamA (110) vs TeamB (98).".
Proof.
  destruct (search_keeps_malformed_hits loads_empty_only response_example
              _ eq_refl eq_refl) as [L H].
  split; [exact L|].
  destruct (H 0 _ _ eq_refl eq_refl) as (r & Hr & Hp & Hc).
  exists r. split; [exact Hr|].
  split; [apply Hp; exists "[{"; split; reflexivity|].
  split; [apply Hc; exists "{"; split; reflexivity|].
  vm_compute in Hr. inversion Hr. reflexivity.
Defined.

(** ** Parsing a well-shaped event *)

Section Totality.

Lemma mapM_ok_map {A B : Type} (f : A -> res B) (g : A -> B) (l : list A) :
  Forall (fun x => f x = Ok (g x)) l -> mapM f l = Ok (map g l).
Proof.
  induction 1 as [|x l Hx _ IH]; simpl; [reflexivity|].
  now rewrite Hx, IH.
Qed.

Lemma mapM_Forall {A B : Type} (f : A -> res B) (P : A -> Prop) (Q : B -> Prop)
    (l : list A) :
  (forall x, P x -> exists y, f x = Ok y /\ Q y) ->
  Forall P l -> exists ys, mapM f l = Ok ys /\ Forall Q ys.
Proof.
  intros H. induction 1 as [|x l Hx _ (ys & E & Hq)]; simpl.
  - eexists; split; [reflexivity | constructor].
  - destruct (H x Hx) as (y & Ey & Qy). rewrite Ey, E. simpl.
    eexists; split; [reflexivity | now constructor].
Qed.

Lemma forallb_Forall {A : Type} (p : A -> bool) (l : list A) :
  forallb p l = true -> Forall (fun x => p x = true) l.
Proof. intros H. apply Forall_forall. now apply forallb_forall. Qed.

(** What [opt_key] and [req_key] say about a lookup. *)
Lemma opt_key_arr (k : string) (p : json -> bool) (o : obj) :
  opt_key k (arr_of p) o = true ->
  exists l, match lookup k o with Some v => v | None => JArr [] end = JArr l
            /\ Forall (fun x => p x = true) l.
Proof.
  unfold opt_key. destruct (lookup k o) as [[]|]; try discriminate; simpl.
  - intros H. eexists. split; [reflexivity | now apply forallb_Forall].
  - intros _. exists []. split; [reflexivity | constructor].
Qed.

Lemma opt_key_obj (k : string) (p : obj -> bool) (o : obj) :
  opt_key k (obj_with p) o = true -> p [] = true ->
  exists f, match lookup k o with Some v => v | None => JObj [] end = JObj f
            /\ p f = true.
Proof.
  unfold opt_key. destruct (lookup k o) as [[]|]; try discriminate; simpl; eauto.
Qed.

Lemma opt_key_opt_string (k : string) (o : obj) (d : json) :
  opt_key k is_opt_string o = true -> is_opt_string d = true ->
  is_opt_string (match lookup k o with Some v => v | None => d end) = true.
Proof. unfold opt_key. now destruct (lookup k o). Qed.

Lemma req_key_string (k : string) (o : obj) :
  req_key k is_string o = true -> exists s, lookup k o = Some (JStr s).
Proof.
  unfold req_key. destruct (lookup k o) as [[]|]; try discriminate. eauto.
Qed.

(** *** Leaders *)

Lemma leader_data_shape (o : obj) :
  opt_key "leaders" (arr_first Shape.leader_entry) o = true ->
  exists d, leader_data (JObj o) = Ok d
            /\ (d = JNull \/ Shape.leader_entry d = true).
Proof.
  unfold opt_key, leader_data. simpl.
  destruct (lookup "leaders" o) as [v|] eqn:E; simpl.
  - destruct v as [| | | | |[|x r]|]; try discriminate; simpl.
    + eauto.
    + eauto.
  - eauto.
Qed.

Lemma game_leader_shape (cat : json) :
  Shape.category cat = true ->
  exists l, game_leader cat = Ok l /\ leader_raw l.
Proof.
  destruct cat as [| | | | | |o]; try discriminate. unfold Shape.category, obj_with.
  intros H. apply andb_prop in H as [Hn Hl].
  destruct (req_key_string _ _ Hn) as [n En].
  destruct (leader_data_shape o Hl) as (d & Ed & Hd).
  unfold game_leader. simpl. rewrite En. simpl. rewrite Ed. simpl.
  eexists. split; [reflexivity|]. repeat split; assumption.
Qed.

Lemma team_leader_shape (abbr : string) (cat : json) :
  Shape.category cat = true ->
  exists l, team_leader (JStr abbr) cat = Ok l /\ leader_raw l.
Proof.
  destruct cat as [| | | | | |o]; try discriminate. unfold Shape.category, obj_with.
  intros H. apply andb_prop in H as [Hn Hl].
  destruct (req_key_string _ _ Hn) as [n En].
  destruct (leader_data_shape o Hl) as (d & Ed & Hd).
  unfold team_leader. simpl. rewrite En. simpl. rewrite Ed. simpl.
  eexists. split; [reflexivity|]. repeat split; assumption.
Qed.

(** What the shape of a competitor gives. *)
Lemma competitor_parts (c : json) :
  Shape.competitor c = true ->
  exists o t name abbr,
    c = JObj o /\ lookup "team" o = Some (JObj t)
    /\ lookup "displayName" t = Some (JStr name)
    /\ lookup "abbreviation" t = Some (JStr abbr)
    /\ opt_key "leaders" (arr_of Shape.category) o = true
    /\ opt_key "statistics" (arr_of Shape.statistic) o = true.
Proof.
  destruct c as [| | | | | |o]; try discriminate. unfold Shape.competitor, obj_with.
  intros H. repeat (apply andb_prop in H as [H ?]).
  unfold req_key in H. destruct (lookup "team" o) as [[| | | | | |t]|] eqn:Et;
    try discriminate.
  unfold Shape.team, obj_with in H. apply andb_prop in H as [Hn Ha].
  destruct (req_key_string _ _ Hn) as [n En].
  destruct (req_key_string _ _ Ha) as [a Ea].
  exists o, t, n, a. repeat split; assumption.
Qed.

Lemma team_leaders_shape (c : json) :
  Shape.competitor c = true ->
  exists ls, team_leaders c = Ok ls /\ Forall leader_raw ls.
Proof.
  intros H. destruct (competitor_parts c H) as (o & t & n & a & -> & Et & En & Ea & Hl & _).
  destruct (opt_key_arr _ _ _ Hl) as (cats & Ec & Hc).
  unfold team_leaders. simpl. rewrite Et. simpl. rewrite Ea. simpl.
  rewrite Ec. simpl.
  apply mapM_Forall with (P := fun x => Shape.category x = true); [|exact Hc].
  intros x Hx. now apply team_leader_shape.
Qed.

Lemma concat_Forall {A : Type} (P : A -> Prop) (ll : list (list A)) :
  Forall (Forall P) ll -> Forall P (List.concat ll).
Proof.
  induction 1 as [|l ll Hl _ IH]; simpl; [constructor|].
  apply Forall_app. now split.
Qed.

Lemma competition_parts (comp : json) :
  Shape.competition comp = true ->
  exists o cs,
    comp = JObj o
    /\ match lookup "competitors" o with Some v => v | None => JArr [] end = JArr cs
    /\ Forall (fun c => Shape.competitor c = true) cs
    /\ opt_key "leaders" (arr_of Shape.category) o = true
    /\ opt_key "venue" Shape.venue o = true
    /\ opt_key "odds" Shape.odds o = true.
Proof.
  destruct comp as [| | | | | |o]; try discriminate.
  unfold Shape.competition, obj_with.
  intros H. repeat (apply andb_prop in H as [H ?]).
  destruct (opt_key_arr _ _ _ H) as (cs & Ec & Hc).
  exists o, cs. repeat split; assumption.
Qed.

Lemma extract_leaders_shape (comp : json) :
  Shape.competition comp = true ->
  exists ls, extract_leaders comp = Ok ls
             /\ Forall (fun l => leader_good l = true) ls.
Proof.
  intros H. destruct (competition_parts comp H) as (o & cs & -> & Ec & Hc & Hl & _).
  unfold extract_leaders. simpl.
  match goal with
  | |- exists ls, bind ?g _ = _ /\ _ =>
      assert (G : exists game, g = Ok game /\ Forall leader_raw game)
  end.
  { unfold opt_key in Hl. destruct (lookup "leaders" o) as [v|]; simpl.
    - destruct v; try discriminate. simpl in Hl |- *.
      apply mapM_Forall with (P := fun x => Shape.category x = true).
      + intros x Hx. now apply game_leader_shape.
      + now apply forallb_Forall.
    - eexists. split; [reflexivity | constructor]. }
  destruct G as (game & Eg & Hg). rewrite Eg. simpl. rewrite Ec. simpl.
  destruct (mapM_Forall team_leaders (fun c => Shape.competitor c = true)
              (Forall leader_raw) cs team_leaders_shape Hc) as (teams & Et & Ht).
  rewrite Et. simpl. eexists. split; [reflexivity|].
  assert (R : Forall leader_raw (game ++ List.concat teams)).
  { apply Forall_app. split; [exact Hg | now apply concat_Forall]. }
  induction R as [|l ls (Hc' & Ht' & Hd) _ IH]; simpl; [constructor|].
  destruct (Py.truthy (l_data l)) eqn:T; [|exact IH].
  constructor; [|exact IH].
  unfold leader_good. rewrite Hc', Ht'. simpl.
  destruct Hd as [Hd|Hd]; [rewrite Hd in T; discriminate | exact Hd].
Qed.

End Totality.

Section TotalityLines.

(** *** Leader lines and performers *)

Lemma leader_good_parts (l : leader) :
  leader_good l = true ->
  exists c t d name,
    l_category l = JStr c /\ as_opt_str (l_team l) = Ok t
    /\ l_data l = JObj d
    /\ athlete_name_of l = Ok (JStr name)
    /\ exists v, leader_value_of l = Ok v.
Proof.
  unfold leader_good. intros H. repeat (apply andb_prop in H as [H ?]).
  destruct l as [c d t]. simpl in *.
  destruct c; try discriminate.
  destruct d as [| | | | | |o]; try discriminate.
  unfold Shape.leader_entry, obj_with in *.
  match goal with H : (_ && _)%bool = true |- _ => apply andb_prop in H as [Ha Hv] end.
  assert (exists t', as_opt_str t = Ok t') as [t' Et]
      by (destruct t; try discriminate; simpl; eauto).
  exists s, t', o.
  unfold athlete_name_of, leader_value_of. simpl.
  assert (exists name,
             Py.get (match lookup "athlete" o with Some v => v | None => JObj [] end)
               "displayName" (JStr "Unknown") = Ok (JStr name)) as [name En].
  { unfold opt_key in Ha. destruct (lookup "athlete" o) as [a|]; simpl; [|eauto].
    destruct a as [| | | | | |ao]; try discriminate. simpl in Ha |- *.
    unfold opt_key in Ha. destruct (lookup "displayName" ao) as [[]|];
      try discriminate; eauto. }
  exists name. rewrite En. repeat split; try assumption.
  unfold opt_key in Hv. unfold clean_display_value_dyn.
  destruct (lookup "displayValue" o) as [[]|]; try discriminate; simpl.
  - destruct (negb (negb (s0 =? ""))); eauto.
  - eauto.
Qed.

Lemma leader_line_total (l : leader) :
  leader_good l = true -> exists s, leader_line l = Ok s.
Proof.
  intros H. destruct (leader_good_parts l H) as (c & t & d & n & _ & _ & _ & En & v & Ev).
  unfold leader_line. rewrite En, Ev. simpl. eauto.
Qed.

Lemma performer_entry_total (l : leader) :
  leader_good l = true ->
  exists name p, performer_entry l = Ok (JStr name, p).
Proof.
  intros H. destruct (leader_good_parts l H) as (c & t & d & n & Ec & Et & _ & En & v & Ev).
  unfold performer_entry. rewrite En, Ev, Ec, Et. simpl. eauto.
Qed.

(** *** Team statistics *)

Lemma key_stat_total (stat : json) :
  Shape.statistic stat = true -> exists ks, key_stat stat = Ok ks.
Proof.
  destruct stat as [| | | | | |o]; try discriminate.
  unfold Shape.statistic, obj_with, req_key, key_stat. simpl.
  destruct (lookup "name" o) as [n|]; [|discriminate]. simpl.
  destruct (is_key_stat n); simpl; [|eauto].
  destruct (lookup "abbreviation" o); [|discriminate].
  destruct (lookup "displayValue" o); [|discriminate]. simpl. eauto.
Qed.

Lemma team_stats_entry_total (c : json) :
  Shape.competitor c = true -> exists s, team_stats_entry c = Ok s.
Proof.
  intros H. destruct (competitor_parts c H) as (o & t & n & a & -> & Et & En & Ea & _ & Hs).
  destruct (opt_key_arr _ _ _ Hs) as (stats & Es & Hst).
  unfold team_stats_entry. simpl. rewrite Et. simpl. rewrite Ea. simpl.
  rewrite Es. simpl.
  destruct (mapM_total key_stat stats) as [ks Ek].
  { eapply Forall_impl; [|exact Hst]. apply key_stat_total. }
  rewrite Ek. simpl. destruct (List.concat ks); eauto.
Qed.

Lemma extract_team_stats_total (comp : json) :
  Shape.competition comp = true -> exists s, extract_team_stats comp = Ok s.
Proof.
  intros H. destruct (competition_parts comp H) as (o & cs & -> & Ec & Hc & _).
  unfold extract_team_stats. simpl. rewrite Ec. simpl.
  destruct (mapM_total team_stats_entry cs) as [ss Es].
  { eapply Forall_impl; [|exact Hc]. apply team_stats_entry_total. }
  rewrite Es. simpl. eauto.
Qed.

(** *** Scores *)

Lemma score_entry_shape (c : json) :
  Shape.competitor c = true ->
  score_entry c = Ok (competitor_name c ++ " (" ++ competitor_score c ++ ")").
Proof.
  intros H. destruct (competitor_parts c H) as (o & t & n & a & -> & Et & En & _).
  unfold score_entry, competitor_name, competitor_score. simpl.
  rewrite Et. simpl. rewrite En. reflexivity.
Qed.

Lemma competitor_entry_shape (c : json) :
  Shape.competitor c = true ->
  competitor_entry c
  = Ok (JStr (competitor_name c), competitor_name c ++ " " ++ competitor_score c).
Proof.
  intros H. destruct (competitor_parts c H) as (o & t & n & a & -> & Et & En & _).
  unfold competitor_entry, competitor_name, competitor_score. simpl.
  rewrite Et. simpl. rewrite En. reflexivity.
Qed.

(** *** Odds and venue *)

Lemma display_odds_total (o : obj) :
  opt_key "odds" Shape.odds o = true ->
  exists v, display_odds (JObj o) = Ok v
            /\ (Py.truthy (match lookup "odds" o with Some x => x | None => JNull end)
                = false -> v = JStr "N/A").
Proof.
  unfold opt_key, display_odds. simpl.
  destruct (lookup "odds" o) as [v|]; simpl; [|eauto].
  unfold Shape.odds. destruct v as [| | | | |[|x r]|]; try discriminate; simpl.
  - eauto.
  - destruct x; try discriminate. simpl. intros _. eexists. split; [reflexivity|].
    discriminate.
Qed.

(** The odds of the stored context: the [details] of the first entry, or
    the text N/A when there is no entry. *)
Lemma stored_odds_total (o : obj) :
  opt_key "odds" Shape.odds o = true ->
  exists v, stored_odds (JObj o) = Ok v
            /\ is_opt_string v = true
            /\ (Py.truthy (match lookup "odds" o with Some x => x | None => JNull end)
                = false -> v = JStr "N/A").
Proof.
  unfold opt_key, stored_odds. simpl.
  destruct (lookup "odds" o) as [v|]; simpl; [|eauto].
  unfold Shape.odds. destruct v as [| | | | |[|x r]|]; try discriminate; simpl.
  - eauto.
  - destruct x; try discriminate. simpl. unfold opt_key.
    intros H. eexists. split; [reflexivity|]. split; [|discriminate].
    now destruct (lookup "details" kvs).
Qed.

Lemma venue_parts (o : obj) :
  opt_key "venue" Shape.venue o = true ->
  exists v a,
    match lookup "venue" o with Some x => x | None => JObj [] end = JObj v
    /\ opt_key "fullName" is_opt_string v = true
    /\ match lookup "address" v with Some x => x | None => JObj [] end = JObj a
    /\ opt_key "city" is_opt_string a = true.
Proof.
  intros H. apply opt_key_obj in H as (v & Ev & Hv); [|reflexivity].
  apply andb_prop in Hv as [Hf Ha].
  apply opt_key_obj in Ha as (a & Ea & Ha); [|reflexivity].
  exists v, a. repeat split; assumption.
Qed.

(** *** Sets of names *)

Lemma py_set_strings (names : list string) :
  py_set (map JStr names) = Ok (map JStr names).
Proof.
  unfold py_set.
  assert (H : forallb Py.hashable (map JStr names) = true)
    by (induction names; simpl; auto).
  now rewrite H.
Qed.

Lemma as_str_list_strings (names : list string) :
  as_str_list (map JStr names) = Ok (nodup string_dec names).
Proof.
  unfold as_str_list.
  assert (H : mapM as_str (map JStr names) = Ok names).
  { induction names as [|n l IH]; simpl; [reflexivity | now rewrite IH]. }
  now rewrite H.
Qed.

End TotalityLines.

Section TotalityEvent.

Lemma event_parts (ev : json) :
  Shape.event ev = true ->
  exists o comp ty w,
    ev = JObj o
    /\ Py.item0 (match lookup "competitions" o with
                 | Some v => v
                 | None => JArr [JObj []]
                 end) = Ok comp
    /\ Shape.competition comp = true
    /\ Py.get (match lookup "status" o with Some v => v | None => JObj [] end)
         "type" (JObj []) = Ok (JObj ty)
    /\ opt_key "state" is_opt_string ty = true
    /\ opt_key "name" is_opt_string o = true
    /\ opt_key "date" is_opt_string o = true
    /\ match lookup "weather" o with Some v => v | None => JObj [] end = JObj w
    /\ opt_key "displayValue" is_opt_string w = true
    /\ opt_key "broadcast" is_opt_string o = true.
Proof.
  destruct ev as [| | | | | |o]; try discriminate. unfold Shape.event, obj_with.
  intros H. repeat (apply andb_prop in H as [H ?]).
  rename H into Hc.
  match goal with H : opt_key "status" _ _ = true |- _ => rename H into Hs end.
  match goal with H : opt_key "weather" _ _ = true |- _ => rename H into Hw end.
  assert (C : exists comp,
             Py.item0 (match lookup "competitions" o with
                       | Some v => v
                       | None => JArr [JObj []]
                       end) = Ok comp /\ Shape.competition comp = true).
  { unfold opt_key in Hc. destruct (lookup "competitions" o) as [v|].
    - destruct v as [| | | | |[|x r]|]; try discriminate. simpl. eauto.
    - simpl. eauto. }
  destruct C as (comp & Ec & Hcomp).
  apply opt_key_obj in Hs as (st & Es & Hst); [|reflexivity].
  apply opt_key_obj in Hst as (ty & Et & Hty); [|reflexivity].
  apply andb_prop in Hty as [Hty _].
  apply opt_key_obj in Hw as (w & Ew & Hw); [|reflexivity].
  exists o, comp, ty, w. rewrite Es. simpl. rewrite Et.
  repeat split; assumption.
Qed.

(** The text of a well-shaped event: every lookup returns, and the card is
    chosen by the state. *)
Lemma transform_event_to_text_shape (ev : json) :
  Shape.event ev = true ->
  exists comp cs st detail matchup venue odds date lines stats,
    competition_of ev = Ok comp
    /\ Shape.competition comp = true
    /\ competitors_of ev = Ok cs
    /\ Forall (fun c => Shape.competitor c = true) cs
    /\ state_of ev = Ok st
    /\ display_odds comp = Ok odds
    /\ transform_event_to_text ev
       = Ok (if is_str "pre" st
             then preview_card matchup venue date odds (join " | " lines)
             else if is_str "in" st
             then live_card detail
                    (join " vs " (map (fun c => competitor_name c ++ " ("
                                                ++ competitor_score c ++ ")") cs))
                    (stats_block_of stats) (join " | " lines)
             else final_card
                    (join " vs " (map (fun c => competitor_name c ++ " ("
                                                ++ competitor_score c ++ ")") cs))
                    (stats_block_of stats) (join " | " lines)).
Proof.
  intros H.
  destruct (event_parts ev H) as (o & comp & ty & w & -> & Ec & Hcomp & Et & _).
  destruct (competition_parts comp Hcomp) as (co & cs & -> & Ecs & Hcs & _ & Hv & Ho).
  destruct (extract_leaders_shape _ Hcomp) as (ls & El & Hls).
  destruct (mapM_total leader_line ls) as [lines Elines].
  { eapply Forall_impl; [|exact Hls]. apply leader_line_total. }
  destruct (extract_team_stats_total _ Hcomp) as [stats Estats].
  destruct (venue_parts _ Hv) as (v & a & Ev & _).
  destruct (display_odds_total _ Ho) as (odds & Eo & _).
  assert (Escore : mapM score_entry cs
                   = Ok (map (fun c => competitor_name c ++ " ("
                                       ++ competitor_score c ++ ")") cs)).
  { apply mapM_ok_map. eapply Forall_impl; [|exact Hcs]. apply score_entry_shape. }
  assert (Hcomp_of : competition_of (JObj o) = Ok (JObj co))
    by (unfold competition_of; cbn [Py.get bind]; exact Ec).
  assert (Hcs_of : competitors_of (JObj o) = Ok cs)
    by (unfold competitors_of; rewrite Hcomp_of; cbn [Py.get bind];
        rewrite Ecs; reflexivity).
  assert (Hst_of : state_of (JObj o)
                   = Ok (match lookup "state" ty with
                         | Some x => x
                         | None => JStr "pre"
                         end))
    by (unfold state_of; cbn [Py.get bind]; rewrite Et; reflexivity).
  exists (JObj co), cs.
  unfold transform_event_to_text.
  cbn [Py.get bind]. rewrite Ec. cbn [bind]. rewrite Et. cbn [Py.get bind].
  rewrite Ecs. cbn [Py.iter bind]. rewrite Escore. cbn [bind].
  rewrite El. cbn [bind]. rewrite Elines. cbn [bind]. rewrite Estats. cbn [bind].
  rewrite Ev. cbn [Py.get bind]. rewrite Eo. cbn [bind].
  exists (match lookup "state" ty with Some x => x | None => JStr "pre" end),
    (match lookup "detail" ty with Some x => x | None => JStr "TBD" end),
    (match lookup "name" o with Some x => x | None => JStr "Unknown Matchup" end),
    (match lookup "fullName" v with Some x => x | None => JStr "TBD" end),
    odds,
    (match lookup "date" o with Some x => x | None => JNull end),
    lines, stats.
  repeat split; try assumption; try reflexivity.
  match goal with |- context [is_str "pre" ?x] => destruct (is_str "pre" x) end;
    [reflexivity|].
  match goal with |- context [is_str "in" ?x] => destruct (is_str "in" x) end;
    reflexivity.
Qed.

End TotalityEvent.

Section TotalityMetadata.

Lemma as_opt_str_total (v : json) :
  is_opt_string v = true -> exists x, as_opt_str v = Ok x.
Proof. destruct v; try discriminate; simpl; eauto. Qed.

Lemma firsts_are_strings {B : Type} (l : list (json * B)) :
  Forall (fun y => exists n, fst y = JStr n) l ->
  exists names, map fst l = map JStr names.
Proof.
  induction 1 as [|y l [n En] _ [names IH]]; [exists []; reflexivity|].
  exists (n :: names). simpl. now rewrite En, IH.
Qed.

(** The metadata of a well-shaped event of a score file. *)
Lemma extract_smart_metadata_shape (ev : json) (file sid : string) :
  Shape.event ev = true -> contains "news" file = false ->
  exists comp cs m c,
    competition_of ev = Ok comp
    /\ competitors_of ev = Ok cs
    /\ extract_smart_metadata ev file sid = Ok m
    /\ content_type m = "score"
    /\ content_hash m = compute_content_hash ev
    /\ scores m = map (fun x => competitor_name x ++ " " ++ competitor_score x) cs
    /\ teams m = nodup string_dec (map competitor_name cs)
    /\ context m = Some c
    /\ stored_odds comp = Ok (opt_json (odds c)).
Proof.
  intros H Hfile.
  destruct (event_parts ev H)
    as (o & comp & ty & w & -> & Ec & Hcomp & Et & Hstate & Hname & Hdate & Ew & Hw & Hb).
  destruct (competition_parts comp Hcomp) as (co & cs & -> & Ecs & Hcs & _ & Hv & Ho).
  destruct (extract_leaders_shape _ Hcomp) as (ls & El & Hls).
  destruct (mapM_Forall performer_entry (fun l => leader_good l = true)
              (fun y => exists n, fst y = JStr n) ls) as (perf & Eperf & Hperf);
    [|exact Hls|].
  { intros l Hl. destruct (performer_entry_total l Hl) as (n & p & E).
    rewrite E. eexists. split; [reflexivity|]. simpl. eauto. }
  destruct (firsts_are_strings perf Hperf) as [anames Ean].
  destruct (extract_team_stats_total _ Hcomp) as [stats Estats].
  destruct (venue_parts _ Hv) as (v & a & Ev & Hfull & Ea & Hcity).
  destruct (stored_odds_total _ Ho) as (od & Eo & Hod & _).
  assert (Eentries : mapM competitor_entry cs
            = Ok (map (fun x => (JStr (competitor_name x),
                                 competitor_name x ++ " " ++ competitor_score x)) cs)).
  { apply mapM_ok_map. eapply Forall_impl; [|exact Hcs]. apply competitor_entry_shape. }
  assert (Hcomp_of : competition_of (JObj o) = Ok (JObj co))
    by (unfold competition_of; cbn [Py.get bind]; exact Ec).
  assert (Hcs_of : competitors_of (JObj o) = Ok cs)
    by (unfold competitors_of; rewrite Hcomp_of; cbn [Py.get bind];
        rewrite Ecs; reflexivity).
  destruct (as_opt_str_total _ (opt_key_opt_string "fullName" v JNull Hfull eq_refl))
    as [cv Ecv].
  destruct (as_opt_str_total _ (opt_key_opt_string "city" a JNull Hcity eq_refl))
    as [cc Ecc].
  destruct (as_opt_str_total _ (opt_key_opt_string "displayValue" w (JStr "") Hw eq_refl))
    as [cw Ecw].
  destruct (as_opt_str_total _ Hod) as [co' Eco].
  destruct (as_opt_str_total _ (opt_key_opt_string "broadcast" o JNull Hb eq_refl))
    as [cb Ecb].
  destruct (as_opt_str_total _ (opt_key_opt_string "name" o JNull Hname eq_refl))
    as [mh Emh].
  destruct (as_opt_str_total _ (opt_key_opt_string "date" o JNull Hdate eq_refl))
    as [md Emd].
  destruct (as_opt_str_total _ (opt_key_opt_string "state" ty JNull Hstate eq_refl))
    as [ms Ems].
  exists (JObj co), cs.
  unfold extract_smart_metadata. rewrite Hfile.
  cbn [negb Py.get bind]. rewrite Ec. cbn [bind]. rewrite Et. cbn [Py.get bind].
  rewrite Ecs. cbn [Py.iter bind]. rewrite Eentries. cbn [bind].
  rewrite El. cbn [bind]. rewrite Eperf. cbn [bind]. rewrite Ew. cbn [Py.get bind].
  rewrite Eo. cbn [bind]. rewrite Ev. cbn [Py.get bind]. rewrite Ea. cbn [Py.get bind].
  rewrite Ecv. cbn [bind]. rewrite Ecc. cbn [bind]. rewrite Ecw. cbn [bind].
  rewrite Eco. cbn [bind]. rewrite Ecb. cbn [bind]. rewrite Estats. cbn [bind].
  rewrite map_map. cbn [fst]. rewrite <- (map_map competitor_name JStr).
  rewrite py_set_strings. cbn [bind]. rewrite Ean, py_set_strings. cbn [bind].
  rewrite !as_str_list_strings. cbn [bind].
  rewrite Emh. cbn [bind]. rewrite Emd. cbn [bind]. rewrite Ems. cbn [bind].
  do 2 eexists. repeat split; try assumption; try reflexivity.
  - cbn [scores]. now rewrite map_map.
  - cbn [context odds]. f_equal.
    destruct od; try discriminate; simpl in Eco; inversion Eco; reflexivity.
Qed.

End TotalityMetadata.

(** *** Articles *)

Section TotalityArticle.

Lemma news_category_total (cat : json) :
  Shape.news_category cat = true ->
  exists ts ps, news_category cat = Ok (map JStr ts, map JStr ps).
Proof.
  destruct cat as [| | | | | |o]; try discriminate.
  unfold Shape.news_category, obj_with, news_category, req_key. simpl.
  destruct (lookup "type" o) as [ty|]; simpl.
  - destruct (is_str "team" ty); simpl.
    + destruct (lookup "description" o) as [[]|]; try discriminate.
      intros _. exists [s], []. reflexivity.
    + destruct (is_str "athlete" ty); simpl.
      * destruct (lookup "description" o) as [[]|]; try discriminate.
        intros _. exists [], [s]. reflexivity.
      * intros _. exists [], []. reflexivity.
  - intros _. exists [], []. reflexivity.
Qed.

Lemma concat_strings (entries : list (list json * list json)) :
  Forall (fun e => exists ts ps, e = (map JStr ts, map JStr ps)) entries ->
  exists T P, List.concat (map fst entries) = map JStr T
              /\ List.concat (map snd entries) = map JStr P.
Proof.
  induction 1 as [|e l (ts & ps & ->) _ (T & P & ET & EP)].
  - exists [], []. split; reflexivity.
  - exists (ts ++ T)%list, (ps ++ P)%list. simpl.
    rewrite ET, EP, !map_app. split; reflexivity.
Qed.

Lemma extract_smart_metadata_article (a : json) (file sid : string) :
  Shape.article a = true -> contains "news" file = true ->
  exists m, extract_smart_metadata a file sid = Ok m /\ content_type m = "news".
Proof.
  destruct a as [| | | | | |o]; try discriminate. unfold Shape.article, obj_with.
  intros H Hfile. repeat (apply andb_prop in H as [H ?]).
  match goal with H : opt_key "categories" _ _ = true |- _ =>
    destruct (opt_key_arr _ _ _ H) as (cats & Ecats & Hcats) end.
  destruct (mapM_Forall news_category (fun c => Shape.news_category c = true)
              (fun e => exists ts ps, e = (map JStr ts, map JStr ps)) cats)
    as (entries & Ee & He); [|exact Hcats|].
  { intros x Hx. destruct (news_category_total x Hx) as (ts & ps & E).
    rewrite E. eauto. }
  destruct (concat_strings entries He) as (T & P & ET & EP).
  destruct (as_opt_str_total _ (opt_key_opt_string "headline" o JNull H eq_refl))
    as [mh Emh].
  match goal with Hp : opt_key "published" _ _ = true |- _ =>
    destruct (as_opt_str_total _ (opt_key_opt_string "published" o JNull Hp eq_refl))
      as [md Emd] end.
  unfold extract_smart_metadata. rewrite Hfile.
  cbn [negb Py.get bind]. rewrite Ecats. cbn [Py.iter bind]. rewrite Ee. cbn [bind].
  rewrite ET, EP, !py_set_strings. cbn [bind].
  rewrite !as_str_list_strings. cbn [bind].
  rewrite Emh. cbn [bind]. rewrite Emd. cbn [bind].
  eexists. split; reflexivity.
Qed.

End TotalityArticle.

Section Cards.

Lemma contains_prefix (p s : string) :
  String.prefix p s = true -> contains p s = true.
Proof. intros H. destruct s; simpl in *; rewrite H; reflexivity. Qed.

Lemma contains_app_r (p x t : string) :
  contains p t = true -> contains p (x ++ t) = true.
Proof.
  intros H. induction x as [|c x IH]; [exact H|].
  simpl. rewrite IH. apply orb_true_r.
Qed.

(** The general rule behind the end-to-end scenario: the score line and
    the scores follow the competitors in source order. *)
Lemma final_card_and_scores (ev : json) (file sid : string) (cs : list json) :
  Shape.event ev = true -> contains "news" file = false ->
  competitors_of ev = Ok cs ->
  exists m stats lines,
    extract_smart_metadata ev file sid = Ok m
    /\ scores m = map (fun c => competitor_name c ++ " " ++ competitor_score c) cs
    /\ (forall st, state_of ev = Ok st ->
        is_str "pre" st = false -> is_str "in" st = false ->
        transform_event_to_text ev
        = Ok (final_card
                (join " vs " (map (fun c => competitor_name c ++ " ("
                                            ++ competitor_score c ++ ")") cs))
                (stats_block_of stats) (join " | " lines))).
Proof.
  intros H Hfile Hcs.
  destruct (extract_smart_metadata_shape ev file sid H Hfile)
    as (comp & cs' & m & c & _ & Hcs' & Em & _ & _ & Hsc & _).
  rewrite Hcs in Hcs'. inversion Hcs'; subst cs'.
  destruct (transform_event_to_text_shape ev H)
    as (comp' & cs'' & st & detail & matchup & venue & odds & date & lines & stats
        & _ & _ & Hcs'' & _ & Hst & _ & Et).
  rewrite Hcs in Hcs''. inversion Hcs''; subst cs''.
  exists m, stats, lines. repeat split; try assumption.
  intros st' Hst' Hpre Hin. rewrite Hst in Hst'. inversion Hst'; subst st'.
  now rewrite Et, Hpre, Hin.
Qed.

End Cards.

(** ** The claims on parsing and synthesis *)

Lemma startswith_app (p x : string) : startswith p (p ++ x) = true.
Proof.
  unfold startswith. induction p as [|c p IH]; simpl; [now destruct x|].
  destruct (ascii_dec c c); [exact IH | contradiction].
Qed.

(** C4 (amended): parsing returns, without raising, on every event and
    every article of the feed's shape, whichever of the keys read through a
    defaulting lookup are missing (competitions, status, type, state,
    detail, name, date, weather, broadcast, competitors, leaders, venue,
    address, odds, score, statistics, athlete, displayValue, headline,
    published, categories).  The keys the code indexes directly have to be
    there: the team of a competitor with its displayName and abbreviation,
    the displayName of a leader category and the name of a statistic; and a
    competitions list, when present, has to be non-empty. *)
Theorem parsing_returns_on_feed_shape :
  (forall (ev : json) (file page : string),
      Shape.event ev = true -> contains "news" file = false ->
      exists comp leaders stats text m rec,
        competition_of ev = Ok comp
        /\ extract_leaders comp = Ok leaders
        /\ extract_team_stats comp = Ok stats
        /\ transform_event_to_text ev = Ok text
        /\ extract_smart_metadata ev file (rec_id rec) = Ok m
        /\ ingest_doc file page ev = Ok rec)
  /\ (forall (a : json) (file page : string),
      Shape.article a = true -> contains "news" file = true ->
      exists rec, ingest_doc file page a = Ok rec).
Proof.
  split.
  - intros ev file page H Hfile.
    destruct (transform_event_to_text_shape ev H)
      as (comp & cs & st & detail & matchup & venue & odds & date & lines & stats
          & Hcomp & Hshape & _ & _ & _ & _ & Et).
    destruct (extract_leaders_shape comp Hshape) as (ls & El & _).
    destruct (extract_team_stats_total comp Hshape) as (ts & Es).
    destruct (event_parts ev H) as (o & comp' & ty & w & Eev & _).
    assert (exists sid, stable_id_of page ev = Ok sid) as [sid Esid]
      by (rewrite Eev; unfold stable_id_of; cbn [Py.get bind]; eauto).
    destruct (extract_smart_metadata_shape ev file sid H Hfile)
      as (comp'' & cs' & m & c & _ & _ & Em & Ect & _).
    match type of Et with _ = Ok ?t => set (text := t) in * end.
    exists comp, ls, ts, text, m.
    exists {| rec_id := sid; chunk_text := text; meta_dict := stored_meta m |}.
    repeat split; try eassumption.
    unfold ingest_doc. rewrite Esid. cbn [bind]. rewrite Em. cbn [bind].
    rewrite Ect. cbn [String.eqb Ascii.eqb Bool.eqb]. rewrite Et. reflexivity.
  - intros a file page H Hfile.
    destruct a as [| | | | | |o] eqn:Ea; try discriminate. rewrite <- Ea in *.
    assert (exists sid, stable_id_of page a = Ok sid) as [sid Esid]
      by (rewrite Ea; unfold stable_id_of; cbn [Py.get bind]; eauto).
    destruct (extract_smart_metadata_article a file sid H Hfile) as (m & Em & Ect).
    unfold ingest_doc. rewrite Esid. cbn [bind]. rewrite Em. cbn [bind].
    rewrite Ect. cbn [String.eqb Ascii.eqb Bool.eqb]. rewrite Ea.
    cbn [Py.get bind]. eauto.
Qed.

(** An event with nothing in it, and an article with one category. *)
Lemma parsing_returns_on_feed_shape_witness :
  (exists rec, ingest_doc "nba-score.json" "{}" (JObj []) = Ok rec)
  /\ (exists rec, ingest_doc "nfl-news.json" (Json.dumps false article_example)
                    article_example = Ok rec).
Proof.
  destruct parsing_returns_on_feed_shape as [E A]. split.
  - destruct (E (JObj []) "nba-score.json" "{}" eq_refl eq_refl)
      as (_ & _ & _ & _ & _ & rec & _ & _ & _ & _ & _ & R).
    exists rec. exact R.
  - apply A; reflexivity.
Defined.

(** C4, as stated, fails: a competitor with no team makes the leader
    extraction and the whole record raise KeyError, an empty competitions
    list raises IndexError, and [process_scores] raises KeyError on an
    event with no competitions. *)
Lemma parsing_raises_on_missing_team :
  extract_leaders (JObj [("competitors", JArr [JObj [("score", JStr "110")]])])
  = Raise KeyError
  /\ ingest_doc "nba-score.json" (Json.dumps false teamless_event) teamless_event
     = Raise KeyError
  /\ transform_event_to_text (JObj [("competitions", JArr [])]) = Raise IndexError
  /\ process_scores_scores (JObj [("id", JStr "406"); ("name", JStr "TeamA at TeamB")])
     = Raise KeyError.
Proof. vm_compute. repeat split. Qed.

(** *** What a returned text and a returned metadata record are made of *)

Section Inversion.

Lemma bind_ok {A B : Type} (m : res A) (k : A -> res B) (b : B) :
  bind m k = Ok b -> exists a, m = Ok a /\ k a = Ok b.
Proof. destruct m as [a|e]; simpl; [eauto | discriminate]. Qed.

Lemma mapM_ok_inv {A B : Type} (f : A -> res B) (g : A -> B) (l : list A)
    (ys : list B) :
  (forall x y, f x = Ok y -> y = g x) ->
  mapM f l = Ok ys -> ys = map g l.
Proof.
  intros Hf. revert ys. induction l as [|x l IH]; simpl; intros ys E.
  - now inversion E.
  - apply bind_ok in E as (y & Ey & E). apply bind_ok in E as (ys' & Eys & E).
    inversion E; subst. now rewrite (Hf _ _ Ey), (IH _ Eys).
Qed.

Lemma score_entry_inv (c : json) (s : string) :
  score_entry c = Ok s ->
  s = competitor_name c ++ " (" ++ competitor_score c ++ ")".
Proof.
  unfold score_entry, competitor_name, competitor_score. intros E.
  apply bind_ok in E as (t & Et & E). apply bind_ok in E as (n & En & E).
  apply bind_ok in E as (sc & Esc & E). rewrite Et, En, Esc. now inversion E.
Qed.

Lemma competitor_entry_inv (c : json) (y : json * string) :
  competitor_entry c = Ok y ->
  snd y = competitor_name c ++ " " ++ competitor_score c.
Proof.
  unfold competitor_entry, competitor_name, competitor_score. intros E.
  apply bind_ok in E as (t & Et & E). apply bind_ok in E as (n & En & E).
  rewrite Et in E. cbn [bind] in E. rewrite En in E. cbn [bind] in E.
  apply bind_ok in E as (sc & Esc & E). rewrite Et, En, Esc. now inversion E.
Qed.

Tactic Notation "inv_bind" hyp(H) "as" ident(x) ident(E) :=
  apply bind_ok in H as (x & E & H).
Tactic Notation "inv_bind" hyp(H) :=
  let x := fresh "x" in
  let E := fresh "E" in
  apply bind_ok in H as (x & E & H).

(** Whatever the event, a text that is returned is one of the three cards,
    chosen by the state, with the score line in competitor order. *)
Lemma transform_event_to_text_inv (ev : json) (text : string) :
  transform_event_to_text ev = Ok text ->
  exists comp cs st detail matchup venue odds date lines stats,
    competition_of ev = Ok comp
    /\ competitors_of ev = Ok cs
    /\ state_of ev = Ok st
    /\ display_odds comp = Ok odds
    /\ text = (if is_str "pre" st
               then preview_card matchup venue date odds (join " | " lines)
               else if is_str "in" st
               then live_card detail
                      (join " vs " (map (fun c => competitor_name c ++ " ("
                                                  ++ competitor_score c ++ ")") cs))
                      (stats_block_of stats) (join " | " lines)
               else final_card
                      (join " vs " (map (fun c => competitor_name c ++ " ("
                                                  ++ competitor_score c ++ ")") cs))
                      (stats_block_of stats) (join " | " lines)).
Proof.
  unfold transform_event_to_text. intros H.
  inv_bind H as comps Ecomps.
  inv_bind H as comp Ecomp.
  inv_bind H as sts Ests.
  inv_bind H as sobj Esobj.
  inv_bind H as st Est.
  inv_bind H as detail Edetail.
  inv_bind H as matchup Ematchup.
  inv_bind H as cj Ecj.
  inv_bind H as cs Ecs.
  inv_bind H as entries Eentries.
  inv_bind H as leaders Eleaders.
  inv_bind H as lines Elines.
  inv_bind H as stats Estats.
  inv_bind H as v Ev.
  inv_bind H as venue Evenue.
  inv_bind H as odds Eodds.
  apply (mapM_ok_inv _ _ _ _ score_entry_inv) in Eentries. subst entries.
  exists comp, cs, st, detail, matchup, venue, odds.
  exists (match Py.get ev "date" JNull with Ok d => d | Raise _ => JNull end).
  exists lines, stats.
  assert (Hc : competition_of ev = Ok comp)
    by (unfold competition_of; rewrite Ecomps; exact Ecomp).
  repeat split.
  - exact Hc.
  - unfold competitors_of. rewrite Hc. cbn [bind]. rewrite Ecj. exact Ecs.
  - unfold state_of. rewrite Ests. cbn [bind]. rewrite Esobj. exact Est.
  - exact Eodds.
  - destruct (is_str "pre" st).
    + inv_bind H. rewrite E. now inversion H.
    + destruct (is_str "in" st); now inversion H.
Qed.

Lemma as_opt_str_inv (v : json) (o : option string) :
  as_opt_str v = Ok o -> v = opt_json o.
Proof. destruct v; simpl; intros E; inversion E; reflexivity. Qed.

(** Whatever the event of a score file, a metadata record that is returned
    has the scores of the competitors in source order, and a context whose
    odds are those of [stored_odds]. *)
Lemma extract_smart_metadata_inv (ev : json) (file sid : string) (m : SportsMetadata) :
  contains "news" file = false ->
  extract_smart_metadata ev file sid = Ok m ->
  exists comp cs c,
    competition_of ev = Ok comp
    /\ competitors_of ev = Ok cs
    /\ scores m = map (fun x => competitor_name x ++ " " ++ competitor_score x) cs
    /\ context m = Some c
    /\ stored_odds comp = Ok (opt_json (odds c)).
Proof.
  unfold extract_smart_metadata. intros Hfile H. rewrite Hfile in H. cbn [negb] in H.
  inv_bind H as comps Ecomps.
  inv_bind H as comp Ecomp.
  inv_bind H. inv_bind H.
  inv_bind H as cj Ecj.
  inv_bind H as cs Ecs.
  inv_bind H as entries Eentries.
  inv_bind H. inv_bind H. inv_bind H. inv_bind H.
  inv_bind H as od Eod.
  do 10 inv_bind H.
  match goal with E : as_opt_str od = Ok ?o |- _ =>
    apply as_opt_str_inv in E; subst od
  end.
  do 12 inv_bind H.
  cbv zeta in H. injection H as Hm. subst m. cbn [scores context odds].
  assert (Hc : competition_of ev = Ok comp)
    by (unfold competition_of; rewrite Ecomps; exact Ecomp).
  exists comp, cs. eexists. repeat split; try eassumption.
  - unfold competitors_of. rewrite Hc. cbn [bind]. rewrite Ecj. exact Ecs.
  - clear - Eentries. revert entries Eentries.
    induction cs as [|c cs IH]; simpl; intros entries E.
    + now inversion E.
    + apply bind_ok in E as (y & Ey & E). apply bind_ok in E as (ys & Eys & E).
      inversion E; subst. simpl.
      now rewrite (competitor_entry_inv _ _ Ey), (IH _ Eys).
Qed.

End Inversion.

(** ** The claims on the synthesized text and the stored metadata *)

(** C6 (amended): the state chooses the card.  A summary is returned for
    every event of the feed's shape; whenever one is returned, for state
    pre it is the preview card and starts with PREVIEW, for state in it is
    the live card, and for every other state, post among them, it is the
    final card and starts with FINAL SCORE.  The words of another card can
    still occur inside the values of the feed that the card quotes. *)
Theorem text_synthesis_branches (ev st : json) :
  state_of ev = Ok st ->
  (Shape.event ev = true -> exists text, transform_event_to_text ev = Ok text)
  /\ forall text,
       transform_event_to_text ev = Ok text ->
       (st = JStr "pre" ->
        startswith "PREVIEW: " text = true
        /\ exists matchup venue date odds leaders,
             text = preview_card matchup venue date odds leaders)
       /\ (st = JStr "in" ->
           startswith "LIVE GAME (" text = true
           /\ exists detail score_line stats leaders,
                text = live_card detail score_line stats leaders)
       /\ (st <> JStr "pre" -> st <> JStr "in" ->
           startswith "FINAL SCORE: " text = true
           /\ exists score_line stats leaders,
                text = final_card score_line stats leaders).
Proof.
  intros Hst. split.
  - intros H. destruct (transform_event_to_text_shape ev H)
      as (? & ? & ? & ? & ? & ? & ? & ? & ? & ? & _ & _ & _ & _ & _ & _ & Et).
    eauto.
  - intros text Et.
    destruct (transform_event_to_text_inv ev text Et)
      as (comp & cs & st' & detail & matchup & venue & odds & date & lines & stats
          & _ & _ & Hst' & _ & ->).
    rewrite Hst in Hst'. inversion Hst'; subst st'.
    assert (Hother : st <> JStr "pre" -> st <> JStr "in" ->
                     is_str "pre" st = false /\ is_str "in" st = false).
    { intros H1 H2. destruct st; simpl; auto. split.
      - destruct (String.eqb_spec s "pre"); [subst; contradiction | reflexivity].
      - destruct (String.eqb_spec s "in"); [subst; contradiction | reflexivity]. }
    repeat split.
    + subst st. apply startswith_app.
    + subst st. simpl. eauto 10.
    + subst st. apply startswith_app.
    + subst st. simpl. eauto 10.
    + destruct (Hother H H0) as [-> ->]. apply startswith_app.
    + destruct (Hother H H0) as [-> ->]. eauto 10.
Qed.

(** The two cards of the claim, on a scheduled and on a finished game. *)
Lemma text_synthesis_branches_witness :
  (exists text, transform_event_to_text scheduled_event = Ok text
                /\ startswith "PREVIEW: " text = true)
  /\ (exists text, transform_event_to_text scenario_event = Ok text
                   /\ startswith "FINAL SCORE: " text = true).
Proof.
  split.
  - destruct (text_synthesis_branches scheduled_event (JStr "pre") eq_refl) as [T P].
    destruct (T eq_refl) as [text E]. exists text. split; [exact E|].
    now apply (P text E).
  - destruct (text_synthesis_branches scenario_event (JStr "post") eq_refl) as [T P].
    destruct (T eq_refl) as [text E]. exists text. split; [exact E|].
    apply (P text E); discriminate.
Defined.

(** C6, as stated, fails: the preview of a game named after the live card
    holds LIVE GAME, and the final card of a team named PREVIEW United
    holds PREVIEW. *)
Lemma text_synthesis_quotes_feed_values :
  state_of watch_party_event = Ok (JStr "pre")
  /\ transform_event_to_text watch_party_event
     = Ok "PREVIEW: LIVE GAME Watch Party at TBD. TIME: None. ODDS: N/A. PROJECTED LEADERS: ."
  /\ contains "LIVE GAME"
       "PREVIEW: LIVE GAME Watch Party at TBD. TIME: None. ODDS: N/A. PROJECTED LEADERS: ."
     = true
  /\ state_of preview_team_event = Ok (JStr "post")
  /\ transform_event_to_text preview_team_event
     = Ok "FINAL SCORE: PREVIEW United (3) vs TeamB (1). TOP PERFORMERS: ."
  /\ contains "PREVIEW" "FINAL SCORE: PREVIEW United (3) vs TeamB (1). TOP PERFORMERS: ."
     = true.
Proof. repeat split. Qed.

(** C3 (amended): for an event of a score file whose competition has no
    odds key, the preview text shows the odds as N/A, and the stored
    context carries the same text N/A under its odds key: the context is
    stored as the JSON text of all five fields of the GameContext.  Text
    and metadata are returned for every such event of the feed's shape. *)
Theorem missing_odds_shown_and_stored_as_na
    (ev : json) (co : obj) (file sid : string) :
  contains "news" file = false ->
  competition_of ev = Ok (JObj co) -> lookup "odds" co = None ->
  (Shape.event ev = true ->
   exists text m, transform_event_to_text ev = Ok text
                  /\ extract_smart_metadata ev file sid = Ok m)
  /\ (forall text,
        state_of ev = Ok (JStr "pre") ->
        transform_event_to_text ev = Ok text ->
        contains "ODDS: N/A. " text = true)
  /\ (forall m,
        extract_smart_metadata ev file sid = Ok m ->
        exists c,
          context m = Some c
          /\ odds c = Some "N/A"
          /\ lookup "context" (stored_meta m)
             = Some (JStr (Json.dumps false (dump_context c)))
          /\ Py.item (dump_context c) "odds" = Ok (JStr "N/A")).
Proof.
  intros Hfile Hcomp Hodds. split; [|split].
  - intros H.
    destruct (transform_event_to_text_shape ev H)
      as (? & ? & ? & ? & ? & ? & ? & ? & ? & ? & _ & _ & _ & _ & _ & _ & Et).
    destruct (extract_smart_metadata_shape ev file sid H Hfile)
      as (? & ? & m & ? & _ & _ & Em & _).
    eauto.
  - intros text Hst Et.
    destruct (transform_event_to_text_inv ev text Et)
      as (comp & cs & st & detail & matchup & venue & od & date & lines & stats
          & Hcomp' & _ & Hst' & Hod & ->).
    rewrite Hcomp in Hcomp'. inversion Hcomp'; subst comp.
    rewrite Hst in Hst'. inversion Hst'; subst st.
    assert (od = JStr "N/A") as ->.
    { unfold display_odds in Hod. cbn [Py.get bind] in Hod. rewrite Hodds in Hod.
      simpl in Hod. now inversion Hod. }
    change (is_str "pre" (JStr "pre")) with true. cbv iota.
    unfold preview_card. do 7 apply contains_app_r.
    apply contains_prefix.
    exact (startswith_app "ODDS: N/A. "
             ("PROJECTED LEADERS: " ++ join " | " lines ++ ".")).
  - intros m Em.
    destruct (extract_smart_metadata_inv ev file sid m Hfile Em)
      as (comp & cs & c & Hcomp' & _ & _ & Ec & Eo).
    rewrite Hcomp in Hcomp'. inversion Hcomp'; subst comp.
    assert (Ho : odds c = Some "N/A").
    { unfold stored_odds in Eo. cbn [Py.get bind] in Eo. rewrite Hodds in Eo.
      simpl in Eo. destruct (odds c); simpl in Eo; inversion Eo; reflexivity. }
    exists c. repeat split; try assumption.
    + unfold stored_meta. rewrite Ec.
      destruct (headline m), (event_date m), (status m); reflexivity.
    + unfold dump_context. simpl. now rewrite Ho.
Qed.

(** A scheduled game with no odds. *)
Lemma missing_odds_shown_and_stored_as_na_witness :
  exists text m c,
    transform_event_to_text scheduled_event = Ok text
    /\ contains "ODDS: N/A. " text = true
    /\ extract_smart_metadata scheduled_event "nba-score.json" "doc-402" = Ok m
    /\ context m = Some c
    /\ odds c = Some "N/A".
Proof.
  destruct (missing_odds_shown_and_stored_as_na scheduled_event _
              "nba-score.json" "doc-402" eq_refl eq_refl eq_refl) as (T & P & M).
  destruct (T eq_refl) as (text & m & Et & Em).
  destruct (M m Em) as (c & Ec & Ho & _).
  exists text, m, c. repeat split; try assumption.
  now apply P.
Defined.

(** C3, as stated, fails: the record stored for a scheduled game with no
    odds has a context, and the JSON text of that context holds the odds
    key with the text N/A. *)
Lemma missing_odds_are_stored :
  exists rec s,
    ingest_doc "nba-score.json" (Json.dumps false scheduled_event) scheduled_event
    = Ok rec
    /\ contains "ODDS: N/A. " (chunk_text rec) = true
    /\ lookup "context" (meta_dict rec) = Some (JStr s)
    /\ contains (Json.quote "odds" ++ ": " ++ Json.quote "N/A") s = true.
Proof. do 2 eexists. vm_compute. repeat split. Qed.

(** C8: an event with status post and the two competitors TeamA, score
    110, and TeamB, score 98, in that order: whenever its text is returned
    it starts with the final score line of the two, whenever its metadata
    is returned the scores are TeamA 110 and TeamB 98 in that order, and
    both are returned when the event has the feed's shape. *)
Theorem final_score_scenario (ev cA cB : json) (file sid : string) :
  contains "news" file = false ->
  state_of ev = Ok (JStr "post") ->
  competitors_of ev = Ok [cA; cB] ->
  competitor_name cA = "TeamA" -> competitor_score cA = "110" ->
  competitor_name cB = "TeamB" -> competitor_score cB = "98" ->
  (Shape.event ev = true ->
   exists text m, transform_event_to_text ev = Ok text
                  /\ extract_smart_metadata ev file sid = Ok m)
  /\ (forall text,
        transform_event_to_text ev = Ok text ->
        startswith "FINAL SCORE: TeamA (110) vs TeamB (98)." text = true)
  /\ (forall m,
        extract_smart_metadata ev file sid = Ok m ->
        scores m = ["TeamA 110"; "TeamB 98"]).
Proof.
  intros Hfile Hst Hcs HA HA' HB HB'. split; [|split].
  - intros H.
    destruct (transform_event_to_text_shape ev H)
      as (? & ? & ? & ? & ? & ? & ? & ? & ? & ? & _ & _ & _ & _ & _ & _ & Et).
    destruct (extract_smart_metadata_shape ev file sid H Hfile)
      as (? & ? & m & ? & _ & _ & Em & _).
    eauto.
  - intros text Et.
    destruct (transform_event_to_text_inv ev text Et)
      as (comp & cs & st & detail & matchup & venue & od & date & lines & stats
          & _ & Hcs' & Hst' & _ & ->).
    rewrite Hcs in Hcs'. inversion Hcs'; subst cs.
    rewrite Hst in Hst'. inversion Hst'; subst st.
    simpl. rewrite HA, HA', HB, HB'. reflexivity.
  - intros m Em.
    destruct (extract_smart_metadata_inv ev file sid m Hfile Em)
      as (comp & cs & c & _ & Hcs' & Es & _).
    rewrite Hcs in Hcs'. inversion Hcs'; subst cs.
    rewrite Es. simpl. now rewrite HA, HA', HB, HB'.
Qed.

(** The scenario of the specification, run. *)
Lemma final_score_scenario_witness :
  exists text m,
    transform_event_to_text scenario_event = Ok text
    /\ startswith "FINAL SCORE: TeamA (110) vs TeamB (98)." text = true
    /\ extract_smart_metadata scenario_event "nba-score.json" "doc-401" = Ok m
    /\ scores m = ["TeamA 110"; "TeamB 98"].
Proof.
  destruct (final_score_scenario scenario_event _ _ "nba-score.json" "doc-401"
              eq_refl eq_refl eq_refl eq_refl eq_refl eq_refl eq_refl)
    as (T & P & M).
  destruct (T eq_refl) as (text & m & Et & Em).
  exists text, m. repeat split; auto.
Defined.

(** The card and the record of the scenario, in full. *)
Example scenario_event_ingested :
  transform_event_to_text scenario_event
  = Ok "FINAL SCORE: TeamA (110) vs TeamB (98). TOP PERFORMERS: Assists: Bob (22 AST)."
  /\ (exists rec, ingest_doc "nba-score.json" (Json.dumps false scenario_event)
                    scenario_event = Ok rec
                  /\ rec_id rec = "doc-401"
                  /\ lookup "scores" (meta_dict rec)
                     = Some (JArr [JStr "TeamA 110"; JStr "TeamB 98"])).
Proof. split; [reflexivity|]. eexists. vm_compute. repeat split. Qed.

(** * Further properties *)

(** ** More on the deduplication *)

Section DedupOrder.

Lemma by_id_facts (l : list store_record) :
  NoDup (map fst (by_id l)) /\ filed (by_id l)
  /\ forall i, lookup i (by_id l) = last_with_id i l.
Proof.
  unfold by_id. change (fun d r => dict_set (rec_id r) r d) with step.
  destruct (fold_step_inv l [] (NoDup_nil _) (Forall_nil _)) as [Hn Hf].
  repeat split; try assumption.
  intros i. rewrite fold_step_lookup. now destruct (last_with_id i l).
Qed.

Lemma unique_records_ids (l : list store_record) :
  map rec_id (unique_records l) = map fst (by_id l).
Proof.
  unfold unique_records. destruct (by_id_facts l) as (_ & Hf & _).
  induction Hf as [|kv d E _ IH]; simpl; [reflexivity | now rewrite E, IH].
Qed.

Lemma unique_records_in (l : list store_record) (r : store_record) :
  In r (unique_records l) -> In r l.
Proof.
  unfold unique_records. rewrite in_map_iff. intros ([k r'] & E & Hin).
  simpl in E. subst r'. destruct (by_id_facts l) as (Hn & Hf & Hl).
  apply (in_lookup _ _ _ Hn) in Hin. rewrite Hl in Hin.
  now apply last_with_id_some in Hin.
Qed.

Lemma dict_set_fresh {V : Type} (k : string) (v : V) (d : list (string * V)) :
  ~ In k (map fst d) -> dict_set k v d = (d ++ [(k, v)])%list.
Proof.
  induction d as [|[k0 v0] d IH]; simpl; intros H; [reflexivity|].
  destruct (String.eqb_spec k0 k) as [->|_]; [exfalso; auto|].
  rewrite IH; auto.
Qed.

Lemma fold_step_fresh (l : list store_record) (d : list (string * store_record)) :
  NoDup (map fst d ++ map rec_id l) ->
  fold_left step l d = (d ++ map (fun r => (rec_id r, r)) l)%list.
Proof.
  revert d. induction l as [|r l IH]; simpl; intros d H.
  - now rewrite app_nil_r.
  - unfold step at 2. rewrite dict_set_fresh.
    + rewrite IH.
      * now rewrite <- app_assoc.
      * rewrite map_app. simpl. rewrite <- app_assoc. exact H.
    + intros Hin. apply NoDup_remove_2 in H. apply H.
      apply in_or_app. now left.
Qed.

Lemma filter_twice {A : Type} (f g : A -> bool) (l : list A) :
  filter f (filter g l) = filter (fun x => g x && f x) l.
Proof.
  induction l as [|x l IH]; simpl; [reflexivity|].
  destruct (g x); simpl; [destruct (f x)|]; now rewrite IH.
Qed.

(** The keys a dict gets when the ids of [ids] are written into it in
    order. *)
Lemma fold_step_keys (l : list store_record) (d : list (string * store_record)) :
  map fst (fold_left step l d)
  = (map fst d
     ++ filter (fun i => negb (existsb (String.eqb i) (map fst d)))
          (keep_first (map rec_id l)))%list.
Proof.
  revert d. induction l as [|r l IH]; simpl; intros d.
  - now rewrite app_nil_r.
  - rewrite IH. unfold step at 1 2. rewrite keys_dict_set.
    destruct (existsb (String.eqb (rec_id r)) (map fst d)) eqn:E; simpl.
    + f_equal. rewrite filter_twice. apply filter_ext_in. intros a _.
      destruct (String.eqb_spec a (rec_id r)) as [->|_]; simpl.
      * now rewrite E.
      * reflexivity.
    + rewrite <- app_assoc. simpl. f_equal. f_equal.
      rewrite filter_twice. apply filter_ext. intros a.
      rewrite existsb_app. simpl. rewrite orb_false_r, negb_orb.
      apply andb_comm.
Qed.

End DedupOrder.

(** X1: the records of the deduplicated batch stand in the order in which
    their identifiers first occur in the batch. *)
Theorem unique_records_first_occurrence_order (all_records : list store_record) :
  map rec_id (unique_records all_records) = keep_first (map rec_id all_records).
Proof.
  rewrite unique_records_ids. unfold by_id.
  change (fun d r => dict_set (rec_id r) r d) with step.
  rewrite fold_step_keys. simpl.
  induction (keep_first (map rec_id all_records)) as [|x l IH];
    simpl; [reflexivity | now rewrite IH].
Qed.

(** X2: a batch whose identifiers are pairwise distinct is handed on as it
    is, every record in its place. *)
Theorem unique_records_of_distinct_ids (all_records : list store_record) :
  NoDup (map rec_id all_records) -> unique_records all_records = all_records.
Proof.
  intros H. unfold unique_records, by_id.
  change (fun d r => dict_set (rec_id r) r d) with step.
  rewrite fold_step_fresh by exact H. simpl. rewrite map_map. simpl.
  apply map_id.
Qed.

(** X3: deduplicating a second time changes nothing. *)
Theorem unique_records_idempotent (all_records : list store_record) :
  unique_records (unique_records all_records) = unique_records all_records.
Proof.
  set (u := unique_records all_records).
  assert (H : NoDup (map rec_id u)).
  { subst u. rewrite unique_records_ids. apply by_id_facts. }
  unfold unique_records at 1, by_id.
  change (fun d r => dict_set (rec_id r) r d) with step.
  rewrite fold_step_fresh by exact H. simpl. rewrite map_map. simpl.
  apply map_id.
Qed.

(** Two records with two identifiers. *)
Lemma unique_records_of_distinct_ids_witness :
  let a := {| rec_id := "doc-401"; chunk_text := "a"; meta_dict := [] |} in
  let b := {| rec_id := "doc-402"; chunk_text := "b"; meta_dict := [] |} in
  unique_records [a; b] = [a; b].
Proof.
  intros a b. apply unique_records_of_distinct_ids.
  repeat constructor; simpl; intuition discriminate.
Defined.

(** ** The ingestion run *)

Section IngestionRun.

Lemma mapM_app_raise {A B : Type} (f : A -> res B) (l1 l2 : list A) (x : A)
    (ys : list B) (e : exn) :
  mapM f l1 = Ok ys -> f x = Raise e -> mapM f (l1 ++ x :: l2) = Raise e.
Proof.
  revert ys. induction l1 as [|a l1 IH]; simpl; intros ys E Hx.
  - now rewrite Hx.
  - destruct (f a) as [y|e']; simpl in *; [|discriminate].
    destruct (mapM f l1) as [ys'|e']; simpl in *; [|discriminate].
    now rewrite (IH ys' eq_refl Hx).
Qed.

Lemma mapM_in {A B : Type} (f : A -> res B) (l : list A) (ys : list B) (y : B) :
  mapM f l = Ok ys -> In y ys -> exists x, In x l /\ f x = Ok y.
Proof.
  revert ys. induction l as [|a l IH]; simpl; intros ys E Hy.
  - inversion E; subst. destruct Hy.
  - destruct (f a) as [y0|e] eqn:Fa; simpl in E; [|discriminate].
    destruct (mapM f l) as [ys'|e]; simpl in E; [|discriminate].
    inversion E; subst. destruct Hy as [<-|Hy]; [eauto|].
    destruct (IH ys' eq_refl Hy) as (x & Hx & Fx). eauto.
Qed.

Lemma stable_id_prefix (p : string) (r : json) (i : string) :
  stable_id_of p r = Ok i -> startswith "doc-" i = true.
Proof.
  unfold stable_id_of. destruct (Py.get r "id" JNull) as [v|e]; cbn [bind]; [|discriminate].
  intros E. inversion E.
  exact (startswith_app "doc-"
           (Py.str (if negb (Py.truthy v) then JStr (md5_hex p) else v))).
Qed.

End IngestionRun.

(** X4: one document that raises aborts the run: when the documents before
    it are ingested and it raises, [run_ingestion] raises the same exception
    and hands nothing to the store, whatever follows. *)
Theorem run_ingestion_aborts_on_first_failure
    (before after : list document) (d : document)
    (records : list store_record) (e : exn) :
  mapM (fun d => ingest_doc (doc_file d) (page_content d) (raw_json d)) before
  = Ok records ->
  ingest_doc (doc_file d) (page_content d) (raw_json d) = Raise e ->
  run_ingestion (before ++ d :: after) = Raise e.
Proof.
  intros Hb Hd. unfold run_ingestion.
  now rewrite (mapM_app_raise _ before after d records e Hb Hd).
Qed.

(** A good document, then one whose competitor has no team, then another
    good one. *)
Lemma run_ingestion_aborts_on_first_failure_witness :
  run_ingestion [document_of "nba-score.json" scenario_event;
                 document_of "nba-score.json" teamless_event;
                 document_of "nba-score.json" scheduled_event]
  = Raise KeyError.
Proof.
  eapply (run_ingestion_aborts_on_first_failure
            [document_of "nba-score.json" scenario_event]
            [document_of "nba-score.json" scheduled_event]
            (document_of "nba-score.json" teamless_event));
    vm_compute; reflexivity.
Defined.

(** X5: what a run hands to the store is never empty and never longer than
    the list of documents; its identifiers are pairwise distinct and each
    starts with doc-; and every record of it is the record of one of the
    documents. *)
Theorem run_ingestion_batch_invariants
    (docs : list document) (batch : list store_record) :
  run_ingestion docs = Ok (Some batch) ->
  batch <> []
  /\ List.length batch <= List.length docs
  /\ NoDup (map rec_id batch)
  /\ Forall (fun r => startswith "doc-" (rec_id r) = true) batch
  /\ Forall (fun r => exists d, In d docs
                      /\ ingest_doc (doc_file d) (page_content d) (raw_json d) = Ok r)
       batch.
Proof.
  unfold run_ingestion.
  destruct (mapM _ docs) as [all|e] eqn:E; simpl; [|discriminate].
  destruct all as [|r0 rs] eqn:Eall; intros H; inversion H; subst batch; clear H.
  rewrite <- Eall in *.
  assert (Hin : forall r, In r (unique_records all) ->
                exists d, In d docs
                  /\ ingest_doc (doc_file d) (page_content d) (raw_json d) = Ok r).
  { intros r Hr. apply unique_records_in in Hr.
    exact (mapM_in _ _ _ _ E Hr). }
  assert (Hids : map rec_id (unique_records all) = keep_first (map rec_id all)).
  { rewrite unique_records_ids. unfold by_id.
    change (fun d r => dict_set (rec_id r) r d) with step.
    rewrite fold_step_keys. simpl.
    induction (keep_first (map rec_id all)) as [|x l IH];
      simpl; [reflexivity | now rewrite IH]. }
  repeat split.
  - intros Hnil. apply (f_equal (map rec_id)) in Hnil. rewrite Hids, Eall in Hnil.
    discriminate Hnil.
  - rewrite <- (mapM_length _ _ _ E).
    rewrite <- (length_map rec_id (unique_records all)), unique_records_ids.
    rewrite <- (length_map rec_id all).
    destruct (by_id_facts all) as (Hn & _ & Hl).
    apply NoDup_incl_length; [exact Hn|].
    intros k Hk. apply in_map_iff in Hk as ([k' r] & <- & Hkr). simpl.
    apply (in_lookup _ _ _ Hn) in Hkr. rewrite Hl in Hkr.
    apply last_with_id_some in Hkr as [Hr <-]. now apply in_map.
  - rewrite unique_records_ids. apply by_id_facts.
  - apply Forall_forall. intros r Hr. destruct (Hin r Hr) as (d & _ & Hd).
    apply ingest_doc_rec_id in Hd. exact (stable_id_prefix _ _ _ Hd).
  - apply Forall_forall. exact Hin.
Qed.

(** The scheduled and the final form of one game, and another game. *)
Lemma run_ingestion_batch_invariants_witness :
  exists batch,
    run_ingestion [document_of "nba-score.json" scenario_scheduled;
                   document_of "nba-score.json" scheduled_event;
                   document_of "nba-score.json" scenario_event]
    = Ok (Some batch)
    /\ map rec_id batch = ["doc-401"; "doc-402"]
    /\ NoDup (map rec_id batch).
Proof.
  eexists. split; [vm_compute; reflexivity|]. split; [reflexivity|].
  eapply (run_ingestion_batch_invariants
            [document_of "nba-score.json" scenario_scheduled;
             document_of "nba-score.json" scheduled_event;
             document_of "nba-score.json" scenario_event]).
  vm_compute. reflexivity.
Defined.

(** X6: re-ingesting a game in one batch overwrites it: two documents that
    carry the same truthy id and are both ingested leave exactly one record,
    that of the later document. *)
Theorem reingestion_keeps_later_record
    (d1 d2 : document) (o1 o2 : obj) (v : json) (r1 r2 : store_record) :
  raw_json d1 = JObj o1 -> raw_json d2 = JObj o2 ->
  lookup "id" o1 = Some v -> lookup "id" o2 = Some v -> Py.truthy v = true ->
  ingest_doc (doc_file d1) (page_content d1) (raw_json d1) = Ok r1 ->
  ingest_doc (doc_file d2) (page_content d2) (raw_json d2) = Ok r2 ->
  run_ingestion [d1; d2] = Ok (Some [r2]).
Proof.
  intros E1 E2 L1 L2 T H1 H2.
  assert (I : forall d o r, raw_json d = JObj o -> lookup "id" o = Some v ->
              ingest_doc (doc_file d) (page_content d) (raw_json d) = Ok r ->
              rec_id r = "doc-" ++ Py.str v).
  { intros d o r E L H. apply ingest_doc_rec_id in H. rewrite E in H.
    unfold stable_id_of in H. simpl in H. rewrite L in H. simpl in H.
    rewrite T in H. simpl in H. now inversion H. }
  unfold run_ingestion. simpl. rewrite H1, H2. simpl.
  unfold unique_records, by_id. simpl.
  rewrite (I d1 o1 r1 E1 L1 H1), (I d2 o2 r2 E2 L2 H2).
  now rewrite String.eqb_refl.
Qed.

Lemma reingestion_keeps_later_record_witness :
  exists r2,
    ingest_doc "nba-score.json" (Json.dumps false scenario_event) scenario_event = Ok r2
    /\ run_ingestion [document_of "nba-score.json" scenario_scheduled;
                      document_of "nba-score.json" scenario_event]
       = Ok (Some [r2]).
Proof.
  eexists. split; [vm_compute; reflexivity|].
  eapply (reingestion_keeps_later_record
            (document_of "nba-score.json" scenario_scheduled)
            (document_of "nba-score.json" scenario_event)
            _ _ (JStr "401"));
    try reflexivity; vm_compute; reflexivity.
Defined.

(** ** Invariants of the metadata and of the stored record *)

Section MetadataInvariants.

Tactic Notation "inv_bind" hyp(H) "as" ident(x) ident(E) :=
  apply bind_ok in H as (x & E & H).
Tactic Notation "inv_bind" hyp(H) :=
  let x := fresh "x" in
  let E := fresh "E" in
  apply bind_ok in H as (x & E & H).

Lemma py_set_inv (xs ys : list json) : py_set xs = Ok ys -> ys = xs.
Proof. unfold py_set. destruct (forallb _ xs); intros E; now inversion E. Qed.

Lemma mapM_as_str_inv (xs : list json) (ss : list string) :
  mapM as_str xs = Ok ss -> xs = map JStr ss.
Proof.
  revert ss. induction xs as [|x xs IH]; simpl; intros ss E.
  - now inversion E.
  - apply bind_ok in E as (s & Es & E). apply bind_ok in E as (ss' & Ess & E).
    inversion E; subst. destruct x; try discriminate. inversion Es; subst.
    simpl. now rewrite (IH _ Ess) at 1.
Qed.

Lemma as_str_list_inv (xs : list json) (ss : list string) :
  as_str_list xs = Ok ss ->
  exists names, xs = map JStr names /\ ss = nodup string_dec names.
Proof.
  unfold as_str_list. intros E. apply bind_ok in E as (names & En & E).
  exists names. split; [now apply mapM_as_str_inv | now inversion E].
Qed.

Lemma map_JStr_inj (a b : list string) : map JStr a = map JStr b -> a = b.
Proof.
  revert b. induction a as [|x a IH]; intros [|y b] E; try discriminate; auto.
  inversion E. f_equal. now apply IH.
Qed.

Lemma performer_entry_inv (l : leader) (y : json * PerformanceStat) :
  performer_entry l = Ok y -> fst y = JStr (athlete_name (snd y)).
Proof.
  unfold performer_entry. intros H.
  inv_bind H as name En. inv_bind H as val Ev. inv_bind H as c Ec.
  inv_bind H as a Ea. inv_bind H as t Et. inversion H; subst. simpl.
  destruct name; try discriminate. now inversion Ea.
Qed.

Lemma competitor_entry_name (c : json) (y : json * string) :
  competitor_entry c = Ok y -> Py.str (fst y) = competitor_name c.
Proof.
  unfold competitor_entry, competitor_name. intros E.
  apply bind_ok in E as (t & Et & E). apply bind_ok in E as (n & En & E).
  rewrite Et in E. cbn [bind] in E. rewrite En in E. cbn [bind] in E.
  apply bind_ok in E as (sc & Esc & E). rewrite Et, En. now inversion E.
Qed.

Lemma mapM_pointwise {A B C : Type} (f : A -> res B) (g : B -> C) (h : A -> C)
    (l : list A) (ys : list B) :
  (forall x y, f x = Ok y -> g y = h x) ->
  mapM f l = Ok ys -> map g ys = map h l.
Proof.
  intros Hf. revert ys. induction l as [|x l IH]; simpl; intros ys E.
  - now inversion E.
  - apply bind_ok in E as (y & Ey & E). apply bind_ok in E as (ys' & Eys & E).
    inversion E; subst. simpl. now rewrite (Hf _ _ Ey), (IH _ Eys).
Qed.

Lemma entries_names (cs : list json) (entries : list (json * string))
    (tn : list string) :
  mapM competitor_entry cs = Ok entries -> map fst entries = map JStr tn ->
  tn = map competitor_name cs.
Proof.
  revert entries tn. induction cs as [|c cs IH]; simpl; intros entries tn E Hn.
  - inversion E; subst. now destruct tn.
  - apply bind_ok in E as (y & Ey & E). apply bind_ok in E as (ys & Eys & E).
    inversion E; subst. destruct tn as [|n tn]; [discriminate|].
    simpl in Hn. inversion Hn as [[H1 H2]].
    rewrite <- (competitor_entry_name _ _ Ey), H1. simpl.
    f_equal. exact (IH _ _ Eys H2).
Qed.

Lemma perf_names (leaders : list leader) (perf : list (json * PerformanceStat))
    (an : list string) :
  mapM performer_entry leaders = Ok perf -> map fst perf = map JStr an ->
  an = map athlete_name (map snd perf).
Proof.
  revert perf an. induction leaders as [|l ls IH]; simpl; intros perf an E Hn.
  - inversion E; subst. now destruct an.
  - apply bind_ok in E as (y & Ey & E). apply bind_ok in E as (ys & Eys & E).
    inversion E; subst. destruct an as [|n an]; [discriminate|].
    simpl in Hn. inversion Hn as [[H1 H2]].
    rewrite (performer_entry_inv _ _ Ey) in H1. inversion H1; subst n.
    simpl. f_equal. exact (IH _ _ Eys H2).
Qed.

(** The fields of the metadata of a news file. *)
Lemma news_metadata_inv (raw : json) (file sid : string) (m : SportsMetadata) :
  contains "news" file = true ->
  extract_smart_metadata raw file sid = Ok m ->
  content_type m = "news" /\ status m = Some "news" /\ scores m = []
  /\ performers m = [] /\ context m = None /\ team_stats m = None
  /\ source_file m = file /\ content_hash m = compute_content_hash raw
  /\ sport m = (if contains "nba" file then "nba" else "nfl")
  /\ NoDup (teams m) /\ NoDup (athletes m).
Proof.
  unfold extract_smart_metadata. intros Hfile H. rewrite Hfile in H. cbn [negb] in H.
  do 5 inv_bind H. cbv zeta in H.
  inv_bind H as st Est. inv_bind H as sa Esa.
  inv_bind H as mt Emt. inv_bind H as ma Ema.
  do 2 inv_bind H. injection H as Hm. subst m. cbn.
  apply as_str_list_inv in Emt as (tn & _ & ->).
  apply as_str_list_inv in Ema as (an & _ & ->).
  repeat split; apply NoDup_nodup.
Qed.

(** The fields of the metadata of a score file. *)
Lemma score_metadata_inv (raw : json) (file sid : string) (m : SportsMetadata) :
  contains "news" file = false ->
  extract_smart_metadata raw file sid = Ok m ->
  exists cs c ts st,
    competitors_of raw = Ok cs
    /\ content_type m = "score"
    /\ context m = Some c /\ team_stats m = Some ts
    /\ source_file m = file /\ content_hash m = compute_content_hash raw
    /\ sport m = (if contains "nba" file then "nba" else "nfl")
    /\ teams m = nodup string_dec (map competitor_name cs)
    /\ athletes m = nodup string_dec (map athlete_name (performers m))
    /\ List.length (scores m) = List.length cs
    /\ (st' <- Py.get raw "status" (JObj []) ;;
        so <- Py.get st' "type" (JObj []) ;; Py.get so "state" JNull) = Ok st
    /\ st = opt_json (status m).
Proof.
  unfold extract_smart_metadata. intros Hfile H. rewrite Hfile in H. cbn [negb] in H.
  inv_bind H as comps Ecomps. inv_bind H as comp Ecomp.
  inv_bind H as sts Ests. inv_bind H as sobj Esobj.
  inv_bind H as cj Ecj. inv_bind H as cs Ecs.
  inv_bind H as entries Eentries.
  inv_bind H as leaders Eleaders. inv_bind H as perf Eperf.
  do 14 inv_bind H.
  inv_bind H as ts Ets. do 2 inv_bind H. inv_bind H as st Est.
  inv_bind H as sett Esett. inv_bind H as seta Eseta.
  inv_bind H as mt Emt. inv_bind H as ma Ema.
  do 2 inv_bind H. inv_bind H as ms Ems.
  cbv zeta in H. injection H as Hm. subst m. cbn.
  apply py_set_inv in Esett, Eseta. subst sett seta.
  apply as_str_list_inv in Emt as (tn & Etn & ->).
  apply as_str_list_inv in Ema as (an & Ean & ->).
  apply as_opt_str_inv in Ems.
  exists cs. do 2 eexists. exists st. repeat split; try reflexivity.
  - unfold competitors_of, competition_of. rewrite Ecomps. cbn [bind].
    rewrite Ecomp. cbn [bind]. rewrite Ecj. exact Ecs.
  - f_equal. exact (entries_names _ _ _ Eentries Etn).
  - f_equal. exact (perf_names _ _ _ Eperf Ean).
  - rewrite length_map. exact (mapM_length _ _ _ Eentries).
  - rewrite Ests. cbn [bind]. rewrite Esobj. exact Est.
  - exact Ems.
Qed.

End MetadataInvariants.

Section RecordInvariants.

Lemma ingest_doc_inv (f p : string) (r : json) (rec : store_record) :
  ingest_doc f p r = Ok rec ->
  exists m,
    stable_id_of p r = Ok (rec_id rec)
    /\ extract_smart_metadata r f (rec_id rec) = Ok m
    /\ meta_dict rec = stored_meta m
    /\ (content_type m = "news" ->
        exists d, chunk_text rec = "NEWS: " ++ opt_str (headline m) ++ ". " ++ d)
    /\ (content_type m = "score" -> transform_event_to_text r = Ok (chunk_text rec)).
Proof.
  unfold ingest_doc. intros H.
  apply bind_ok in H as (sid & Esid & H). apply bind_ok in H as (m & Em & H).
  apply bind_ok in H as (text & Et & H). inversion H; subst rec; clear H. simpl.
  exists m. repeat split; try assumption.
  - intros Ec. rewrite Ec in Et. simpl in Et.
    apply bind_ok in Et as (d & _ & Et). inversion Et. eauto.
  - intros Ec. rewrite Ec in Et. exact Et.
Qed.

Lemma stored_meta_fixed (m : SportsMetadata) :
  lookup "content_type" (stored_meta m) = Some (JStr (content_type m))
  /\ lookup "sport" (stored_meta m) = Some (JStr (sport m))
  /\ lookup "source_file" (stored_meta m) = Some (JStr (source_file m))
  /\ lookup "content_hash" (stored_meta m) = Some (JStr (content_hash m)).
Proof. repeat split. Qed.

Lemma stored_meta_optional (m : SportsMetadata) :
  lookup "headline" (stored_meta m) = option_map JStr (headline m)
  /\ lookup "event_date" (stored_meta m) = option_map JStr (event_date m)
  /\ lookup "status" (stored_meta m) = option_map JStr (status m)
  /\ lookup "team_stats" (stored_meta m) = option_map JStr (team_stats m)
  /\ lookup "context" (stored_meta m)
     = option_map (fun c => JStr (Json.dumps false (dump_context c))) (context m)
  /\ lookup "scores" (stored_meta m) = Some (JArr (map JStr (scores m)))
  /\ lookup "performers" (stored_meta m)
     = Some (JStr (Json.dumps false (JArr (map dump_performer (performers m))))).
Proof.
  unfold stored_meta.
  destruct (headline m), (event_date m), (status m), (context m), (team_stats m);
    repeat split.
Qed.

End RecordInvariants.

(** X7: whatever the record, the metadata that is returned takes its sport
    and its content type from the file name alone: nba when the name holds
    nba and nfl otherwise, news when the name holds news and score
    otherwise; it carries the file name and the canonical hash of the
    record, and its teams and athletes hold no duplicates. *)
Theorem metadata_kind_by_filename
    (raw : json) (file sid : string) (m : SportsMetadata) :
  extract_smart_metadata raw file sid = Ok m ->
  sport m = (if contains "nba" file then "nba" else "nfl")
  /\ content_type m = (if contains "news" file then "news" else "score")
  /\ source_file m = file
  /\ content_hash m = compute_content_hash raw
  /\ NoDup (teams m) /\ NoDup (athletes m).
Proof.
  intros H. destruct (contains "news" file) eqn:Hfile.
  - destruct (news_metadata_inv raw file sid m Hfile H)
      as (Ec & _ & _ & _ & _ & _ & Es & Eh & Esp & Nt & Na).
    repeat split; assumption.
  - destruct (score_metadata_inv raw file sid m Hfile H)
      as (cs & c & ts & st & _ & Ec & _ & _ & Es & Eh & Esp & Et & Ea & _).
    repeat split; try assumption.
    + rewrite Et. apply NoDup_nodup.
    + rewrite Ea. apply NoDup_nodup.
Qed.

Lemma metadata_kind_by_filename_witness :
  exists m,
    extract_smart_metadata article_example "nfl-news.json" "doc-77" = Ok m
    /\ sport m = "nfl" /\ content_type m = "news".
Proof.
  eexists. split; [vm_compute; reflexivity|].
  match goal with |- sport ?m = _ /\ _ =>
    destruct (metadata_kind_by_filename article_example "nfl-news.json" "doc-77" m)
      as (S & C & _)
  end; [vm_compute; reflexivity|].
  split; [exact S | exact C].
Defined.



(** X9: every record of a news file has a text that starts with NEWS, the
    status news, no scores, an empty performers list, and neither context
    nor team_stats among its stored fields. *)
Theorem news_record_fields (file page : string) (raw : json) (rec : store_record) :
  contains "news" file = true ->
  ingest_doc file page raw = Ok rec ->
  startswith "NEWS: " (chunk_text rec) = true
  /\ lookup "content_type" (meta_dict rec) = Some (JStr "news")
  /\ lookup "status" (meta_dict rec) = Some (JStr "news")
  /\ lookup "scores" (meta_dict rec) = Some (JArr [])
  /\ lookup "performers" (meta_dict rec) = Some (JStr "[]")
  /\ lookup "context" (meta_dict rec) = None
  /\ lookup "team_stats" (meta_dict rec) = None.
Proof.
  intros Hfile H.
  destruct (ingest_doc_inv _ _ _ _ H) as (m & _ & Em & -> & Hn & _).
  destruct (news_metadata_inv _ _ _ _ Hfile Em)
    as (Ec & Est & Esc & Ep & Ectx & Ets & _).
  destruct (Hn Ec) as [d ->].
  destruct (stored_meta_fixed m) as (F1 & _).
  destruct (stored_meta_optional m) as (_ & _ & O3 & O4 & O5 & O6 & O7).
  rewrite F1, O3, O4, O5, O6, O7, Ec, Est, Esc, Ep, Ectx, Ets.
  repeat split.
  exact (startswith_app "NEWS: " (opt_str (headline m) ++ ". " ++ d)).
Qed.

Lemma news_record_fields_witness :
  exists rec,
    ingest_doc "nfl-news.json" (Json.dumps false article_example) article_example
    = Ok rec
    /\ startswith "NEWS: " (chunk_text rec) = true
    /\ lookup "context" (meta_dict rec) = None.
Proof.
  eexists. split; [vm_compute; reflexivity|].
  match goal with |- startswith _ (chunk_text ?r) = _ /\ _ =>
    destruct (news_record_fields "nfl-news.json" (Json.dumps false article_example)
                article_example r) as (S & _ & _ & _ & _ & C & _)
  end; [reflexivity | vm_compute; reflexivity |].
  split; [exact S | exact C].
Defined.

(** X10: every record of a score file has a text that starts with PREVIEW,
    LIVE GAME or FINAL SCORE, the content type score, and a context and a
    team_stats field among its stored fields, both strings. *)
Theorem score_record_fields (file page : string) (raw : json) (rec : store_record) :
  contains "news" file = false ->
  ingest_doc file page raw = Ok rec ->
  (startswith "PREVIEW: " (chunk_text rec) = true
   \/ startswith "LIVE GAME (" (chunk_text rec) = true
   \/ startswith "FINAL SCORE: " (chunk_text rec) = true)
  /\ lookup "content_type" (meta_dict rec) = Some (JStr "score")
  /\ (exists s, lookup "context" (meta_dict rec) = Some (JStr s))
  /\ (exists s, lookup "team_stats" (meta_dict rec) = Some (JStr s)).
Proof.
  intros Hfile H.
  destruct (ingest_doc_inv _ _ _ _ H) as (m & _ & Em & -> & _ & Hs).
  destruct (score_metadata_inv _ _ _ _ Hfile Em)
    as (cs & c & ts & st & _ & Ec & Ectx & Ets & _).
  specialize (Hs Ec).
  destruct (transform_event_to_text_inv _ _ Hs)
    as (comp & cs' & st' & detail & matchup & venue & odds & date & lines & stats
        & _ & _ & _ & _ & Et).
  destruct (stored_meta_fixed m) as (F1 & _).
  destruct (stored_meta_optional m) as (_ & _ & _ & O4 & O5 & _).
  rewrite F1, O4, O5, Ec, Ectx, Ets. simpl.
  split; [|repeat split; eauto].
  rewrite Et. destruct (is_str "pre" st'); [left; apply startswith_app|].
  destruct (is_str "in" st'); right; [left | right]; apply startswith_app.
Qed.

Lemma score_record_fields_witness :
  exists rec,
    ingest_doc "nba-score.json" (Json.dumps false scheduled_event) scheduled_event
    = Ok rec
    /\ lookup "content_type" (meta_dict rec) = Some (JStr "score").
Proof.
  eexists. split; [vm_compute; reflexivity|].
  match goal with |- lookup _ (meta_dict ?r) = _ =>
    destruct (score_record_fields "nba-score.json" (Json.dumps false scheduled_event)
                scheduled_event r) as (_ & C & _)
  end; [reflexivity | vm_compute; reflexivity |].
  exact C.
Defined.

(** X11: an event whose status type has no state is summarised as a
    preview, while its metadata has no status and its stored record no
    status field: the default of the text is not the default of the
    metadata. *)
Theorem missing_state_preview_without_status
    (ev : json) (so : obj) (file sid : string) :
  contains "news" file = false ->
  status_type_of ev = Ok (JObj so) -> lookup "state" so = None ->
  (forall text, transform_event_to_text ev = Ok text ->
                startswith "PREVIEW: " text = true)
  /\ (forall m, extract_smart_metadata ev file sid = Ok m ->
                status m = None /\ lookup "status" (stored_meta m) = None).
Proof.
  intros Hfile Hso Hstate. unfold status_type_of in Hso.
  apply bind_ok in Hso as (sts & Ests & Hso). split.
  - intros text Et.
    destruct (transform_event_to_text_inv _ _ Et)
      as (comp & cs' & st' & detail & matchup & venue & odds & date & lines & stats
          & _ & _ & Hst & _ & ->).
    unfold state_of in Hst. rewrite Ests in Hst. cbn [bind] in Hst.
    rewrite Hso in Hst. cbn [bind Py.get] in Hst. rewrite Hstate in Hst.
    inversion Hst; subst st'. apply startswith_app.
  - intros m Em.
    destruct (score_metadata_inv _ _ _ _ Hfile Em)
      as (cs & c & ts & st & _ & _ & _ & _ & _ & _ & _ & _ & _ & _ & Est & Eo).
    rewrite Ests in Est. cbn [bind] in Est. rewrite Hso in Est.
    cbn [bind Py.get] in Est. rewrite Hstate in Est. inversion Est; subst st.
    assert (Hs : status m = None) by (destruct (status m); [discriminate | reflexivity]).
    split; [exact Hs|].
    destruct (stored_meta_optional m) as (_ & _ & O3 & _). now rewrite O3, Hs.
Qed.

Lemma missing_state_preview_without_status_witness :
  exists text m,
    transform_event_to_text stateless_event = Ok text
    /\ startswith "PREVIEW: " text = true
    /\ extract_smart_metadata stateless_event "nfl-score.json" "doc-407" = Ok m
    /\ status m = None.
Proof.
  destruct (missing_state_preview_without_status stateless_event
              [("detail", JStr "Postponed")] "nfl-score.json" "doc-407"
              eq_refl eq_refl eq_refl) as [T M].
  do 2 eexists. split; [vm_compute; reflexivity|].
  split; [apply T; vm_compute; reflexivity|].
  split; [vm_compute; reflexivity|].
  apply M. vm_compute. reflexivity.
Defined.

(** ** The digest *)

Section DigestShape.

Lemma string_length_app (a b : string) :
  String.length (a ++ b) = String.length a + String.length b.
Proof. induction a as [|c a IH]; simpl; [reflexivity | now rewrite IH]. Qed.

Lemma string_forall_app (p : ascii -> bool) (a b : string) :
  string_forall p (a ++ b) = string_forall p a && string_forall p b.
Proof.
  induction a as [|c a IH]; simpl; [reflexivity|].
  now rewrite IH, andb_assoc.
Qed.

Lemma le_bytes_length (n : nat) (x : Z) : List.length (MD5.le_bytes n x) = n.
Proof. unfold MD5.le_bytes. now rewrite length_map, length_seq. Qed.

Lemma digest_length (msg : list Z) : List.length (MD5.digest msg) = 16.
Proof.
  unfold MD5.digest.
  destruct (fold_left MD5.process _ MD5.init) as [[[a b] c] d].
  now rewrite !length_app, !le_bytes_length.
Qed.

Lemma hex_digit_is_hex (x : Z) : is_hex_char (MD5.hex_digit x) = true.
Proof.
  unfold MD5.hex_digit, is_hex_char.
  set (L := list_ascii_of_string "0123456789abcdef").
  apply existsb_exists. exists (nth (Z.to_nat x) L "0"%char).
  split; [|apply Ascii.eqb_refl].
  destruct (nth_in_or_default (Z.to_nat x) L "0"%char) as [H|H]; [exact H|].
  rewrite H. now left.
Qed.

Lemma concat_empty_cons (x : string) (xs : list string) :
  String.concat "" (x :: xs) = x ++ String.concat "" xs.
Proof. destruct xs; simpl; [now rewrite append_nil_r | reflexivity]. Qed.

Lemma hex_concat (bs : list Z) :
  String.length (String.concat "" (map MD5.hex_byte bs)) = 2 * List.length bs
  /\ string_forall is_hex_char (String.concat "" (map MD5.hex_byte bs)) = true.
Proof.
  induction bs as [|b bs [IHl IHh]]; [split; reflexivity|].
  cbn [map]. rewrite concat_empty_cons, string_length_app, string_forall_app.
  rewrite IHl, IHh. unfold MD5.hex_byte. cbn [String.length string_forall List.length].
  rewrite !hex_digit_is_hex. split; [lia | reflexivity].
Qed.

Lemma md5_hex_shape (s : string) :
  String.length (md5_hex s) = 32
  /\ string_forall is_hex_char (md5_hex s) = true.
Proof.
  unfold md5_hex, MD5.hexdigest.
  destruct (hex_concat (MD5.digest (utf8_encode s))) as [L H].
  now rewrite L, H, digest_length.
Qed.

End DigestShape.

(** X12: the identifier of a record with no id is doc- followed by 32
    lower-case hexadecimal digits, whatever the page content. *)
Theorem fallback_identifier_shape (page : string) (o : obj) :
  lookup "id" o = None ->
  exists h,
    stable_id_of page (JObj o) = Ok ("doc-" ++ h)
    /\ String.length h = 32
    /\ string_forall is_hex_char h = true.
Proof.
  intros H. exists (md5_hex page). unfold stable_id_of. simpl. rewrite H. simpl.
  split; [reflexivity | apply md5_hex_shape].
Qed.

Lemma fallback_identifier_shape_witness :
  exists h,
    stable_id_of "{}" (JObj []) = Ok ("doc-" ++ h)
    /\ String.length h = 32
    /\ string_forall is_hex_char h = true.
Proof. apply fallback_identifier_shape. reflexivity. Defined.

(** ** More on retrieval *)

Section RetrieverMore.

Variable json_loads : string -> option json.

Lemma mapM_raises {A B : Type} (f : A -> res B) (l : list A) (x : A) (e : exn) :
  In x l -> f x = Raise e -> exists e', mapM f l = Raise e'.
Proof.
  induction l as [|a l IH]; simpl; intros Hin Hx; [destruct Hin|].
  destruct (f a) as [y|e0] eqn:Fa; simpl; [|eauto].
  destruct Hin as [->|Hin]; [congruence|].
  destruct (IH Hin Hx) as [e' ->]. simpl. eauto.
Qed.

Lemma try_loads_decodes (fields : json) (key s : string) (default v : json) :
  Py.item fields key = Ok (JStr s) -> json_loads s = Some v ->
  try_loads json_loads fields key default = Ok v.
Proof.
  intros Hi Hl. unfold try_loads.
  destruct fields; try discriminate Hi. simpl in Hi |- *.
  destruct (lookup key kvs) as [x|]; [|discriminate]. simpl.
  inversion Hi; subst. simpl. now rewrite Hl.
Qed.

Lemma try_loads_absent (fields : json) (key : string) (default : json) :
  Py.contains_key key fields = Ok false ->
  try_loads json_loads fields key default = Ok default.
Proof. intros H. unfold try_loads. now rewrite H. Qed.

Lemma search_hit_fields (hit : json) :
  hit_shape hit = true ->
  exists fields r,
    fields_of hit = Ok fields
    /\ search_hit json_loads hit = Ok r
    /\ try_loads json_loads fields "performers" (JArr []) = Ok (sr_performers r)
    /\ try_loads json_loads fields "context" (JObj []) = Ok (sr_context r)
    /\ Py.get hit "_score" JNull = Ok (sr_score r)
    /\ Py.get fields "chunk_text" JNull = Ok (sr_text r)
    /\ Py.get fields "headline" JNull = Ok (sr_headline r)
    /\ Py.get fields "event_date" JNull = Ok (sr_date r).
Proof.
  destruct hit as [| | | | | |h]; try discriminate.
  unfold hit_shape, obj_with, opt_key. intros Hs.
  unfold search_hit, fields_of. simpl.
  assert (exists f, match lookup "fields" h with Some v => v | None => JObj [] end = JObj f)
    as [f Ef].
  { destruct (lookup "fields" h) as [[]|]; try discriminate; eauto. }
  rewrite Ef. exists (JObj f).
  destruct (try_loads_total json_loads f "performers" (JArr [])) as [p Hp].
  destruct (try_loads_total json_loads f "context" (JObj [])) as [c Hc].
  rewrite Hp, Hc. simpl. eexists. repeat split.
Qed.

End RetrieverMore.

(** X13: one hit that cannot be read empties the answer: when reading any
    hit of the response raises, [search] returns the empty list, the
    readable hits included. *)
Theorem search_drops_all_on_unreadable_hit
    (json_loads : string -> option json) (response : json)
    (hits : list json) (h : json) (e : exn) :
  hits_of response = Ok hits ->
  In h hits -> search_hit json_loads h = Raise e ->
  search json_loads (Ok response) = [].
Proof.
  intros Hh Hin He. unfold search, search_results. simpl. rewrite Hh. simpl.
  destruct (mapM_raises _ _ _ _ Hin He) as [e' ->]. reflexivity.
Qed.

Lemma search_drops_all_on_unreadable_hit_witness :
  search loads_empty_only (Ok response_null_hit) = [].
Proof.
  eapply (search_drops_all_on_unreadable_hit loads_empty_only response_null_hit
            _ JNull); [reflexivity | right; left; reflexivity | reflexivity].
Defined.

(** X14: when the hits of the response are dicts with dict fields, the
    result at each position carries the score of its hit and the chunk_text,
    headline and event_date of its fields, null for a missing one; a stored
    performers or context string that decodes is replaced by what it decodes
    to, and a missing one by the empty list or the empty dict. *)
Theorem search_returns_hit_fields
    (json_loads : string -> option json) (response : json) (hits : list json) :
  hits_of response = Ok hits ->
  forallb hit_shape hits = true ->
  forall i hit fields,
    nth_error hits i = Some hit ->
    fields_of hit = Ok fields ->
    exists r,
      nth_error (search json_loads (Ok response)) i = Some r
      /\ Py.get hit "_score" JNull = Ok (sr_score r)
      /\ Py.get fields "chunk_text" JNull = Ok (sr_text r)
      /\ Py.get fields "headline" JNull = Ok (sr_headline r)
      /\ Py.get fields "event_date" JNull = Ok (sr_date r)
      /\ (forall s v, Py.item fields "performers" = Ok (JStr s) ->
                      json_loads s = Some v -> sr_performers r = v)
      /\ (forall s v, Py.item fields "context" = Ok (JStr s) ->
                      json_loads s = Some v -> sr_context r = v)
      /\ (Py.contains_key "performers" fields = Ok false -> sr_performers r = JArr [])
      /\ (Py.contains_key "context" fields = Ok false -> sr_context r = JObj []).
Proof.
  intros Hh Hs i hit fields Hi Hf. unfold search, search_results. simpl.
  rewrite Hh. simpl.
  assert (T : exists rs, mapM (search_hit json_loads) hits = Ok rs).
  { apply mapM_total. rewrite forallb_forall in Hs. apply Forall_forall.
    intros x Hx. destruct (search_hit_fields json_loads x (Hs x Hx)) as (f & r & _ & E & _).
    eauto. }
  destruct T as [rs E]. rewrite E.
  destruct (mapM_nth _ _ _ E i hit Hi) as (r & Hr & Er).
  exists r. split; [exact Hr|].
  rewrite forallb_forall in Hs.
  destruct (search_hit_fields json_loads hit (Hs hit (nth_error_In _ _ Hi)))
    as (f & r' & Hf' & Er' & Hp & Hc & H1 & H2 & H3 & H4).
  rewrite Hf in Hf'. inversion Hf'; subst f.
  rewrite Er in Er'. inversion Er'; subst r'.
  repeat split; try assumption.
  - intros s v Hitem Hl.
    rewrite (try_loads_decodes json_loads _ _ _ _ _ Hitem Hl) in Hp. now inversion Hp.
  - intros s v Hitem Hl.
    rewrite (try_loads_decodes json_loads _ _ _ _ _ Hitem Hl) in Hc. now inversion Hc.
  - intros Ha. rewrite (try_loads_absent json_loads _ _ _ Ha) in Hp. now inversion Hp.
  - intros Ha. rewrite (try_loads_absent json_loads _ _ _ Ha) in Hc. now inversion Hc.
Qed.

Lemma search_returns_hit_fields_witness :
  exists r,
    nth_error (search loads_empty_only (Ok response_example)) 1 = Some r
    /\ sr_text r = JStr "NEWS: None. "
    /\ sr_performers r = JArr []
    /\ sr_context r = JObj [].
Proof.
  destruct (search_returns_hit_fields loads_empty_only response_example _
              eq_refl eq_refl 1 _ _ eq_refl eq_refl)
    as (r & Hr & _ & Ht & _ & _ & Hp & _ & _ & Hc).
  exists r. split; [exact Hr|]. split; [|split].
  - simpl in Ht. now inversion Ht.
  - apply (Hp "[]"); reflexivity.
  - apply Hc. reflexivity.
Defined.

(** X15: the tool answers that nothing was found exactly when the search
    returned no result; in particular it does so when the index call
    raises. *)
Theorem search_knowledge_base_no_results
    (json_loads : string -> option json) (response : res json) :
  (search_knowledge_base json_loads response = "No results found in the database."
   <-> search json_loads response = [])
  /\ forall e, search_knowledge_base json_loads (Raise e)
               = "No results found in the database.".
Proof.
  split; [|reflexivity]. unfold search_knowledge_base.
  destruct (search json_loads response) as [|r rest]; [split; reflexivity|].
  cbn [knowledge_context]. unfold result_block.
  change (nl ++ ?x) with (String "010"%char x).
  split; [|discriminate]. simpl. discriminate.
Qed.

(** ** The two ingestion paths *)

Section TwoPaths.

Lemma item_get (d : json) (k : string) (v default : json) :
  Py.item d k = Ok v -> Py.get d k default = Ok v.
Proof.
  destruct d; try discriminate. simpl.
  destruct (lookup k kvs); intros E; now inversion E.
Qed.

Lemma process_scores_scores_inv (ev : json) (ss : list string) :
  process_scores_scores ev = Ok ss ->
  exists cs,
    competitors_of ev = Ok cs
    /\ ss = map (fun c => competitor_name c ++ " " ++ competitor_score c) cs.
Proof.
  unfold process_scores_scores. intros H.
  apply bind_ok in H as (comps & Ecomps & H). apply bind_ok in H as (comp & Ecomp & H).
  apply bind_ok in H as (cj & Ecj & H). apply bind_ok in H as (cs & Ecs & H).
  exists cs. split.
  - unfold competitors_of, competition_of.
    rewrite (item_get _ _ _ (JArr [JObj []]) Ecomps). cbn [bind]. rewrite Ecomp.
    cbn [bind]. rewrite (item_get _ _ _ (JArr []) Ecj). exact Ecs.
  - eapply mapM_ok_inv; [|exact H].
    intros t y Ht. unfold competitor_name, competitor_score.
    apply bind_ok in Ht as (team & Et & Ht). apply bind_ok in Ht as (n & En & Ht).
    apply bind_ok in Ht as (sc & Esc & Ht).
    rewrite Et, En, (item_get _ _ _ (JStr "0") Esc). now inversion Ht.
Qed.

End TwoPaths.

(** X16: the two ingestion paths agree on the scores: whenever
    [process_scores] builds the score strings of an event and the metadata
    of the same event is returned for a score file, the scores of the
    metadata are those strings, in the same order. *)
Theorem process_scores_agrees_with_metadata
    (ev : json) (ss : list string) (file sid : string) (m : SportsMetadata) :
  process_scores_scores ev = Ok ss ->
  contains "news" file = false ->
  extract_smart_metadata ev file sid = Ok m ->
  scores m = ss.
Proof.
  intros Hp Hfile Hm.
  destruct (process_scores_scores_inv ev ss Hp) as (cs & Hcs & ->).
  destruct (extract_smart_metadata_inv ev file sid m Hfile Hm)
    as (comp & cs' & c & _ & Hcs' & Es & _).
  rewrite Hcs in Hcs'. inversion Hcs'; subst cs'. exact Es.
Qed.

Lemma process_scores_agrees_with_metadata_witness :
  exists m,
    extract_smart_metadata scenario_event "nba-score.json" "doc-401" = Ok m
    /\ process_scores_scores scenario_event = Ok (scores m).
Proof.
  eexists. split; [vm_compute; reflexivity|].
  match goal with |- _ = Ok (scores ?m0) =>
    rewrite (process_scores_agrees_with_metadata scenario_event
               ["TeamA 110"; "TeamB 98"] "nba-score.json" "doc-401" m0)
  end; vm_compute; reflexivity.
Defined.

(** X17: the two paths never give the same identifier: an identifier of
    the batch ingestion differs from every identifier of the sync script,
    for a score as for an article. *)
Theorem batch_and_sync_ids_differ
    (page : string) (raw rec : json) (i j : string) :
  stable_id_of page raw = Ok i ->
  process_scores_id rec = Ok j \/ process_news_id rec = Ok j ->
  String.eqb i j = false.
Proof.
  intros Hi Hj. unfold stable_id_of in Hi.
  apply bind_ok in Hi as (v & _ & Hi). inversion Hi; subst i; clear Hi.
  destruct Hj as [Hj|Hj]; [unfold process_scores_id in Hj | unfold process_news_id in Hj];
    apply bind_ok in Hj as (w & _ & Hj); inversion Hj; reflexivity.
Qed.

Lemma batch_and_sync_ids_differ_witness :
  String.eqb "doc-401" "score-401" = false.
Proof.
  apply (batch_and_sync_ids_differ (Json.dumps false scenario_event)
           scenario_event scenario_event);
    [reflexivity | left; reflexivity].
Defined.

(** ** Leaders *)

Section LeaderInvariants.

Lemma mapM_out {A B : Type} (f : A -> res B) (Q : B -> Prop) (l : list A)
    (ys : list B) :
  (forall x y, f x = Ok y -> Q y) -> mapM f l = Ok ys -> Forall Q ys.
Proof.
  intros Hf. revert ys. induction l as [|x l IH]; simpl; intros ys E.
  - inversion E. constructor.
  - apply bind_ok in E as (y & Ey & E). apply bind_ok in E as (ys' & Eys & E).
    inversion E; subst. constructor; eauto.
Qed.

Lemma game_leader_labelled (cat : json) (l : leader) :
  game_leader cat = Ok l -> leader_labelled l.
Proof.
  unfold game_leader. intros H.
  apply bind_ok in H as (n & _ & H). apply bind_ok in H as (d & _ & H).
  inversion H. now left.
Qed.

Lemma team_leaders_labelled (c : json) (ls : list leader) :
  team_leaders c = Ok ls -> Forall leader_labelled ls.
Proof.
  unfold team_leaders. intros H.
  apply bind_ok in H as (t & _ & H). apply bind_ok in H as (tn & _ & H).
  apply bind_ok in H as (cats & _ & H). apply bind_ok in H as (cs & _ & H).
  eapply mapM_out; [|exact H].
  intros cat l Hl. unfold team_leader in Hl.
  apply bind_ok in Hl as (n & _ & Hl). apply bind_ok in Hl as (d & _ & Hl).
  inversion Hl. right. simpl. eauto.
Qed.

End LeaderInvariants.

(** X18: every leader that [extract_leaders] returns has truthy data, and
    is either a leader of the game, with no team, or a leader of a team,
    with a category that is the team followed by a space and the name of
    the category. *)
Theorem extract_leaders_invariants (comp : json) (leaders : list leader) :
  extract_leaders comp = Ok leaders ->
  Forall (fun l => Py.truthy (l_data l) = true /\ leader_labelled l) leaders.
Proof.
  unfold extract_leaders. intros H.
  apply bind_ok in H as (has & _ & H). apply bind_ok in H as (game & Eg & H).
  apply bind_ok in H as (entries & _ & H). apply bind_ok in H as (es & _ & H).
  apply bind_ok in H as (teams & Et & H). inversion H; subst leaders; clear H.
  assert (G : Forall leader_labelled game).
  { destruct has; [|inversion Eg; constructor].
    apply bind_ok in Eg as (ls & _ & Eg). apply bind_ok in Eg as (cs & _ & Eg).
    eapply mapM_out; [|exact Eg]. apply game_leader_labelled. }
  assert (T : Forall leader_labelled (List.concat teams)).
  { apply concat_Forall. eapply mapM_out; [|exact Et]. apply team_leaders_labelled. }
  assert (A : Forall leader_labelled (game ++ List.concat teams))
    by (apply Forall_app; now split).
  apply Forall_forall. intros l Hl. apply filter_In in Hl as [Hin Ht].
  split; [exact Ht|]. rewrite Forall_forall in A. now apply A.
Qed.

Lemma extract_leaders_invariants_witness :
  let comp :=
    JObj [("leaders", JArr [JObj [("displayName", JStr "Assists");
                                  ("leaders", JArr [JObj [("value", JInt 22)]])];
                            JObj [("displayName", JStr "Rebounds")]]);
          ("competitors", JArr [
             JObj [("team", JObj [("abbreviation", JStr "TA")]);
                   ("leaders", JArr [JObj [("displayName", JStr "Points");
                                           ("leaders", JArr [JObj [("value", JInt 30)]])]])]])] in
  exists leaders,
    extract_leaders comp = Ok leaders
    /\ map l_category leaders = [JStr "Assists"; JStr "TA Points"]
    /\ Forall (fun l => Py.truthy (l_data l) = true /\ leader_labelled l) leaders.
Proof.
  intros comp. eexists. split; [vm_compute; reflexivity|]. split; [reflexivity|].
  apply (extract_leaders_invariants comp). vm_compute. reflexivity.
Defined.

(** ** The stored fields *)

(** X19: the stored fields of a record have pairwise distinct names, none
    of them id or chunk_text, so the two leading keys of the record are
    never overwritten; and no stored field is null: a field that is None is
    left out. *)
Theorem stored_meta_keys (m : SportsMetadata) :
  NoDup (map fst (stored_meta m))
  /\ lookup "id" (stored_meta m) = None
  /\ lookup "chunk_text" (stored_meta m) = None
  /\ Forall (fun kv => snd kv <> JNull) (stored_meta m).
Proof.
  unfold stored_meta.
  destruct (headline m), (event_date m), (status m), (context m), (team_stats m);
    simpl; (split; [|split; [reflexivity | split; [reflexivity|]]]);
    repeat constructor; simpl; try discriminate; intuition discriminate.
Qed.

(** ** Event information *)

Section EventInfo.

Tactic Notation "inv_bind" hyp(H) "as" ident(x) ident(E) :=
  apply bind_ok in H as (x & E & H).
Tactic Notation "inv_bind" hyp(H) :=
  let x := fresh "x" in
  let E := fresh "E" in
  apply bind_ok in H as (x & E & H).

Lemma score_event_info_inv (raw : json) (file sid : string) (m : SportsMetadata) :
  contains "news" file = false ->
  extract_smart_metadata raw file sid = Ok m ->
  Py.get raw "name" JNull = Ok (opt_json (headline m))
  /\ Py.get raw "date" JNull = Ok (opt_json (event_date m)).
Proof.
  unfold extract_smart_metadata. intros Hfile H. rewrite Hfile in H. cbn [negb] in H.
  do 24 inv_bind H.
  inv_bind H as hl Ehl. inv_bind H as dt Edt.
  do 5 inv_bind H.
  inv_bind H as mh Emh. inv_bind H as md Emd. inv_bind H.
  cbv zeta in H. injection H as Hm. subst m. cbn.
  apply as_opt_str_inv in Emh, Emd. subst hl dt. now split.
Qed.

Lemma news_event_info_inv (raw : json) (file sid : string) (m : SportsMetadata) :
  contains "news" file = true ->
  extract_smart_metadata raw file sid = Ok m ->
  Py.get raw "headline" JNull = Ok (opt_json (headline m))
  /\ Py.get raw "published" JNull = Ok (opt_json (event_date m)).
Proof.
  unfold extract_smart_metadata. intros Hfile H. rewrite Hfile in H. cbn [negb] in H.
  inv_bind H as hl Ehl. inv_bind H as dt Edt.
  do 3 inv_bind H. cbv zeta in H. do 4 inv_bind H.
  inv_bind H as mh Emh. inv_bind H as md Emd.
  injection H as Hm. subst m. cbn.
  apply as_opt_str_inv in Emh, Emd. subst hl dt. now split.
Qed.

End EventInfo.

(** X20: the headline and the date of the metadata are the feed's own
    values, passed through unchanged: name and date of an event, headline
    and published of an article, and None exactly when the feed has none or
    null; the status of an event is its state. *)
Theorem metadata_passes_event_info_through
    (raw : json) (file sid : string) (m : SportsMetadata) :
  extract_smart_metadata raw file sid = Ok m ->
  (contains "news" file = false ->
   Py.get raw "name" JNull = Ok (opt_json (headline m))
   /\ Py.get raw "date" JNull = Ok (opt_json (event_date m))
   /\ (so <- status_type_of raw ;; Py.get so "state" JNull)
      = Ok (opt_json (status m)))
  /\ (contains "news" file = true ->
      Py.get raw "headline" JNull = Ok (opt_json (headline m))
      /\ Py.get raw "published" JNull = Ok (opt_json (event_date m))).
Proof.
  intros H. split; intros Hfile.
  - destruct (score_event_info_inv raw file sid m Hfile H) as [Hn Hd].
    destruct (score_metadata_inv raw file sid m Hfile H)
      as (cs & c & ts & st & _ & _ & _ & _ & _ & _ & _ & _ & _ & _ & Est & Eo).
    repeat split; try assumption. subst st. unfold status_type_of.
    apply bind_ok in Est as (a & Ea & Est). rewrite Ea. cbn [bind].
    apply bind_ok in Est as (b & Eb & Est). rewrite Eb. exact Est.
  - exact (news_event_info_inv raw file sid m Hfile H).
Qed.

Lemma metadata_passes_event_info_through_witness :
  exists m,
    extract_smart_metadata scenario_event "nba-score.json" "doc-401" = Ok m
    /\ headline m = Some "TeamA at TeamB"
    /\ event_date m = Some "2025-01-01T00:00Z"
    /\ status m = Some "post".
Proof.
  eexists. split; [vm_compute; reflexivity|].
  match goal with |- headline ?m0 = _ /\ _ =>
    destruct (metadata_passes_event_info_through scenario_event "nba-score.json"
                "doc-401" m0) as [S _]
  end; [vm_compute; reflexivity|].
  destruct (S eq_refl) as (Hn & Hd & Hs).
  repeat split.
Defined.

(** ** Leader lines *)

(** X21: a leader whose data names no athlete and has no display value, or
    an empty or null one, is written as Unknown with the value N/A. *)
Theorem leader_line_defaults (l : leader) (d : obj) :
  l_data l = JObj d ->
  lookup "athlete" d = None ->
  lookup "displayValue" d = None \/ lookup "displayValue" d = Some (JStr "")
  \/ lookup "displayValue" d = Some JNull ->
  leader_line l = Ok (Py.str (l_category l) ++ ": Unknown (N/A)").
Proof.
  intros Hd Ha Hv. unfold leader_line, athlete_name_of, leader_value_of.
  rewrite Hd. cbn [Py.get bind]. rewrite Ha. cbn [Py.get lookup bind].
  destruct Hv as [-> | [-> | ->]]; reflexivity.
Qed.

Lemma leader_line_defaults_witness :
  leader_line {| l_category := JStr "Assists";
                 l_data := JObj [("value", JInt 22)];
                 l_team := JNull |}
  = Ok "Assists: Unknown (N/A)".
Proof.
  exact (leader_line_defaults
           {| l_category := JStr "Assists";
              l_data := JObj [("value", JInt 22)];
              l_team := JNull |}
           [("value", JInt 22)] eq_refl eq_refl (or_introl eq_refl)).
Defined.

(** ** The answer of the tool *)

Section KnowledgeContext.


End KnowledgeContext.



(** ** Team statistics *)

Section TeamStats.

Lemma concat_all_nil {A : Type} (ll : list (list A)) :
  Forall (fun l => l = []) ll -> List.concat ll = [].
Proof. induction 1 as [|l ll -> _ IH]; simpl; auto. Qed.

Lemma mapM_out_in {A B : Type} (f : A -> res B) (Q : B -> Prop) (l : list A)
    (ys : list B) :
  (forall x y, In x l -> f x = Ok y -> Q y) -> mapM f l = Ok ys -> Forall Q ys.
Proof.
  revert ys. induction l as [|x l IH]; simpl; intros ys Hf E.
  - inversion E. constructor.
  - apply bind_ok in E as (y & Ey & E). apply bind_ok in E as (ys' & Eys & E).
    inversion E; subst. constructor; eauto.
Qed.

Lemma team_stats_entry_unrecognised (c : json) (y : list string) :
  unrecognised_only c -> team_stats_entry c = Ok y -> y = [].
Proof.
  intros Hu H. unfold team_stats_entry in H.
  apply bind_ok in H as (t & _ & H). apply bind_ok in H as (abbr & _ & H).
  apply bind_ok in H as (stats & Es & H). apply bind_ok in H as (ss & Ess & H).
  apply bind_ok in H as (ks & Eks & H).
  assert (K : List.concat ks = []).
  { apply concat_all_nil. eapply mapM_out_in; [|exact Eks].
    intros st k Hin Hk. unfold key_stat in Hk.
    apply bind_ok in Hk as (n & En & Hk).
    rewrite (Hu stats ss st n Es Ess Hin En) in Hk. now inversion Hk. }
  rewrite K in H. now inversion H.
Qed.

End TeamStats.

(** X23: when no competitor has one of the three recognised percentages
    among its statistics, the team statistics summary is the empty string:
    other statistics never appear in it, and their abbreviation and
    displayValue are not read. *)
Theorem team_stats_empty_without_recognised
    (comp cj : json) (cs : list json) (s : string) :
  Py.get comp "competitors" (JArr []) = Ok cj -> Py.iter cj = Ok cs ->
  Forall unrecognised_only cs ->
  extract_team_stats comp = Ok s ->
  s = "" /\ stats_block_of s = "".
Proof.
  intros Hcj Hcs Hu H. unfold extract_team_stats in H.
  rewrite Hcj in H. cbn [bind] in H. rewrite Hcs in H. cbn [bind] in H.
  apply bind_ok in H as (summary & Es & H).
  assert (K : List.concat summary = []).
  { apply concat_all_nil. eapply mapM_out_in; [|exact Es].
    intros c y Hin Hy. rewrite Forall_forall in Hu.
    exact (team_stats_entry_unrecognised c y (Hu c Hin) Hy). }
  rewrite K in H. inversion H. split; reflexivity.
Qed.

Lemma team_stats_empty_without_recognised_witness :
  extract_team_stats
    (JObj [("competitors", JArr [
       JObj [("team", JObj [("abbreviation", JStr "NE")]);
             ("statistics", JArr [JObj [("name", JStr "rushingYards")]])]])])
  = Ok "".
Proof.
  match goal with |- extract_team_stats ?comp = _ =>
    destruct (team_stats_empty_without_recognised comp
                (JArr [JObj [("team", JObj [("abbreviation", JStr "NE")]);
                             ("statistics", JArr [JObj [("name", JStr "rushingYards")]])]])
                [JObj [("team", JObj [("abbreviation", JStr "NE")]);
                       ("statistics", JArr [JObj [("name", JStr "rushingYards")]])]]
                "" eq_refl eq_refl) as [_ _]
  end.
  - constructor; [|constructor].
    intros stats ss st n Es Ei Hin Hn. simpl in Es. inversion Es; subst stats.
    simpl in Ei. inversion Ei; subst ss. destruct Hin as [<-|[]].
    simpl in Hn. inversion Hn. reflexivity.
  - reflexivity.
  - reflexivity.
Defined.

(** ** From ingestion to the answer of the tool *)

Section ReadBack.

Variable json_loads : string -> option json.

Lemma try_loads_stored (fs : obj) (key : string) (default v : json) (o : option json) :
  lookup key fs = option_map (fun x => JStr (Json.dumps false x)) o ->
  (forall x, o = Some x -> decodes json_loads x) ->
  v = match o with Some x => x | None => default end ->
  try_loads json_loads (JObj fs) key default = Ok v.
Proof.
  intros Hl Hd ->. destruct o as [x|]; simpl in Hl.
  - eapply try_loads_decodes.
    + simpl. rewrite Hl. reflexivity.
    + exact (Hd x eq_refl).
  - apply try_loads_absent. simpl. now rewrite Hl.
Qed.

Lemma read_back (rec : store_record) (m : SportsMetadata) (hit : json) :
  meta_dict rec = stored_meta m ->
  hit_of rec hit ->
  decodes json_loads (JArr (map dump_performer (performers m))) ->
  (forall c, context m = Some c -> decodes json_loads (dump_context c)) ->
  exists r,
    search_hit json_loads hit = Ok r
    /\ sr_text r = JStr (chunk_text rec)
    /\ sr_headline r = opt_json (headline m)
    /\ sr_date r = opt_json (event_date m)
    /\ sr_performers r = JArr (map dump_performer (performers m))
    /\ sr_context r = match context m with
                      | Some c => dump_context c
                      | None => JObj []
                      end.
Proof.
  intros Em (fs & Ef & Et & Ek) Dp Dc.
  destruct (stored_meta_optional m) as (Lh & Ld & _ & _ & Lc & _ & Lp).
  rewrite <- Em in Lh, Ld, Lc, Lp.
  rewrite <- (Ek "headline") in Lh by (unfold read_keys; simpl; auto).
  rewrite <- (Ek "event_date") in Ld by (unfold read_keys; simpl; auto).
  rewrite <- (Ek "context") in Lc by (unfold read_keys; simpl; auto).
  rewrite <- (Ek "performers") in Lp by (unfold read_keys; simpl; auto).
  assert (exists sc, Py.get hit "_score" JNull = Ok sc) as [sc Esc].
  { destruct hit; try discriminate Ef. simpl. eauto. }
  unfold search_hit. rewrite Ef. cbn [bind].
  rewrite (try_loads_stored fs "performers" (JArr [])
             (JArr (map dump_performer (performers m)))
             (Some (JArr (map dump_performer (performers m))))); cycle 1.
  { exact Lp. } { intros x E. inversion E; subst x. exact Dp. } { reflexivity. }
  cbn [bind].
  rewrite (try_loads_stored fs "context" (JObj [])
             (match context m with Some c => dump_context c | None => JObj [] end)
             (option_map dump_context (context m))); cycle 1.
  { rewrite Lc. destruct (context m); reflexivity. }
  { intros x E. destruct (context m) as [c|]; inversion E; subst x. now apply Dc. }
  { destruct (context m); reflexivity. }
  cbn [bind]. rewrite Esc. cbn [bind]. simpl Py.get. rewrite Et, Lh, Ld.
  cbn [bind]. eexists. split; [reflexivity|]. simpl.
  repeat split; [destruct (headline m) | destruct (event_date m)]; reflexivity.
Qed.

End ReadBack.

(** X24: what ingestion stores is what the search hands back: when a hit
    carries the stored fields of an ingested record and the decoder gives
    back the serialised performers and context, the search result has the
    chunk text, the headline and the date of the record, the performers as
    the list of their dumps, and the dump of the game context, or the empty
    dict for a record with no context. *)
Theorem stored_record_read_back
    (json_loads : string -> option json) (f p : string) (raw : json)
    (rec : store_record) (m : SportsMetadata) (hit : json) :
  ingest_doc f p raw = Ok rec ->
  extract_smart_metadata raw f (rec_id rec) = Ok m ->
  hit_of rec hit ->
  decodes json_loads (JArr (map dump_performer (performers m))) ->
  (forall c, context m = Some c -> decodes json_loads (dump_context c)) ->
  exists r,
    search_hit json_loads hit = Ok r
    /\ sr_text r = JStr (chunk_text rec)
    /\ sr_headline r = opt_json (headline m)
    /\ sr_date r = opt_json (event_date m)
    /\ sr_performers r = JArr (map dump_performer (performers m))
    /\ sr_context r = match context m with
                      | Some c => dump_context c
                      | None => JObj []
                      end.
Proof.
  intros Hi Hm Hh Dp Dc.
  destruct (ingest_doc_inv f p raw rec Hi) as (m' & _ & Hm' & Em & _).
  rewrite Hm in Hm'. inversion Hm'; subst m'.
  exact (read_back json_loads rec m hit Em Hh Dp Dc).
Qed.

Lemma stored_record_read_back_witness :
  exists rec m,
    ingest_doc "nba-score.json" (Json.dumps false scenario_event) scenario_event = Ok rec
    /\ extract_smart_metadata scenario_event "nba-score.json" (rec_id rec) = Ok m
    /\ exists r,
         search_hit
           (loads_table [JArr (map dump_performer (performers m));
                         match context m with
                         | Some c => dump_context c
                         | None => JObj []
                         end])
           (hit_example JNull rec) = Ok r
         /\ sr_text r = JStr (chunk_text rec)
         /\ sr_headline r = opt_json (headline m)
         /\ sr_date r = opt_json (event_date m)
         /\ sr_performers r = JArr (map dump_performer (performers m))
         /\ sr_context r = match context m with
                           | Some c => dump_context c
                           | None => JObj []
                           end.
Proof.
  eexists. eexists.
  split; [vm_compute; reflexivity|]. split; [vm_compute; reflexivity|].
  match goal with
  | |- exists r, search_hit ?jl (hit_example _ ?rec) = _ /\ _
                 /\ sr_headline r = opt_json (headline ?m) /\ _ =>
      apply (stored_record_read_back jl "nba-score.json"
               (Json.dumps false scenario_event) scenario_event rec m)
  end.
  - vm_compute; reflexivity.
  - vm_compute; reflexivity.
  - eexists. split; [reflexivity|]. split; [reflexivity|].
    intros k Hk. unfold read_keys in Hk. simpl in Hk.
    destruct Hk as [<-|[<-|[<-|[<-|[]]]]]; reflexivity.
  - vm_compute; reflexivity.
  - intros c E. vm_compute in E. inversion E; subst c. vm_compute; reflexivity.
Defined.

(** X25: how an ingested record reads in the answer of the tool: under the
    conditions of the read back, its block is the label of its rank and its
    chunk text, followed for a game by a Context line that holds the dump
    of the game context, and by nothing for a news article; a record has a
    context exactly when its file is not a news file. *)
Theorem ingested_record_block
    (json_loads : string -> option json) (f p : string) (raw : json)
    (rec : store_record) (m : SportsMetadata) (hit : json) (i : nat) :
  ingest_doc f p raw = Ok rec ->
  extract_smart_metadata raw f (rec_id rec) = Ok m ->
  hit_of rec hit ->
  decodes json_loads (JArr (map dump_performer (performers m))) ->
  (forall c, context m = Some c -> decodes json_loads (dump_context c)) ->
  exists r,
    search_hit json_loads hit = Ok r
    /\ result_block i r
       = (nl ++ "[Result " ++ str_of_Z (Z.of_nat (i + 1)) ++ "] " ++ chunk_text rec)
         ++ match context m with
            | Some c => nl ++ "Context: " ++ Py.str (dump_context c)
            | None => ""
            end
    /\ (context m = None <-> contains "news" f = true).
Proof.
  intros Hi Hm Hh Dp Dc.
  destruct (ingest_doc_inv f p raw rec Hi) as (m' & _ & Hm' & Em & _).
  rewrite Hm in Hm'. inversion Hm'; subst m'.
  destruct (read_back json_loads rec m hit Em Hh Dp Dc)
    as (r & Er & Et & _ & _ & _ & Ec).
  exists r. split; [exact Er|]. split.
  - unfold result_block. rewrite Et, Ec.
    destruct (context m); reflexivity.
  - destruct (contains "news" f) eqn:Hfile.
    + destruct (news_metadata_inv raw f _ m Hfile Hm) as (_ & _ & _ & _ & C & _).
      split; auto.
    + destruct (score_metadata_inv raw f _ m Hfile Hm)
        as (cs & c & ts & st & _ & _ & C & _).
      rewrite C. split; discriminate.
Qed.

Lemma ingested_record_block_witness :
  exists rec m,
    ingest_doc "nfl-news.json" (Json.dumps false article_example) article_example = Ok rec
    /\ extract_smart_metadata article_example "nfl-news.json" (rec_id rec) = Ok m
    /\ exists r,
         search_hit loads_empty_only (hit_example JNull rec) = Ok r
         /\ result_block 0 r
            = (nl ++ "[Result " ++ str_of_Z (Z.of_nat (0 + 1)) ++ "] " ++ chunk_text rec)
              ++ match context m with
                 | Some c => nl ++ "Context: " ++ Py.str (dump_context c)
                 | None => ""
                 end
         /\ (context m = None <-> contains "news" "nfl-news.json" = true).
Proof.
  eexists. eexists.
  split; [vm_compute; reflexivity|]. split; [vm_compute; reflexivity|].
  match goal with
  | |- exists r, search_hit _ (hit_example _ ?rec) = _ /\ _
                 /\ (context ?m = None <-> _) =>
      apply (ingested_record_block loads_empty_only "nfl-news.json"
               (Json.dumps false article_example) article_example rec m)
  end.
  - vm_compute; reflexivity.
  - vm_compute; reflexivity.
  - eexists. split; [reflexivity|]. split; [reflexivity|].
    intros k Hk. unfold read_keys in Hk. simpl in Hk.
    destruct Hk as [<-|[<-|[<-|[<-|[]]]]]; reflexivity.
  - vm_compute; reflexivity.
  - intros c E. vm_compute in E. discriminate E.
Defined.
